(** * Schwab 1099-B to TXF converters: a shallow embedding and its properties

    The repository holds two independent command-line programs that turn the
    text of a Schwab 1099-B statement (as printed by [pdftotext -raw]) into a
    TXF file:

    - [convert-1099B-2022.py], the checkbox-driven converter (module
      [Convert2022] below), recognises records with regular expressions and
      keeps per-checkbox totals;
    - [taxform_parser.py], the self-contained converter (module
      [TaxformParser] below), reads records token by token.

    Text is modelled as lists of 8-bit characters; integers as [Z]/[N];
    [decimal.Decimal] as sign, coefficient and exponent with the arithmetic of
    Python's default context; binary floating point, the C library's
    [strftime] and the clock are an interface ([PyRuntime]). *)

From Stdlib Require Import ZArith QArith Qpower Ascii String List Lia.
From stdpp Require Import base option list sorting gmap strings pretty.

Local Open Scope Z_scope.
Local Open Scope list_scope.

(** ** Text *)

Definition str := list ascii.

Definition lit (s : string) : str := list_ascii_of_string s.

Definition code (c : ascii) : N := N_of_ascii c.

(** [str.isspace] and the regular expression class [\s], for code points
    below 256. *)
Definition is_space (c : ascii) : bool :=
  let n := code c in
  ((9 <=? n) && (n <=? 13) || (28 <=? n) && (n <=? 32)
   || (n =? 133) || (n =? 160))%N.

(** The class [\d], for code points below 256. *)
Definition is_digit (c : ascii) : bool :=
  let n := code c in ((48 <=? n) && (n <=? 57))%N.

Definition digit_val (c : ascii) : N := (code c - 48)%N.

Definition char_eqb (a b : ascii) : bool := bool_decide (a = b).

Definition str_eqb (a b : str) : bool := bool_decide (a = b).

Fixpoint startswith (s p : str) : bool :=
  match p, s with
  | [], _ => true
  | c :: p', d :: s' => char_eqb c d && startswith s' p'
  | _ :: _, [] => false
  end.

Definition endswith (s p : str) : bool := startswith (rev s) (rev p).

(** [s.replace(c, '')] for a one-character [c]. *)
Definition remove_char (c : ascii) (s : str) : str :=
  List.filter (fun d => negb (char_eqb c d)) s.

(** [s.split(c)] for a one-character separator: never empty, adjacent
    separators give empty pieces. *)
Fixpoint split_on (c : ascii) (s : str) : list str :=
  match s with
  | [] => [[]]
  | d :: s' =>
      if char_eqb c d then [] :: split_on c s'
      else match split_on c s' with
           | w :: ws => (d :: w) :: ws
           | [] => [[d]]
           end
  end.

Fixpoint lstrip (s : str) : str :=
  match s with
  | c :: s' => if is_space c then lstrip s' else s
  | [] => []
  end.

Definition strip (s : str) : str := rev (lstrip (rev (lstrip s))).

Definition upper_char (c : ascii) : ascii :=
  let n := code c in
  if ((97 <=? n) && (n <=? 122))%N then ascii_of_N (n - 32) else c.

(** [s.upper()], on ASCII letters. *)
Definition upper (s : str) : str := map upper_char s.

(** Longest prefix of characters in a class, and the rest. *)
Fixpoint span (p : ascii -> bool) (s : str) : str * str :=
  match s with
  | c :: s' => if p c then let '(a, b) := span p s' in (c :: a, b) else ([], s)
  | [] => ([], [])
  end.

Definition digits_to_N (s : str) : N :=
  fold_left (fun acc c => (10 * acc + digit_val c)%N) s 0%N.

(** [str(n)] for a non-negative integer. *)
Definition str_of_N (n : N) : str := lit (pretty n).

(** ** decimal.Decimal

    A finite [Decimal] is Python's triple [(sign, int, exp)], of value
    [(-1)^sign * int * 10^exp].  Infinities and NaNs are not represented: the
    constructor reports a string that spells one as [DSpecial]. *)

Record Decimal := mkDecimal { dsign : bool; dcoef : N; dexp : Z }.

Global Instance Decimal_eq_dec : EqDecision Decimal.
Proof. solve_decision. Defined.

(** The default context: [prec=28], [rounding=ROUND_HALF_EVEN],
    [Emin=-999999], [Emax=999999], [clamp=0], with [Overflow] and
    [InvalidOperation] trapped. *)
Definition prec : Z := 28.
Definition Emax : Z := 999999.
Definition Emin : Z := -999999.
Definition Etiny : Z := Emin - prec + 1.
Definition Etop : Z := Emax - prec + 1.

(** [len(d._int)]: the number of decimal digits of the coefficient. *)
Fixpoint ndigits_fuel (fuel : nat) (n : N) : Z :=
  match fuel with
  | O => 1
  | S f => if (n <? 10)%N then 1 else 1 + ndigits_fuel f (n / 10)%N
  end.

Definition ndigits (n : N) : Z := ndigits_fuel (N.to_nat (N.size n)) n.

(** [c / 10^k] rounded to the nearest integer, ties to even. *)
Definition round_half_even (c : N) (k : Z) : N :=
  let p := Z.to_N (10 ^ k) in
  let q := (c / p)%N in
  let r := (c mod p)%N in
  if (2 * r <? p)%N then q
  else if (p <? 2 * r)%N then (q + 1)%N
  else if N.even q then q else (q + 1)%N.

(** [Decimal._fix(context)]: round to the context's precision; [None] is
    the trapped [Overflow]. *)
Definition fix_ (d : Decimal) : option Decimal :=
  if (dcoef d =? 0)%N then
    Some (mkDecimal (dsign d) 0 (Z.min (Z.max (dexp d) Etiny) Emax))
  else
    let exp_min := ndigits (dcoef d) + dexp d - prec in
    if Etop <? exp_min then None
    else
      let exp_min := Z.max exp_min Etiny in
      if dexp d <? exp_min then
        let coeff := round_half_even (dcoef d) (exp_min - dexp d) in
        let '(coeff, exp_min) :=
          if prec <? ndigits coeff then ((coeff / 10)%N, exp_min + 1)
          else (coeff, exp_min) in
        if Etop <? exp_min then None
        else Some (mkDecimal (dsign d) coeff exp_min)
      else Some d.

Definition signed (d : Decimal) : Z :=
  if dsign d then - Z.of_N (dcoef d) else Z.of_N (dcoef d).

(** The sum before rounding: exponent the smaller of the two, coefficients
    aligned; a zero sum is negative only when both operands are. *)
Definition Dadd_exact (a b : Decimal) : Decimal :=
  let e := Z.min (dexp a) (dexp b) in
  let s := signed a * 10 ^ (dexp a - e) + signed b * 10 ^ (dexp b - e) in
  mkDecimal (if s =? 0 then dsign a && dsign b else s <? 0)
            (Z.to_N (Z.abs s)) e.

(** [a + b] in the default context. *)
Definition Dadd (a b : Decimal) : option Decimal := fix_ (Dadd_exact a b).

(** [bool(d)] *)
Definition Dtruthy (d : Decimal) : bool := negb (dcoef d =? 0)%N.

(** The number a [Decimal] stands for. *)
Definition Dvalue (d : Decimal) : Q := inject_Z (signed d) * 10 ^ dexp d.

(** [Decimal('0.00')] and [Decimal(0)]. *)
Definition Decimal_0_00 : Decimal := mkDecimal false 0 (-2).
Definition Decimal_0 : Decimal := mkDecimal false 0 0.

Inductive DecimalParse :=
| DFinite (d : Decimal)
| DSpecial
| DInvalid.

Definition lower_char (c : ascii) : ascii :=
  let n := code c in
  if ((65 <=? n) && (n <=? 90))%N then ascii_of_N (n + 32) else c.

(** [Inf], [Infinity], [NaN<digits>], [sNaN<digits>], in any letter case. *)
Definition spells_special (s : str) : bool :=
  let l := map lower_char s in
  str_eqb l (lit "inf") || str_eqb l (lit "infinity")
  || (startswith l (lit "nan") && forallb is_digit (drop 3 l))
  || (startswith l (lit "snan") && forallb is_digit (drop 4 l)).

(** The exponent part [E[-+]?\d+] up to the end of the string. *)
Definition parse_exponent (s : str) : option Z :=
  match s with
  | [] => Some 0
  | c :: t =>
      if char_eqb (lower_char c) "e" then
        let '(neg, ds) :=
          match t with
          | "-"%char :: u => (true, u)
          | "+"%char :: u => (false, u)
          | _ => (false, t)
          end in
        if forallb is_digit ds && negb (bool_decide (ds = [])) then
          let v := Z.of_N (digits_to_N ds) in
          Some (if neg then - v else v)
        else None
      else None
  end.

(** An optional sign. *)
Definition split_sign (s : str) : bool * str :=
  match s with
  | "-"%char :: t => (true, t)
  | "+"%char :: t => (false, t)
  | _ => (false, s)
  end.

(** After the sign: digits with an optional point and exponent, or the
    name of a special value. *)
Definition numeric_value (sg : bool) (s : str) : DecimalParse :=
  let '(ip, s1) := span is_digit s in
  let '(fp, s2) :=
    match s1 with
    | "."%char :: t => span is_digit t
    | _ => ([], s1)
    end in
  if negb (bool_decide (ip = [])) || negb (bool_decide (fp = [])) then
    match parse_exponent s2 with
    | Some e =>
        DFinite (mkDecimal sg (digits_to_N (ip ++ fp)) (e - Z.of_nat (length fp)))
    | None => DInvalid
    end
  else if spells_special s then DSpecial
  else DInvalid.

(** [decimal.Decimal(s)] for a string: surrounding whitespace is stripped,
    underscores are dropped, then the numeric-string grammar applies. *)
Definition Decimal_of_str (s : str) : DecimalParse :=
  let '(sg, s) := split_sign (remove_char "_" (strip s)) in
  numeric_value sg s.

(** ** Regular expressions

    The fragment of [re] the programs and [strptime] use, as a backtracking
    matcher in continuation-passing style: alternatives and greedy
    repetitions are tried in Python's order, and the groups are those of the
    first successful path. *)

Module Re.

Inductive regex :=
| Chr (c : ascii)                (* a literal character *)
| Cls (p : ascii -> bool)        (* a character class *)
| Cat (r1 r2 : regex)
| Alt (r1 r2 : regex)            (* r1|r2 *)
| Opt (r : regex)                (* r? *)
| Plus (p : ascii -> bool)       (* [class]+ *)
| Grp (i : nat) (r : regex)      (* capturing group number i *)
| Eol                            (* $ *)
| Eps.

Abbreviation groups := (gmap nat str).

(** A literal string. *)
Fixpoint Str (s : str) : regex :=
  match s with
  | [] => Eps
  | [c] => Chr c
  | c :: s' => Cat (Chr c) (Str s')
  end.

(** [r{n}] *)
Fixpoint Times (n : nat) (r : regex) : regex :=
  match n with
  | O => Eps
  | 1%nat => r
  | S n' => Cat r (Times n' r)
  end.

Fixpoint Seq (rs : list regex) : regex :=
  match rs with
  | [] => Eps
  | [r] => r
  | r :: rs' => Cat r (Seq rs')
  end.

(** [$] without [re.MULTILINE]: the end of the string, or just before a
    newline that ends it. *)
Definition at_end (s : str) : bool :=
  match s with
  | [] => true
  | [c] => (code c =? 10)%N
  | _ => false
  end.

(** After the first character of [[class]+]: the longest run first, then
    shorter ones. *)
Fixpoint plus_rest {A} (p : ascii -> bool) (s : str) (k : str -> option A)
  : option A :=
  match s with
  | d :: s' =>
      if p d then
        match plus_rest p s' k with
        | Some x => Some x
        | None => k s
        end
      else k s
  | [] => k []
  end.

Fixpoint rmatch {A} (r : regex) (s : str) (g : groups)
  (k : str -> groups -> option A) : option A :=
  match r with
  | Chr c =>
      match s with
      | d :: s' => if char_eqb c d then k s' g else None
      | [] => None
      end
  | Cls p =>
      match s with
      | d :: s' => if p d then k s' g else None
      | [] => None
      end
  | Cat r1 r2 => rmatch r1 s g (fun s' g' => rmatch r2 s' g' k)
  | Alt r1 r2 =>
      match rmatch r1 s g k with
      | Some x => Some x
      | None => rmatch r2 s g k
      end
  | Opt r1 =>
      match rmatch r1 s g k with
      | Some x => Some x
      | None => k s g
      end
  | Plus p =>
      match s with
      | d :: s' => if p d then plus_rest p s' (fun s'' => k s'' g) else None
      | [] => None
      end
  | Grp i r1 =>
      rmatch r1 s g
        (fun s' g' => k s' (<[i := take (length s - length s') s]> g'))
  | Eol => if at_end s then k s g else None
  | Eps => k s g
  end.

(** [re.match(r, s)]: the groups of a match at the start of [s], and what
    follows the match. *)
Definition match_end (r : regex) (s : str) : option (groups * str) :=
  rmatch r s ∅ (fun s' g => Some (g, s')).

Definition match_ (r : regex) (s : str) : option groups :=
  fst <$> match_end r s.

(** [re.search(r, s)]: the leftmost match. *)
Fixpoint search (r : regex) (s : str) : option groups :=
  match match_ r s with
  | Some g => Some g
  | None =>
      match s with
      | _ :: s' => search r s'
      | [] => None
      end
  end.

(** [m.group(i)]: [None] when the group took no part in the match. *)
Definition group (g : groups) (i : nat) : option str := g !! i.

(** Every character the expression can consume satisfies [P]. *)
Fixpoint only (P : ascii -> bool) (r : regex) : Prop :=
  match r with
  | Chr c => P c = true
  | Cls p | Plus p => forall c, p c = true -> P c = true
  | Cat r1 r2 | Alt r1 r2 => only P r1 /\ only P r2
  | Opt r1 | Grp _ r1 => only P r1
  | Eol | Eps => True
  end.

(** Every group numbered [i] inside the expression consumes only
    characters that satisfy [P]. *)
Fixpoint grp_only (P : ascii -> bool) (i : nat) (r : regex) : Prop :=
  match r with
  | Chr _ | Cls _ | Plus _ | Eol | Eps => True
  | Cat r1 r2 | Alt r1 r2 => grp_only P i r1 /\ grp_only P i r2
  | Opt r1 => grp_only P i r1
  | Grp j r1 => (j = i -> only P r1) /\ grp_only P i r1
  end.

End Re.

(** ** Dates

    [datetime.strptime(s, '%m/%d/%Y')] and the order of the values it
    returns (all of them at midnight). *)

Record datetime := mkDate { year : N; month : N; day : N }.

Global Instance datetime_eq_dec : EqDecision datetime.
Proof. solve_decision. Defined.

Definition in_range (lo hi : ascii) (c : ascii) : bool :=
  ((code lo <=? code c) && (code c <=? code hi))%N.

(** The expression [_strptime] compiles the format to:
    [(?P<m>1[0-2]|0[1-9]|[1-9])/(?P<d>3[0-1]|[1-2]\d|0[1-9]|[1-9]| [1-9])/(?P<Y>\d\d\d\d)] *)
Definition strptime_re : Re.regex :=
  Re.Seq
    [ Re.Grp 1 (Re.Alt (Re.Cat (Re.Chr "1") (Re.Cls (in_range "0" "2")))
               (Re.Alt (Re.Cat (Re.Chr "0") (Re.Cls (in_range "1" "9")))
                       (Re.Cls (in_range "1" "9"))));
      Re.Chr "/";
      Re.Grp 2 (Re.Alt (Re.Cat (Re.Chr "3") (Re.Cls (in_range "0" "1")))
               (Re.Alt (Re.Cat (Re.Cls (in_range "1" "2")) (Re.Cls is_digit))
               (Re.Alt (Re.Cat (Re.Chr "0") (Re.Cls (in_range "1" "9")))
               (Re.Alt (Re.Cls (in_range "1" "9"))
                       (Re.Cat (Re.Chr " ") (Re.Cls (in_range "1" "9")))))));
      Re.Chr "/";
      Re.Grp 3 (Re.Times 4 (Re.Cls is_digit)) ].

Definition is_leap (y : N) : bool :=
  ((y mod 4 =? 0) && (negb (y mod 100 =? 0) || (y mod 400 =? 0)))%N.

Definition days_in_month (y m : N) : N :=
  match m with
  | 2 => if is_leap y then 29 else 28
  | 4 | 6 | 9 | 11 => 30
  | _ => 31
  end%N.

(** [int(s)] for an optional blank followed by digits. *)
Definition int_of_digits (s : str) : N := digits_to_N (lstrip s).

(** [None] is the [ValueError] of a string that does not match the format,
    has text left over, or names no calendar day. *)
Definition strptime (s : str) : option datetime :=
  match Re.match_end strptime_re s with
  | Some (g, []) =>
      match Re.group g 1, Re.group g 2, Re.group g 3 with
      | Some m, Some d, Some y =>
          let '(m, d, y) := (int_of_digits m, int_of_digits d, int_of_digits y) in
          if ((1 <=? y) && (1 <=? d) && (d <=? days_in_month y m))%N
          then Some (mkDate y m d) else None
      | _, _, _ => None
      end
  | _ => None
  end.

(** [a < b] on [datetime] values. *)
Definition date_ltb (a b : datetime) : bool :=
  ((year a <? year b)
   || (year a =? year b) && ((month a <? month b)
       || (month a =? month b) && (day a <? day b)))%N.

(** ** The Python runtime

    What the programs take from the interpreter and the platform and the
    model leaves open: binary floating point (the quantity of the
    self-contained converter is a [float], and ['%.2f'] formats through
    [float]), the C library's [strftime], and the clock. *)

Class PyRuntime := {
  float : Type;
  (** [float(s)]; [None] is its [ValueError] *)
  float_of_str : str -> option float;
  (** [x <= 0] *)
  float_le_0 : float -> bool;
  (** ['%s' % x] *)
  float_str : float -> str;
  (** ['%.2f' % d] for a finite [Decimal] [d] *)
  fmt_2f : Decimal -> str;
  (** [d.strftime('%m/%d/%Y')] *)
  strftime : datetime -> str;
  (** [date.today().strftime('%m/%d/%Y')] *)
  today : str
}.

(** ** Common pieces *)

(** ['sep'.join(l)] *)
Fixpoint join (sep : str) (l : list str) : str :=
  match l with
  | [] => []
  | [x] => x
  | x :: l' => x ++ sep ++ join sep l'
  end.

Definition nl : str := lit (String (ascii_of_N 10) EmptyString).

(** A constant [dict] literal, in source order. *)
Fixpoint dict_get {V} (d : list (str * V)) (k : str) : option V :=
  match d with
  | [] => None
  | (k', v) :: d' => if str_eqb k' k then Some v else dict_get d' k
  end.

Definition dict_keys {V} (d : list (str * V)) : list str := map fst d.
Definition dict_values {V} (d : list (str * V)) : list V := map snd d.

(** Statements in sequence, the first failure ending the run. *)
Definition bind {E A B} (c : E + A) (k : A -> E + B) : E + B :=
  match c with
  | inl e => inl e
  | inr a => k a
  end.

Notation "'let*' x ':=' c 'in' k" := (bind c (fun x => k))
  (at level 10, x pattern, c at level 100, k at level 200).

(** Exceptions no [except] clause of the programs catches. *)
Inductive Uncaught :=
| IndexError | KeyError | AttributeError | TypeError
| DecimalInvalidOperation | DecimalOverflow
| StrptimeValueError.

(** ** convert-1099B-2022.py: the checkbox-driven converter *)

Module Convert2022.

Definition _CUSIPS : list (str * str) :=
  [ (lit "GOOGL", lit "02079K305");   (* Class A *)
    (lit "GOOG", lit "02079K107") ].  (* Class C *)

Definition _TXF_CATEGORIES : list (str * Z) :=
  [ (lit "B", 711);    (* Short-term noncovered *)
    (lit "E", 713) ].  (* Long-term noncovered *)

(** The values a TXF field takes: [str], [int], or [None] for a group that
    took no part in a match. *)
Inductive pyval :=
| VStr (s : str)
| VInt (n : Z)
| VNone.

(** ['%s' % v] *)
Definition pystr (v : pyval) : str :=
  match v with
  | VStr s => s
  | VInt n => lit (pretty n)
  | VNone => lit "None"
  end.

Definition of_group (o : option str) : pyval :=
  match o with
  | Some s => VStr s
  | None => VNone
  end.

(** [class TxfRecord]: the list [_fields]. *)
Definition TxfRecord := list (str * pyval).

Definition addField (r : TxfRecord) (op : str) (value : pyval) : TxfRecord :=
  r ++ [(op, value)].

(** [TxfRecord.__str__] *)
Definition TxfRecord_str (r : TxfRecord) : str :=
  join nl (map (fun f => fst f ++ pystr (snd f)) r ++ [lit "^"]).

(** [class Totals] *)
Record Totals := mkTotals { proceeds : Decimal; basis : Decimal; wash : Decimal }.

(** [Totals()], the default of the [defaultdict]. *)
Definition Totals0 : Totals := mkTotals Decimal_0_00 Decimal_0_00 Decimal_0_00.

(** [sys.exit(message)], by message. *)
Inductive Exit :=
| NoCheckbox
| InsufficientContent (rest : list str)
| UnexpectedPair (symbol : option str) (cusip : str)
| ParseLineError (lineno : nat) (line : str).

Inductive Stop :=
| SysExit (e : Exit)
| Raise (x : Uncaught)
| SpecialDecimal     (* an amount spelling Infinity or NaN: not modelled *).

Definition M (A : Type) : Type := Stop + A.

Definition exit {A} (e : Exit) : M A := inl (SysExit e).
Definition raise {A} (x : Uncaught) : M A := inl (Raise x).

(** [l[i]] *)
Definition index (l : list str) (i : nat) : M str :=
  match l !! i with
  | Some x => inr x
  | None => raise IndexError
  end.

(** [decimal.Decimal(s.replace(',', ''))] for a group [s] *)
Definition amount (s : option str) : M Decimal :=
  match s with
  | None => raise AttributeError
  | Some s =>
      match Decimal_of_str (remove_char "," s) with
      | DFinite d => inr d
      | DSpecial => inl SpecialDecimal
      | DInvalid => raise DecimalInvalidOperation
      end
  end.

(** [a + b], with the trapped [Overflow] *)
Definition add (a b : Decimal) : M Decimal :=
  match Dadd a b with
  | Some d => inr d
  | None => raise DecimalOverflow
  end.

(** *** The patterns *)

Definition in_chars (l : str) (c : ascii) : bool := existsb (char_eqb c) l.

Definition digit_or_comma (c : ascii) : bool := is_digit c || char_eqb c ",".

(** [Box ([BE]) checked], the class being the keys of [_TXF_CATEGORIES] *)
Definition marker_re : Re.regex :=
  Re.Seq [ Re.Str (lit "Box ");
           Re.Grp 1 (Re.Cls (in_chars (concat (dict_keys _TXF_CATEGORIES))));
           Re.Str (lit " checked") ].

(** [\d+(?:\.\d+)? SHARES? OF (GOOGL?)] *)
Definition shares_re : Re.regex :=
  Re.Seq [ Re.Plus is_digit; Re.Opt (Re.Cat (Re.Chr ".") (Re.Plus is_digit));
           Re.Str (lit " SHARE"); Re.Opt (Re.Chr "S"); Re.Str (lit " OF ");
           Re.Grp 1 (Re.Cat (Re.Str (lit "GOOG")) (Re.Opt (Re.Chr "L"))) ].

(** [\d{2}/\d{2}/\d{4}] *)
Definition date_re : Re.regex :=
  Re.Seq [ Re.Times 2 (Re.Cls is_digit); Re.Chr "/";
           Re.Times 2 (Re.Cls is_digit); Re.Chr "/";
           Re.Times 4 (Re.Cls is_digit) ].

(** [[\d,]+(?:\.\d+)] *)
Definition amount_re : Re.regex :=
  Re.Seq [ Re.Plus digit_or_comma; Re.Chr "."; Re.Plus is_digit ].

(** [(\d{2}/\d{2}/\d{4})\s+([\d,]+(?:\.\d+))\s+([\d,]+(?:\.\d+))(?:\s+([\d,]+(?:\.\d+)))?\s+X$],
    its groups numbered from [i] *)
Definition amounts_re (i : nat) : Re.regex :=
  Re.Seq [ Re.Grp i date_re; Re.Plus is_space;
           Re.Grp (i + 1) amount_re; Re.Plus is_space;
           Re.Grp (i + 2) amount_re;
           Re.Opt (Re.Cat (Re.Plus is_space) (Re.Grp (i + 3) amount_re));
           Re.Plus is_space; Re.Chr "X"; Re.Eol ].

(** The description and the amounts joined on one line. *)
Definition combined_re : Re.regex :=
  Re.Seq [ shares_re; Re.Chr " "; amounts_re 2 ].

(** [\d+(?:\.\d+)? SHARES? OF (GOOGL?)$] *)
Definition line2_re : Re.regex := Re.Cat shares_re Re.Eol.

Definition line3_re : Re.regex := amounts_re 1.

(** [(\d{2}/\d{2}/\d{4})\sGROSS$] *)
Definition line4_re : Re.regex :=
  Re.Seq [ Re.Grp 1 date_re; Re.Cls is_space; Re.Str (lit "GROSS"); Re.Eol ].

(** *** The main loop *)

(** The local variables a record leaves behind: [cusip], [symbol],
    [box1a_description], [acq_date], [proceeds], [basis], [wash] and
    [sale_date]. *)
Record Fields := mkFields {
  cusip : str;
  symbol : option str;
  box1a_description : str;
  acq_date : option str;
  f_proceeds : option str;
  f_basis : option str;
  f_wash : option str;
  sale_date : option str }.

(** An accepted record: its checkbox, the amounts added to the totals and
    the TXF record printed for it. *)
Record Lot := mkLot {
  lot_category : str;
  lot_fields : Fields;
  lot_proceeds : Decimal;
  lot_basis : Decimal;
  lot_wash : option Decimal;
  lot_item : TxfRecord }.

(** The variables of the loop.  [output] is what has been printed to the
    output file so far; [accepted] is a ghost trace of the records taken,
    which the source does not keep. *)
Record State := mkState {
  input_line : nat;
  txf_category : option str;
  totals : gmap str Totals;
  output : list TxfRecord;
  accepted : list Lot }.

(** [totals[k]] on the [defaultdict] *)
Definition entry (t : gmap str Totals) (k : str) : Totals :=
  default Totals0 (t !! k).

(** [_CUSIPS[symbol] != cusip], then the exit on a mismatch *)
Definition check_pair (symbol : option str) (cusip : str) : M unit :=
  match symbol ≫= dict_get _CUSIPS with
  | None => raise KeyError
  | Some c =>
      if negb (str_eqb c cusip) then exit (UnexpectedPair symbol cusip)
      else inr tt
  end.

(** Lines 102-172: the lines of one record, from the identifier line at
    [input_line]; the result is the new [input_line] and the fields. *)
Definition read_record (lines : list str) (input_line : nat) (line : str)
  : M (nat * Fields) :=
  if (length lines <? input_line + 3)%nat then
    exit (InsufficientContent (drop input_line lines))
  else
    (* Line 1 *)
    let cusip := upper line in
    let input_line := (input_line + 1)%nat in
    let* line := index lines input_line in
    (* Sometimes next 2 lines are joined. Check for that first. *)
    let* (input_line, symbol, desc, acq, p, b, w) :=
      match Re.match_ combined_re line with
      | Some m =>
          let symbol := Re.group m 1 in
          let* _ := check_pair symbol cusip in
          inr (input_line, symbol, line, Re.group m 2, Re.group m 3,
               Re.group m 4, Re.group m 5)
      | None =>
          (* Line 2 *)
          match Re.match_ line2_re line with
          | None => exit (ParseLineError (input_line + 1) line)
          | Some m =>
              let symbol := Re.group m 1 in
              let* _ := check_pair symbol cusip in
              let desc := line in
              let input_line := (input_line + 1)%nat in
              let* line := index lines input_line in
              (* Line 3 *)
              match Re.match_ line3_re line with
              | None => exit (ParseLineError (input_line + 1) line)
              | Some m =>
                  inr (input_line, symbol, desc, Re.group m 1, Re.group m 2,
                       Re.group m 3, Re.group m 4)
              end
          end
      end in
    let input_line := (input_line + 1)%nat in
    let* line := index lines input_line in
    (* Line 4 (or line 3) *)
    match Re.match_ line4_re line with
    | None => exit (ParseLineError (input_line + 1) line)
    | Some m =>
        inr ((input_line + 1)%nat,
             mkFields cusip symbol desc acq p b w (Re.group m 1))
    end.

(** Lines 174-177: the three [+=] on [totals[txf_category]]. *)
Definition account (t : gmap str Totals) (cat : str) (f : Fields)
  : M (gmap str Totals * (Decimal * Decimal * option Decimal)) :=
  let* dp := amount (f_proceeds f) in
  let* s := add (proceeds (entry t cat)) dp in
  let t := <[cat := mkTotals s (basis (entry t cat)) (wash (entry t cat))]> t in
  let* db := amount (f_basis f) in
  let* s := add (basis (entry t cat)) db in
  let t := <[cat := mkTotals (proceeds (entry t cat)) s (wash (entry t cat))]> t in
  match f_wash f with
  | Some _ =>
      let* dw := amount (f_wash f) in
      let* s := add (wash (entry t cat)) dw in
      inr (<[cat := mkTotals (proceeds (entry t cat)) (basis (entry t cat)) s]> t,
           (dp, db, Some dw))
  | None => inr (t, (dp, db, None))
  end.

(** Lines 189-198: the TXF record of one lot. *)
Definition make_item (cat : str) (f : Fields) : M TxfRecord :=
  let item : TxfRecord := [] in
  let item := addField item (lit "T") (VStr (lit "D")) in
  match dict_get _TXF_CATEGORIES cat with
  | None => raise KeyError
  | Some n =>
      let item := addField item (lit "N") (VInt n) in
      let item := addField item (lit "P") (VStr (box1a_description f)) in
      let item := addField item (lit "D") (of_group (acq_date f)) in
      let item := addField item (lit "D") (of_group (sale_date f)) in
      let item := addField item (lit "$") (of_group (f_basis f)) in
      let item := addField item (lit "$") (of_group (f_proceeds f)) in
      inr (match f_wash f with
           | Some w => addField item (lit "$") (VStr w)
           | None => item
           end)
  end.

Section Run.

Context {rt : PyRuntime}.
Variable lines : list str.

(** Lines 62-66 *)
Definition header : TxfRecord :=
  addField (addField (addField [] (lit "V") (VStr (lit "042")))
                     (lit "A") (VStr (lit "Self")))
           (lit "D") (VStr today).

(** One turn of [while input_line < len(lines)]: [inl] ends the run,
    [inr] is the state at the next turn. *)
Definition turn (st : State) (line : str) : Stop + State :=
  match Re.search marker_re line with
  | Some m =>
      inr (mkState (input_line st + 1) (Re.group m 1) (totals st) (output st)
                   (accepted st))
  | None =>
      if negb (existsb (str_eqb line) (dict_values _CUSIPS)) then
        inr (mkState (input_line st + 1) (txf_category st) (totals st)
                     (output st) (accepted st))
      else
        match txf_category st with
        | None => exit NoCheckbox
        | Some cat =>
            let* (i, f) := read_record lines (input_line st) line in
            let* (t, (dp, db, dw)) := account (totals st) cat f in
            let* item := make_item cat f in
            inr (mkState i (Some cat) t (output st ++ [item])
                         (accepted st ++ [mkLot cat f dp db dw item]))
        end
  end.

(** The loop, on a bound for the number of turns: [None] when the bound is
    too small, otherwise the last state and how the run stopped ([None] for
    the normal end of the loop). *)
Fixpoint loop (fuel : nat) (st : State) : option (State * option Stop) :=
  match fuel with
  | O => None
  | S fuel' =>
      match lines !! input_line st with
      | None => Some (st, None)
      | Some line =>
          match turn st line with
          | inl e => Some (st, Some e)
          | inr st' => loop fuel' st'
          end
      end
  end.

(** The state when the loop starts: the file is open and holds the header. *)
Definition init : State := mkState 0 None ∅ [header] [].

(** The run on the lines of the statement. *)
Definition run : option (State * option Stop) := loop (S (length lines)) init.

(** The text of the output file: each [print] ends its record with a
    newline. *)
Definition file_text (st : State) : str :=
  concat (map (fun r => TxfRecord_str r ++ nl) (output st)).

(** What the program leaves.  [open(output_filename, 'w')] comes before the
    loop, so the output file exists however the loop ends, with what was
    printed to it. *)
Record Outcome := mkOutcome {
  out_file : option str;
  final : State;
  stop : option Stop }.

Definition main : option Outcome :=
  match run with
  | Some (st, e) => Some (mkOutcome (Some (file_text st)) st e)
  | None => None
  end.

End Run.

End Convert2022.

(** ** taxform_parser.py: the self-contained converter *)

Module TaxformParser.

Section Program.

Context {rt : PyRuntime}.

(** [class Record], over the type [F] of the quantity ([float] below).
    [fmv] is [None] in every record (nothing assigns it), and is left out. *)
Record Record_ {F : Type} := mkRecord {
  quantity : F;
  symbol : str;
  acquisition_date : datetime;
  sale_date : datetime;
  cusip : str;
  total_reported_basis : Decimal;
  total_reported_wash : option Decimal;
  total_reported_proceeds : Decimal }.

#[global] Arguments Record_ : clear implicits.
#[global] Arguments mkRecord {F}.

(** [compute_total_basis]: with [fmv] unset, the reported basis. *)
Definition compute_total_basis (r : Record_ float) : Decimal :=
  total_reported_basis r.

(** [compute_total_wash]: the amount when there is one and it is not zero,
    otherwise the empty string. *)
Definition compute_total_wash (r : Record_ float) : str :=
  match total_reported_wash r with
  | Some w => if Dtruthy w then fmt_2f w else []
  | None => []
  end.

(** The eleven lines of a record's block in [txf_records]. *)
Definition block_lines (r : Record_ float) : list str :=
  [ lit "TD"; lit "N715"; lit "C1"; lit "L1";
    lit "P" ++ float_str (quantity r) ++ lit " " ++ symbol r;
    lit "D" ++ strftime (acquisition_date r);
    lit "D" ++ strftime (sale_date r);
    lit "$" ++ fmt_2f (compute_total_basis r);
    lit "$" ++ fmt_2f (total_reported_proceeds r);
    lit "$" ++ compute_total_wash r;
    lit "^" ].

Definition header_lines : list str :=
  [ lit "V042"; lit "A quick and dirty TXF script"; lit "D" ++ today; lit "^" ].

(** Lines of text, each ended by a newline. *)
Definition unlines (l : list str) : str := concat (map (fun x => x ++ nl) l).

(** [Record.txf_records] *)
Definition txf_records (records : list (Record_ float)) : str :=
  fold_left (fun result r => result ++ unlines (block_lines r)) records
            (unlines header_lines).

Inductive Failure :=
| ParseException (line_idx : nat) (line : str)
| Raise (x : Uncaught)
| NoRecordsFound
| UnexpectedOutputFormat
| SpecialDecimal     (* an amount spelling Infinity or NaN: not modelled *).

Definition M (A : Type) : Type := Failure + A.

Definition raise {A} (x : Uncaught) : M A := inl (Raise x).

(** [class Form1099Tokenizer] *)
Record Tokenizer := mkTokenizer {
  lines : list str;
  line_idx : nat;
  tokens : list str }.

(** [__init__], on the pieces of the extracted text between newlines. *)
Definition Tokenizer_init (raw_lines : list str) : Tokenizer :=
  mkTokenizer (map strip raw_lines) 0 [].

Fixpoint find_cusip_from (rest : list str) (idx : nat) : option str * nat :=
  match rest with
  | [] => (None, idx)
  | cusip :: rest' =>
      if startswith cusip (lit "3825") || startswith cusip (lit "0207")
      then (Some cusip, S idx)
      else find_cusip_from rest' (S idx)
  end.

(** [find_cusip]: the loop runs over the lines from [line_idx] on. *)
Definition find_cusip (tk : Tokenizer) : option str * Tokenizer :=
  let '(r, i) := find_cusip_from (drop (line_idx tk) (lines tk)) (line_idx tk) in
  (r, mkTokenizer (lines tk) i (tokens tk)).

(** [next_token] *)
Definition next_token (tk : Tokenizer) : option str * Tokenizer :=
  match tokens tk with
  | t :: ts => (Some t, mkTokenizer (lines tk) (line_idx tk) ts)
  | [] =>
      match lines tk !! line_idx tk with
      | None => (None, tk)
      | Some l =>
          let toks := split_on " " l in
          (head toks, mkTokenizer (lines tk) (line_idx tk + 1) (tail toks))
      end
  end.

Definition cur_string_tokens_available (tk : Tokenizer) : bool :=
  negb (bool_decide (tokens tk = [])).

(** [l[i]] with Python's negative indices *)
Definition py_index (l : list str) (i : Z) : option str :=
  if i <? 0 then
    if i + Z.of_nat (length l) <? 0 then None
    else l !! Z.to_nat (i + Z.of_nat (length l))
  else l !! Z.to_nat i.

(** [raise tokenizer.generate_parsing_error()] *)
Definition parsing_error {A} (tk : Tokenizer) : M A :=
  match py_index (lines tk) (Z.of_nat (line_idx tk) - 1) with
  | Some l => inl (ParseException (line_idx tk) l)
  | None => raise IndexError
  end.

Definition is_tok (t : option str) (s : string) : bool :=
  bool_decide (t = Some (lit s)).

(** [Decimal(s.replace(',', ''))].  For a token that spells an infinity or a
    NaN Python returns a special value and the program goes on with it;
    [Decimal] here has finite values only, and the model leaves the run at
    this point with [SpecialDecimal].  That is no failure of the program:
    what is stated of whole runs is stated of the runs that do not end
    there. *)
Definition amount (s : option str) : M Decimal :=
  match s with
  | None => raise AttributeError
  | Some s =>
      match Decimal_of_str (remove_char "," s) with
      | DFinite d => inr d
      | DSpecial => inl SpecialDecimal
      | DInvalid => raise DecimalInvalidOperation
      end
  end.

(** [datetime.strptime(s, SCHWAB_DATE_FORMAT)] *)
Definition parse_date (s : option str) : M datetime :=
  match s with
  | None => raise TypeError
  | Some s =>
      match strptime s with
      | Some d => inr d
      | None => raise StrptimeValueError
      end
  end.

Definition add (a b : Decimal) : M Decimal :=
  match Dadd a b with
  | Some d => inr d
  | None => raise DecimalOverflow
  end.

(** The local variables of a turn of the loop, after line 197. *)
Record Locals {F : Type} := mkLocals {
  l_num_shares : F;
  l_symbol : option str;
  l_acq_date : option str;
  l_proceeds : option str;
  l_basis : option str;
  l_wash : option str;
  l_sale_date : option str }.

#[global] Arguments Locals : clear implicits.
#[global] Arguments mkLocals {F}.

(** Lines 164-197: the tokens of one record. *)
Definition scan_record (tk : Tokenizer) : M (Locals float * Tokenizer) :=
  let '(num_shares, tk) := next_token tk in
  let '(t, tk) := next_token tk in
  if negb (is_tok t "SHARES") then parsing_error tk else
  let '(t, tk) := next_token tk in
  if negb (is_tok t "OF") then parsing_error tk else
  let* num_shares :=
    match num_shares with
    | None => raise TypeError
    | Some s =>
        match float_of_str s with
        | Some x => inr x
        | None => parsing_error tk
        end
    end in
  let '(symbol, tk) := next_token tk in
  if (negb (is_tok symbol "GOOG") && negb (is_tok symbol "GOOGL"))
     || float_le_0 num_shares
  then parsing_error tk else
  let '(acq_date, tk) := next_token tk in
  let '(proceeds, tk) := next_token tk in
  let '(basis, tk) := next_token tk in
  let '(wash, tk) := next_token tk in
  let '(wash, non_covered, tk) :=
    if is_tok wash "X" then (Some [], Some (lit "X"), tk)
    else let '(non_covered, tk) := next_token tk in (wash, non_covered, tk) in
  if negb (is_tok non_covered "X") then parsing_error tk else
  let '(sale_date, tk) := next_token tk in
  let '(maybe_wash_sale_amount, tk) := next_token tk in
  let* (wash, tk) :=
    if negb (is_tok maybe_wash_sale_amount "GROSS") then
      let wash := maybe_wash_sale_amount in
      let '(t, tk) := next_token tk in
      if negb (is_tok t "GROSS") then parsing_error tk else inr (wash, tk)
    else inr (wash, tk) in
  if cur_string_tokens_available tk then parsing_error tk else
  inr (mkLocals num_shares symbol acq_date proceeds basis wash sale_date, tk).

(** Lines 199-207: the record of the tokens. *)
Definition make_record (cusip : str) (l : Locals float) : M (Record_ float) :=
  let* sale_date := parse_date (l_sale_date l) in
  let* total_reported_proceeds := amount (l_proceeds l) in
  let* total_reported_basis := amount (l_basis l) in
  let* total_reported_wash :=
    match l_wash l with
    | None | Some [] => inr None
    | Some _ => let* d := amount (l_wash l) in inr (Some d)
    end in
  let* acquisition_date := parse_date (l_acq_date l) in
  inr (mkRecord (l_num_shares l) (default [] (l_symbol l)) acquisition_date
                sale_date cusip total_reported_basis total_reported_wash
                total_reported_proceeds).

(** Lines 164-207: one record, after [find_cusip] returned [cusip]. *)
Definition parse_record (cusip : str) (tk : Tokenizer)
  : M (Record_ float * Tokenizer) :=
  let* (l, tk) := scan_record tk in
  let* record := make_record cusip l in
  inr (record, tk).

(** The variables of [parse1099Form]. *)
Record ParseState {F : Type} := mkParseState {
  tokenizer : Tokenizer;
  records : list (Record_ F);
  total_proceeds : Decimal;
  total_basis : Decimal;
  total_wash : Decimal;
  total_num_records : nat }.

#[global] Arguments ParseState : clear implicits.
#[global] Arguments mkParseState {F}.

(** The wash amount as added to [total_wash]: [Decimal(0)] when the record
    has none or has a zero one. *)
Definition wash_or_zero (w : option Decimal) : Decimal :=
  match w with
  | Some d => if Dtruthy d then d else Decimal_0
  | None => Decimal_0
  end.

(** Lines 164-216: a turn of the loop after [find_cusip] returned [cusip],
    with the tokenizer where [find_cusip] left it. *)
Definition parse_turn (st : ParseState float) (cusip : str) (tk : Tokenizer)
  : M (ParseState float) :=
  let* (record, tk) := parse_record cusip tk in
  let* p := add (total_proceeds st) (total_reported_proceeds record) in
  let* b := add (total_basis st) (total_reported_basis record) in
  let* w := add (total_wash st) (wash_or_zero (total_reported_wash record)) in
  inr (mkParseState tk (records st ++ [record]) p b w
                    (total_num_records st + 1)).

(** The [while True] loop on a bound for the number of turns ([None] when
    the bound is too small); it ends when [find_cusip] finds nothing. *)
Fixpoint parse_loop (fuel : nat) (st : ParseState float)
  : option (M (ParseState float)) :=
  match fuel with
  | O => None
  | S fuel' =>
      let '(cusip, tk) := find_cusip (tokenizer st) in
      match cusip with
      | None | Some [] =>
          Some (inr (mkParseState tk (records st) (total_proceeds st)
                                  (total_basis st) (total_wash st)
                                  (total_num_records st)))
      | Some cusip =>
          match parse_turn st cusip tk with
          | inl e => Some (inl e)
          | inr st' => parse_loop fuel' st'
          end
      end
  end.

Definition parse_init (raw_lines : list str) : ParseState float :=
  mkParseState (Tokenizer_init raw_lines) [] Decimal_0_00 Decimal_0_00
               Decimal_0_00 0.

(** [parse1099Form], on the pieces of the extracted text between newlines:
    the final variables, [records] being what the function returns. *)
Definition parse1099Form (raw_lines : list str) : option (M (ParseState float)) :=
  parse_loop (S (length raw_lines)) (parse_init raw_lines).

(** [list.sort(key=lambda x: x.sale_date)].  The sort is stable and compares
    keys with [<] only; an insertion sort that keeps equal keys in their
    order gives the list it gives. *)
Fixpoint sort_insert (x : Record_ float) (l : list (Record_ float))
  : list (Record_ float) :=
  match l with
  | [] => [x]
  | y :: l' =>
      if date_ltb (sale_date y) (sale_date x) then y :: sort_insert x l'
      else x :: l
  end.

Definition sort_by_sale_date (l : list (Record_ float))
  : list (Record_ float) :=
  foldr sort_insert [] l.

(** What the run leaves: the output file, when one was created, and the
    exception that ended the run, if any. *)
Record Outcome := mkOutcome {
  out_file : option str;
  failure : option Failure }.

(** The [__main__] block, for the extracted text and [sys.argv[2]]. *)
Definition main (raw_lines : list str) (outfilename : str) : option Outcome :=
  match parse1099Form raw_lines with
  | None => None
  | Some (inl e) => Some (mkOutcome None (Some e))
  | Some (inr st) =>
      let records := sort_by_sale_date (records st) in
      if (length records =? 0)%nat then
        Some (mkOutcome None (Some NoRecordsFound))
      else if endswith outfilename (lit ".txf") then
        Some (mkOutcome (Some (txf_records records)) None)
      else Some (mkOutcome None (Some UnexpectedOutputFormat))
  end.

End Program.

End TaxformParser.

(** ** A runtime for the examples

    Floats are stood for by the decimals that spell them; quantities and
    amounts are printed as CPython prints the short ones the examples use
    (['%s' % 2.0] is [2.0], ['%.2f' % Decimal('2933.42')] is [2933.42]). *)

Module ExampleRuntime.

(** The digits of [n], at least [width] of them. *)
Definition zero_pad (width : nat) (n : N) : str :=
  let s := str_of_N n in
  replicate (width - length s) "0"%char ++ s.

(** A non-negative [c * 10^e] in positional notation with exactly [k]
    digits after the point ([e >= -k]). *)
Definition positional (c : N) (e : Z) (k : nat) : str :=
  let units := (c * Z.to_N (10 ^ (e + Z.of_nat k)))%N in
  let p := Z.to_N (10 ^ Z.of_nat k) in
  str_of_N (units / p) ++ lit "." ++ zero_pad k (units mod p).

Definition sign_str (d : Decimal) : str := if dsign d then lit "-" else [].

Definition example_fmt_2f (d : Decimal) : str :=
  if dexp d <? -2 then
    sign_str d ++ positional (round_half_even (dcoef d) (- 2 - dexp d)) (-2) 2
  else sign_str d ++ positional (dcoef d) (dexp d) 2.

Fixpoint drop_trailing_zeros (rev_frac : str) : str :=
  match rev_frac with
  | c :: s => if char_eqb c "0" then drop_trailing_zeros s else rev_frac
  | [] => []
  end.

Definition example_float_str (d : Decimal) : str :=
  let k := Z.to_nat (Z.max 1 (- dexp d)) in
  let s := positional (dcoef d) (dexp d) k in
  let '(ip, fp) := span (fun c => negb (char_eqb c ".")) s in
  let fp := rev (drop_trailing_zeros (rev (drop 1 fp))) in
  sign_str d ++ ip ++ lit "." ++ (if bool_decide (fp = []) then lit "0" else fp).

Definition example_strftime (d : datetime) : str :=
  zero_pad 2 (month d) ++ lit "/" ++ zero_pad 2 (day d) ++ lit "/"
  ++ zero_pad 4 (year d).

Definition example_runtime : PyRuntime := {|
  float := Decimal;
  float_of_str s :=
    match Decimal_of_str s with
    | DFinite d => Some d
    | _ => None
    end;
  float_le_0 d := (dcoef d =? 0)%N || dsign d;
  float_str := example_float_str;
  fmt_2f := example_fmt_2f;
  strftime := example_strftime;
  today := lit "04/15/2023"
|}.

End ExampleRuntime.

(** * The vocabulary of the statements

    Nothing below this line is part of the programs. *)

(** ** Sums of decimals *)

(** The running total of a list of amounts, added one at a time in the
    default context; [None] when an addition overflows. *)
Definition Dsum (init : Decimal) (l : list Decimal) : option Decimal :=
  foldl (fun acc d => acc ≫= fun a => Dadd a d) (Some init) l.

(** The sums before rounding. *)
Definition Dsum_exact (init : Decimal) (l : list Decimal) : Decimal :=
  foldl Dadd_exact init l.

(** The default context leaves [d] as it is: at most 28 digits, exponent
    within the limits. *)
Definition unrounded (d : Decimal) : Prop := fix_ d = Some d.

(** No running sum of the list is rounded. *)
Fixpoint sums_unrounded (init : Decimal) (l : list Decimal) : Prop :=
  match l with
  | [] => True
  | d :: l' => unrounded (Dadd_exact init d) /\ sums_unrounded (Dadd_exact init d) l'
  end.

Definition Qsum (l : list Q) : Q := foldr Qplus 0%Q l.

Definition Dle (a b : Decimal) : Prop := (Dvalue a <= Dvalue b)%Q.

(** A value as the default context leaves its results: at most 28 digits,
    exponent not below [Etiny]. *)
Definition fixed (d : Decimal) : Prop :=
  ndigits (dcoef d) <= prec /\ Etiny <= dexp d.

(** ** The checkbox-driven converter *)

Module Convert2022Spec.
Import Convert2022.

(** The lots of one checkbox. *)
Definition lots_of (k : str) (log : list Lot) : list Lot :=
  List.filter (fun l => str_eqb (lot_category l) k) log.

(** The second components of the fields named [op]. *)
Definition fields_named (op : string) (r : TxfRecord) : list pyval :=
  map snd (List.filter (fun f => str_eqb (fst f) (lit op)) r).

(** The characters of an amount: digits, commas and the point. *)
Definition amount_char (c : ascii) : bool :=
  is_digit c || char_eqb c "," || char_eqb c ".".

Definition amount_text (o : option str) : Prop :=
  forall v, o = Some v -> Forall (fun c => amount_char c = true) v.

(** What holds of every accepted record. *)
Definition Lot_ok (lot : Lot) : Prop :=
  let f := lot_fields lot in
  make_item (lot_category lot) f = inr (lot_item lot)
  /\ amount (f_proceeds f) = inr (lot_proceeds lot)
  /\ amount (f_basis f) = inr (lot_basis lot)
  /\ match f_wash f with
     | None => lot_wash lot = None
     | Some _ => exists d, amount (f_wash f) = inr d /\ lot_wash lot = Some d
     end
  /\ existsb (str_eqb (cusip f)) (dict_values _CUSIPS) = true
  /\ symbol f ≫= dict_get _CUSIPS = Some (cusip f)
  /\ amount_text (f_proceeds f) /\ amount_text (f_basis f)
  /\ amount_text (f_wash f).

(** The totals are the running sums of the lots, checkbox by checkbox; a
    lot without a wash amount adds nothing to the wash total. *)
Definition totals_match (t : gmap str Totals) (log : list Lot) : Prop :=
  forall k,
    let lots := lots_of k log in
    Dsum Decimal_0_00 (map lot_proceeds lots) = Some (proceeds (entry t k))
    /\ Dsum Decimal_0_00 (map lot_basis lots) = Some (basis (entry t k))
    /\ Dsum Decimal_0_00 (omap lot_wash lots) = Some (wash (entry t k))
    /\ (t !! k = None <-> lots = []).

(** Every component of every entry is a non-negative value of the
    context. *)
Definition totals_sound (t : gmap str Totals) : Prop :=
  forall k,
    (fixed (proceeds (entry t k)) /\ dsign (proceeds (entry t k)) = false)
    /\ (fixed (basis (entry t k)) /\ dsign (basis (entry t k)) = false)
    /\ (fixed (wash (entry t k)) /\ dsign (wash (entry t k)) = false).

Definition totals_le (t t' : gmap str Totals) : Prop :=
  forall k,
    Dle (proceeds (entry t k)) (proceeds (entry t' k))
    /\ Dle (basis (entry t k)) (basis (entry t' k))
    /\ Dle (wash (entry t k)) (wash (entry t' k)).

Section States.

Context {rt : PyRuntime}.
Variable lines : list str.

Definition Inv (st : State) : Prop :=
  output st = header :: map lot_item (accepted st)
  /\ Forall Lot_ok (accepted st)
  /\ totals_match (totals st) (accepted st).

(** The states the loop passes through. *)
Inductive reachable : State -> Prop :=
| reach_init : reachable init
| reach_turn st line st' :
    reachable st -> lines !! input_line st = Some line ->
    turn lines st line = inr st' -> reachable st'.

End States.

End Convert2022Spec.

(** ** The self-contained converter *)

Module TaxformParserSpec.
Import TaxformParser.

(** The tokens still to come: those left of the current line, then those
    of the lines not yet split. *)
Definition stream (tk : Tokenizer) : list str :=
  tokens tk ++ concat (map (split_on " ") (drop (line_idx tk) (lines tk))).

(** The two junctions as the specification words them, on the tokens that
    follow the basis: the wash amount, the sale date and the tokens after
    the reporting designator; [None] when the record is rejected. *)
Definition spec_junctions (after_basis : list str)
  : option (str * str * list str) :=
  match after_basis with
  | [] => None
  | t :: r =>
      let first :=
        if bool_decide (t = lit "X") then Some ([], r)
        else match r with
             | x :: r' => if bool_decide (x = lit "X") then Some (t, r') else None
             | [] => None
             end in
      match first with
      | Some (wash, sale :: g :: r') =>
          if bool_decide (g = lit "GROSS") then Some (wash, sale, r')
          else match r' with
               | g' :: r'' =>
                   if bool_decide (g' = lit "GROSS") then Some (g, sale, r'')
                   else None
               | [] => None
               end
      | _ => None
      end
  end.

Definition date_le (a b : datetime) : Prop := date_ltb b a = false.

Section Records.

Context {rt : PyRuntime}.

(** The result of [raise tokenizer.generate_parsing_error()]. *)
Definition is_parsing_error {A} (r : M A) : Prop :=
  exists tk, r = parsing_error tk.

(** What holds of the variables of [parse1099Form] at every turn. *)
Definition InvB (st : ParseState float) : Prop :=
  Forall (fun r => float_le_0 (quantity r) = false
                   /\ (symbol r = lit "GOOG" \/ symbol r = lit "GOOGL"))
         (records st)
  /\ Dsum Decimal_0_00 (map total_reported_proceeds (records st))
     = Some (total_proceeds st)
  /\ Dsum Decimal_0_00 (map total_reported_basis (records st))
     = Some (total_basis st)
  /\ Dsum Decimal_0_00 (map (fun r => wash_or_zero (total_reported_wash r))
                            (records st))
     = Some (total_wash st)
  /\ total_num_records st = length (records st).

Definition by_sale_date (a b : Record_ float) : Prop :=
  date_le (sale_date a) (sale_date b).

(** The records of one sale date, in the order of the list. *)
Definition sold_on (d : datetime) (l : list (Record_ float)) : list (Record_ float) :=
  List.filter (fun r => bool_decide (sale_date r = d)) l.

(** The record with another identifier. *)
Definition set_cusip (c : str) (r : Record_ float) : Record_ float :=
  mkRecord (quantity r) (symbol r) (acquisition_date r) (sale_date r) c
           (total_reported_basis r) (total_reported_wash r)
           (total_reported_proceeds r).

(** The three totals as values of the context that are not negative. *)
Definition totals_soundB (st : ParseState float) : Prop :=
  (fixed (total_proceeds st) /\ dsign (total_proceeds st) = false)
  /\ (fixed (total_basis st) /\ dsign (total_basis st) = false)
  /\ (fixed (total_wash st) /\ dsign (total_wash st) = false).

Definition nonneg_amounts (r : Record_ float) : Prop :=
  dsign (total_reported_proceeds r) = false
  /\ dsign (total_reported_basis r) = false
  /\ dsign (wash_or_zero (total_reported_wash r)) = false.

End Records.

End TaxformParserSpec.

(** ** Examples of statements *)

(** The statement that prints one lot in the standard layout, one with a
    wash amount after the sale date, and one on joined lines whose sale
    date repeats an earlier one. *)
Definition example_statement : list str :=
  map lit
    [ "Detail for GOOG";
      "02079K107"; "2 SHARES OF GOOG"; "01/27/2020 2,933.94 2,933.42 X";
      "02/06/2020 GROSS";
      "02079K305"; "1.0 SHARES OF GOOGL"; "11/25/2015 730.98 769.63 X";
      "05/24/2016"; "200.00"; "GROSS";
      "02079K107"; "16.5432 SHARES OF GOOG 08/25/2020 27,212.97 26,273.91 X";
      "02/06/2020 GROSS" ].

(** What the self-contained converter writes for [example_statement] on
    15 April 2023. *)
Definition example_output : str :=
  lit "V042
A quick and dirty TXF script
D04/15/2023
^
TD
N715
C1
L1
P1.0 GOOGL
D11/25/2015
D05/24/2016
$769.63
$730.98
$200.00
^
TD
N715
C1
L1
P2.0 GOOG
D01/27/2020
D02/06/2020
$2933.42
$2933.94
$
^
TD
N715
C1
L1
P16.5432 GOOG
D08/25/2020
D02/06/2020
$26273.91
$27212.97
$
^
".

(** ** Further vocabulary: what a pattern matches *)

(** The strings a pattern can consume, groups and [$] aside. *)
Fixpoint lang (r : Re.regex) (w : str) : Prop :=
  match r with
  | Re.Chr c => w = [c]
  | Re.Cls p => exists c, w = [c] /\ p c = true
  | Re.Cat r1 r2 => exists a b, w = a ++ b /\ lang r1 a /\ lang r2 b
  | Re.Alt r1 r2 => lang r1 w \/ lang r2 w
  | Re.Opt r1 => w = [] \/ lang r1 w
  | Re.Plus p => w <> [] /\ Forall (fun c => p c = true) w
  | Re.Grp _ r1 => lang r1 w
  | Re.Eol | Re.Eps => w = []
  end.

(** Whatever a group numbered [i] inside the pattern can consume
    satisfies [Q]. *)
Fixpoint grp_lang (Q : str -> Prop) (i : nat) (r : Re.regex) : Prop :=
  match r with
  | Re.Chr _ | Re.Cls _ | Re.Plus _ | Re.Eol | Re.Eps => True
  | Re.Cat r1 r2 | Re.Alt r1 r2 => grp_lang Q i r1 /\ grp_lang Q i r2
  | Re.Opt r1 => grp_lang Q i r1
  | Re.Grp j r1 => (j = i -> forall w, lang r1 w -> Q w) /\ grp_lang Q i r1
  end.

(** Every match of the pattern goes through a group numbered [i]. *)
Fixpoint sets_group (i : nat) (r : Re.regex) : Prop :=
  match r with
  | Re.Chr _ | Re.Cls _ | Re.Plus _ | Re.Eol | Re.Eps | Re.Opt _ => False
  | Re.Cat r1 r2 => sets_group i r1 \/ sets_group i r2
  | Re.Alt r1 r2 => sets_group i r1 /\ sets_group i r2
  | Re.Grp j r1 => j = i \/ sets_group i r1
  end.

(** Every match of the pattern ends_at_eol at a [$]. *)
Fixpoint ends_at_eol (r : Re.regex) : Prop :=
  match r with
  | Re.Chr _ | Re.Cls _ | Re.Plus _ | Re.Eps | Re.Opt _ => False
  | Re.Cat _ r2 => ends_at_eol r2
  | Re.Alt r1 r2 => ends_at_eol r1 /\ ends_at_eol r2
  | Re.Grp _ r1 => ends_at_eol r1
  | Re.Eol => True
  end.

(** The text of an amount: digits and commas, a point, digits. *)
Definition amount_shape (w : str) : Prop :=
  exists a b,
    w = a ++ "."%char :: b
    /\ a <> [] /\ Forall (fun c => Convert2022.digit_or_comma c = true) a
    /\ b <> [] /\ Forall (fun c => is_digit c = true) b.

(** The text of a date: [dd/dd/dddd], any digits. *)
Definition date_shape (w : str) : Prop :=
  exists d1 d2 d3 d4 d5 d6 d7 d8,
    w = [d1; d2; "/"%char; d3; d4; "/"%char; d5; d6; d7; d8]
    /\ Forall (fun c => is_digit c = true) [d1; d2; d3; d4; d5; d6; d7; d8].

(** The symbols of the registry's patterns. *)
Definition symbol_shape (w : str) : Prop := w = lit "GOOG" \/ w = lit "GOOGL".

(** The checkbox letters of the marker pattern. *)
Definition checkbox_shape (w : str) : Prop := w = lit "B" \/ w = lit "E".

(** What the patterns leave in the fields of a record. *)
Definition Fields_shape (f : Convert2022.Fields) : Prop :=
  (exists w, Convert2022.symbol f = Some w /\ symbol_shape w)
  /\ (exists w, Convert2022.acq_date f = Some w /\ date_shape w)
  /\ (exists w, Convert2022.f_proceeds f = Some w /\ amount_shape w)
  /\ (exists w, Convert2022.f_basis f = Some w /\ amount_shape w)
  /\ (forall w, Convert2022.f_wash f = Some w -> amount_shape w)
  /\ (exists w, Convert2022.sale_date f = Some w /\ date_shape w).

(** The ways the checkbox-driven converter is written to stop early:
    [sys.exit], the [IndexError] of a line past the end, and the trapped
    [Overflow] of an addition. *)
Definition written_stop (e : Convert2022.Stop) : Prop :=
  (exists x, e = Convert2022.SysExit x)
  \/ e = Convert2022.Raise IndexError
  \/ e = Convert2022.Raise DecimalOverflow.


(** The checkbox in force is one of the letters of the marker pattern. *)
Definition category_ok (st : Convert2022.State) : Prop :=
  forall c, Convert2022.txf_category st = Some c -> checkbox_shape c.

(** The decimal an amount's text reads as: the digits before and after the
    point as one coefficient, commas dropped, and one place of exponent
    for every digit after the point. *)
Definition reads_as (o : option str) (d : Decimal) : Prop :=
  exists a b,
    o = Some (a ++ "."%char :: b)
    /\ Forall (fun c => Convert2022.digit_or_comma c = true) a
    /\ b <> [] /\ Forall (fun c => is_digit c = true) b
    /\ d = mkDecimal false (digits_to_N (remove_char "," a ++ b))
                     (- Z.of_nat (length b)).

(** The four-line layout cut after its amounts line: the line after the
    identifier is a description alone, for the identifier's symbol, and the
    next one is an amounts line. *)
Definition cut_after_amounts (lines : list str) (i : nat) (line : str) : Prop :=
  length lines = (i + 3)%nat
  /\ exists l1 l2 m m3,
       lines !! (i + 1)%nat = Some l1
       /\ Re.match_ Convert2022.combined_re l1 = None
       /\ Re.match_ Convert2022.line2_re l1 = Some m
       /\ Convert2022.check_pair (Re.group m 1) (upper line) = inr tt
       /\ lines !! (i + 2)%nat = Some l2
       /\ Re.match_ Convert2022.line3_re l2 = Some m3.

(** ** Further vocabulary: the self-contained converter *)




(** The test of [find_cusip] on a line. *)
Definition is_identifier (l : str) : bool :=
  startswith l (lit "3825") || startswith l (lit "0207").

(** [n] calls of [next_token] in a row: what they return, and the
    tokenizer they leave. *)
Fixpoint read_tokens (n : nat) (tk : TaxformParser.Tokenizer)
  : list (option str) * TaxformParser.Tokenizer :=
  match n with
  | O => ([], tk)
  | S n' =>
      let '(r, tk1) := TaxformParser.next_token tk in
      let '(rs, tk2) := read_tokens n' tk1 in
      (r :: rs, tk2)
  end.

(** A day of the calendar. *)
Definition valid_date (d : datetime) : Prop :=
  (1 <= year d /\ 1 <= month d <= 12
   /\ 1 <= day d <= days_in_month (year d) (month d))%N.

(** The checkbox letter after the lines [ls]: the one of the last line
    that has a marker. *)
Definition last_marker (ls : list str) : option str :=
  foldl (fun cat l =>
           match Re.search Convert2022.marker_re l with
           | Some m => Re.group m 1
           | None => cat
           end) None ls.

(** Any character but the [x] of a marker's [Box]. *)
Definition not_x (c : ascii) : bool := negb (char_eqb c "x").

(** * Properties *)

(** ** Decimal arithmetic *)

Example Decimal_of_str_ex1 :
  Decimal_of_str (lit "2933.94") = DFinite (mkDecimal false 293394 (-2)).
Proof. reflexivity. Qed.

Example Decimal_of_str_ex2 :
  Decimal_of_str (lit " -1_0.5e3 ") = DFinite (mkDecimal true 105 2)
  /\ Decimal_of_str (lit ".") = DInvalid
  /\ Decimal_of_str (lit "1.") = DFinite (mkDecimal false 1 0)
  /\ Decimal_of_str (lit "+-1") = DInvalid
  /\ Decimal_of_str (lit "-sNaN12") = DSpecial.
Proof. repeat split; reflexivity. Qed.

Example Dadd_ex1 :
  Dadd Decimal_0_00 (mkDecimal false 15 (-1)) = Some (mkDecimal false 150 (-2)).
Proof. reflexivity. Qed.

Example Dadd_ex2 :
  Dadd Decimal_0_00 (mkDecimal false 123456789012345678901234567895 (-1))
  = Some (mkDecimal false 1234567890123456789012345679 1).
Proof. vm_compute. reflexivity. Qed.

Example strptime_ex :
  strptime (lit "02/06/2020") = Some (mkDate 2020 2 6)
  /\ strptime (lit "1/2/2020") = Some (mkDate 2020 1 2)
  /\ strptime (lit "13/01/2020") = None
  /\ strptime (lit "02/30/2020") = None
  /\ strptime (lit "02/29/2020") = Some (mkDate 2020 2 29)
  /\ strptime (lit "01/02/0000") = None
  /\ strptime (lit "1/2/20201") = None
  /\ strptime (lit "1/ 2/2020") = Some (mkDate 2020 1 2).
Proof. repeat split; vm_compute; reflexivity. Qed.

Lemma Q10_nonzero : ~ (10 == 0)%Q.
Proof. discriminate. Qed.

Lemma Q10_pow_pos e : (0 < 10 ^ e)%Q.
Proof. apply Qpower_0_lt. reflexivity. Qed.

(** Moving a power of ten between coefficient and exponent. *)
Lemma Qscale (x k e : Z) :
  0 <= k -> (inject_Z (x * 10 ^ k) * 10 ^ e == inject_Z x * 10 ^ (k + e))%Q.
Proof.
  intros Hk. rewrite inject_Z_mult, Zpower_Qpower by done.
  rewrite Qpower_plus by apply Q10_nonzero.
  change (inject_Z 10) with 10%Q.
  generalize (10 ^ k)%Q (10 ^ e)%Q. intros p q. ring.
Qed.

Lemma Dvalue_scaled d e :
  e <= dexp d ->
  (Dvalue d == inject_Z (signed d * 10 ^ (dexp d - e)) * 10 ^ e)%Q.
Proof.
  intros He. unfold Dvalue. rewrite Qscale by lia.
  replace (dexp d - e + e) with (dexp d) by lia. reflexivity.
Qed.

Lemma signed_Dadd_exact a b :
  signed (Dadd_exact a b)
  = signed a * 10 ^ (dexp a - Z.min (dexp a) (dexp b))
    + signed b * 10 ^ (dexp b - Z.min (dexp a) (dexp b)).
Proof.
  unfold Dadd_exact, signed at 1. cbn [dsign dcoef].
  set (s := signed a * _ + signed b * _).
  rewrite Z2N.id by lia.
  destruct (s =? 0) eqn:E0.
  - apply Z.eqb_eq in E0. rewrite E0. by destruct (dsign a && dsign b).
  - apply Z.eqb_neq in E0. destruct (s <? 0) eqn:E1.
    + apply Z.ltb_lt in E1. lia.
    + apply Z.ltb_ge in E1. lia.
Qed.

(** Before rounding, the sum stands for the sum of the numbers. *)
Lemma Dvalue_Dadd_exact a b :
  (Dvalue (Dadd_exact a b) == Dvalue a + Dvalue b)%Q.
Proof.
  rewrite (Dvalue_scaled a (Z.min (dexp a) (dexp b))) by lia.
  rewrite (Dvalue_scaled b (Z.min (dexp a) (dexp b))) by lia.
  unfold Dvalue at 1. rewrite signed_Dadd_exact.
  cbn [Dadd_exact dexp]. rewrite inject_Z_plus. ring.
Qed.

Lemma Dvalue_Dsum_exact init l :
  (Dvalue (Dsum_exact init l) == Dvalue init + Qsum (map Dvalue l))%Q.
Proof.
  revert init. induction l as [|d l IH]; intros init; simpl.
  - ring.
  - unfold Dsum_exact in *. simpl. rewrite IH, Dvalue_Dadd_exact. ring.
Qed.

Lemma Dsum_snoc init l d :
  Dsum init (l ++ [d]) = Dsum init l ≫= fun a => Dadd a d.
Proof. unfold Dsum. by rewrite foldl_app. Qed.

(** While no running sum is rounded, the total is the exact sum. *)
Lemma Dsum_unrounded init l :
  sums_unrounded init l -> Dsum init l = Some (Dsum_exact init l).
Proof.
  revert init. induction l as [|d l IH]; intros init H; simpl in *.
  - reflexivity.
  - destruct H as [H1 H2]. unfold Dsum, Dsum_exact in *. cbn [foldl mbind option_bind].
    change (Dadd init d) with (fix_ (Dadd_exact init d)).
    rewrite H1. apply IH, H2.
Qed.

Lemma Dvalue_0_00 : (Dvalue Decimal_0_00 == 0)%Q.
Proof. reflexivity. Qed.

(** A total whose running sums were never rounded stands for the sum of
    the amounts. *)
Lemma Dsum_value l t :
  Dsum Decimal_0_00 l = Some t -> sums_unrounded Decimal_0_00 l ->
  (Dvalue t == Qsum (map Dvalue l))%Q.
Proof.
  intros Hs Hu. rewrite (Dsum_unrounded _ _ Hu) in Hs. inversion Hs; subst t.
  rewrite Dvalue_Dsum_exact, Dvalue_0_00. ring.
Qed.

(** *** Digits and rounding *)

Lemma pow10_pos k : 0 < 10 ^ k \/ k < 0.
Proof. destruct (Z_lt_le_dec k 0); [right; lia|left; apply Z.pow_pos_nonneg; lia]. Qed.

Lemma pow10_gt0 k : 0 <= k -> 0 < 10 ^ k.
Proof. intros. apply Z.pow_pos_nonneg; lia. Qed.

Lemma pow10_add a b : 0 <= a -> 0 <= b -> 10 ^ (a + b) = 10 ^ a * 10 ^ b.
Proof. intros. by apply Z.pow_add_r. Qed.

Lemma pow10_le a b : a <= b -> 0 <= a -> 10 ^ a <= 10 ^ b.
Proof. intros. apply Z.pow_le_mono_r; lia. Qed.

Lemma ndigits_fuel_spec fuel n :
  (Z.of_N n < 2 ^ Z.of_nat fuel) ->
  let d := ndigits_fuel fuel n in
  1 <= d /\ Z.of_N n < 10 ^ d /\ (n <> 0%N -> 10 ^ (d - 1) <= Z.of_N n).
Proof.
  revert n. induction fuel as [|fuel IH]; intros n Hn; cbn [ndigits_fuel].
  - change (2 ^ Z.of_nat 0) with 1 in Hn. simpl. lia.
  - destruct (n <? 10)%N eqn:E.
    + apply N.ltb_lt in E. simpl. lia.
    + apply N.ltb_ge in E.
      assert (Hdiv : Z.of_N (n / 10) = Z.of_N n / 10) by (rewrite N2Z.inj_div; reflexivity).
      assert (Hlt : Z.of_N (n / 10) < 2 ^ Z.of_nat fuel).
      { rewrite Hdiv. apply Z.div_lt_upper_bound; [lia|].
        rewrite Nat2Z.inj_succ, Z.pow_succ_r in Hn by lia. lia. }
      destruct (IH _ Hlt) as (H1 & H2 & H3).
      set (d := ndigits_fuel fuel (n / 10)) in *.
      assert (Hq : 1 <= Z.of_N n / 10) by (apply Z.div_le_lower_bound; lia).
      assert (Hne : (n / 10)%N <> 0%N) by lia.
      specialize (H3 Hne). rewrite Hdiv in H2, H3.
      pose proof (Z.div_mod (Z.of_N n) 10 ltac:(lia)) as Hdm.
      pose proof (Z.mod_pos_bound (Z.of_N n) 10 ltac:(lia)) as Hmb.
      split; [lia|]. split.
      * replace (1 + d) with (Z.succ d) by lia. rewrite Z.pow_succ_r by lia. lia.
      * intros _. replace (1 + d - 1) with (Z.succ (d - 1)) by lia.
        rewrite Z.pow_succ_r by lia. lia.
Qed.

(** [ndigits] counts decimal digits. *)
Lemma ndigits_spec n :
  1 <= ndigits n /\ Z.of_N n < 10 ^ ndigits n
  /\ (n <> 0%N -> 10 ^ (ndigits n - 1) <= Z.of_N n).
Proof.
  apply ndigits_fuel_spec.
  pose proof (N.size_gt n) as H.
  rewrite N2Z.inj_lt, N2Z.inj_pow in H. simpl Z.of_N in H.
  by rewrite <- nat_N_Z, N2Nat.id.
Qed.

Lemma ndigits_le n k : 0 <= k -> Z.of_N n < 10 ^ k -> n <> 0%N -> ndigits n <= k.
Proof.
  intros Hk Hn Hne. destruct (ndigits_spec n) as (H1 & _ & H3).
  specialize (H3 Hne).
  destruct (Z_le_gt_dec (ndigits n) k) as [|Hgt]; [done|].
  assert (10 ^ k <= 10 ^ (ndigits n - 1)) by (apply pow10_le; lia). lia.
Qed.

Lemma round_half_even_bounds c k :
  0 < k ->
  Z.of_N c / 10 ^ k <= Z.of_N (round_half_even c k) <= Z.of_N c / 10 ^ k + 1.
Proof.
  intros Hk. unfold round_half_even.
  assert (Hp : Z.of_N (Z.to_N (10 ^ k)) = 10 ^ k).
  { rewrite Z2N.id; [done|]. pose proof (pow10_gt0 k). lia. }
  assert (Hq : Z.of_N (c / Z.to_N (10 ^ k)) = Z.of_N c / 10 ^ k)
    by (rewrite N2Z.inj_div, Hp; reflexivity).
  repeat match goal with |- context [if ?b then _ else _] => destruct b end; lia.
Qed.

(** Comparing two values at a common exponent. *)
Lemma Dle_iff a b e0 :
  e0 <= dexp a -> e0 <= dexp b ->
  Dle a b <-> signed a * 10 ^ (dexp a - e0) <= signed b * 10 ^ (dexp b - e0).
Proof.
  intros Ha Hb. unfold Dle.
  rewrite (Dvalue_scaled a e0), (Dvalue_scaled b e0) by done.
  rewrite Qmult_le_r by apply Q10_pow_pos. rewrite <- Zle_Qle. reflexivity.
Qed.

(** Rounding a non-negative value keeps it non-negative and within the
    context, and does not take it below a context value it was not below. *)
Lemma fix_lower s d' :
  dsign s = false -> fix_ s = Some d' ->
  dsign d' = false /\ fixed d'
  /\ forall ct et,
       0 <= ct < 10 ^ prec -> Etiny <= et -> dexp s <= et ->
       ct * 10 ^ (et - dexp s) <= Z.of_N (dcoef s) ->
       ct * 10 ^ (et - Z.min et (dexp d'))
       <= Z.of_N (dcoef d') * 10 ^ (dexp d' - Z.min et (dexp d')).
Proof.
  intros Hs. unfold fix_.
  set (c := dcoef s). set (e := dexp s).
  destruct (ndigits_spec c) as (Hd1 & Hd2 & Hd3).
  destruct (c =? 0)%N eqn:E0.
  { intros [= <-]. cbn [dsign dcoef dexp]. split; [done|]. split.
    - unfold fixed. cbn [dcoef dexp]. split; [by vm_compute|].
      unfold Etiny, Emax, Emin, prec. lia.
    - intros ct et Hct _ Hee Hle. apply N.eqb_eq in E0. rewrite E0 in Hle.
      pose proof (pow10_gt0 (et - e) ltac:(lia)). simpl Z.of_N in *.
      assert (ct = 0) by nia. subst ct. lia. }
  apply N.eqb_neq in E0. specialize (Hd3 E0).
  destruct (Etop <? ndigits c + e - prec) eqn:Eov; [discriminate|].
  apply Z.ltb_ge in Eov.
  set (exp_min := Z.max (ndigits c + e - prec) Etiny).
  destruct (e <? exp_min) eqn:Ernd.
  2:{ apply Z.ltb_ge in Ernd. intros [= <-]. split; [done|]. split.
      - unfold fixed. fold c e. lia.
      - intros ct et Hct Het Hee Hle. fold c e.
        replace (Z.min et e) with e by lia. rewrite Z.sub_diag. simpl. lia. }
  apply Z.ltb_lt in Ernd.
  set (k := exp_min - e). assert (Hk : 0 < k) by (unfold k; lia).
  pose proof (round_half_even_bounds c k Hk) as [Hq1 Hq2].
  set (coeff := round_half_even c k) in *.
  set (q := Z.of_N c / 10 ^ k) in *.
  pose proof (pow10_gt0 k ltac:(lia)) as Hpk.
  assert (Hq28 : q < 10 ^ prec).
  { apply Z.div_lt_upper_bound; [done|].
    assert (10 ^ ndigits c <= 10 ^ (k + prec)) by (apply pow10_le; unfold k; lia).
    rewrite pow10_add in H by (unfold prec; lia). lia. }
  (* the bound that does not depend on the carry *)
  assert (Hcore : forall ct et,
             0 <= ct < 10 ^ prec -> Etiny <= et -> e <= et ->
             ct * 10 ^ (et - e) <= Z.of_N c ->
             ct * 10 ^ (et - Z.min et exp_min)
             <= q * 10 ^ (exp_min - Z.min et exp_min)).
  { intros ct et Hct Het Hee Hle.
    destruct (Z_le_gt_dec exp_min et) as [Hge|Hlt].
    - replace (Z.min et exp_min) with exp_min by lia.
      rewrite Z.sub_diag, Z.mul_1_r.
      apply Z.div_le_lower_bound; [done|].
      replace (et - e) with (k + (et - exp_min)) in Hle by (unfold k; lia).
      rewrite pow10_add in Hle by lia. lia.
    - replace (Z.min et exp_min) with et by lia.
      rewrite Z.sub_diag, Z.mul_1_r.
      assert (Hem : exp_min = ndigits c + e - prec) by (unfold exp_min; lia).
      assert (H27 : 10 ^ (prec - 1) <= q).
      { apply Z.div_le_lower_bound; [done|].
        replace (ndigits c - 1) with (k + (prec - 1)) in Hd3 by (unfold k; lia).
        rewrite pow10_add in Hd3 by (unfold prec; lia). lia. }
      assert (H10 : 10 ^ 1 <= 10 ^ (exp_min - et)) by (apply pow10_le; lia).
      assert (Hp28 : 10 ^ prec = 10 ^ (prec - 1) * 10 ^ 1) by reflexivity.
      pose proof (pow10_gt0 (prec - 1) ltac:(unfold prec; lia)).
      nia. }
  destruct (prec <? ndigits coeff) eqn:Ecarry.
  - apply Z.ltb_lt in Ecarry.
    assert (Hc28 : Z.of_N coeff = 10 ^ prec).
    { destruct (Z_lt_le_dec (Z.of_N coeff) (10 ^ prec)) as [Hlt|]; [|lia].
      destruct (N.eq_dec coeff 0%N) as [Hz|Hnz].
      - rewrite Hz in Ecarry. vm_compute in Ecarry. discriminate.
      - pose proof (ndigits_le coeff prec ltac:(unfold prec; lia) Hlt Hnz). lia. }
    assert (Hcoeff : coeff = Z.to_N (10 ^ prec)) by (rewrite <- Hc28; by rewrite N2Z.id).
    destruct (Etop <? exp_min + 1) eqn:Eov2; [discriminate|].
    intros [= <-]. cbn [dsign dcoef dexp]. split; [done|]. split.
    + unfold fixed. cbn [dcoef dexp]. rewrite Hcoeff. split; [by vm_compute|lia].
    + intros ct et Hct Het Hee Hle. specialize (Hcore ct et Hct Het Hee Hle).
      rewrite Hcoeff. change (Z.of_N (Z.to_N (10 ^ prec) / 10)) with (10 ^ (prec - 1)).
      assert (Hq : q = 10 ^ prec - 1 \/ q = 10 ^ prec) by lia.
      destruct (Z_le_gt_dec (exp_min + 1) et) as [Hge|Hlt].
      * replace (Z.min et (exp_min + 1)) with (exp_min + 1) by lia.
        replace (Z.min et exp_min) with exp_min in Hcore by lia.
        rewrite Z.sub_diag, Z.mul_1_r in *.
        replace (et - exp_min) with (1 + (et - (exp_min + 1))) in Hcore by lia.
        rewrite pow10_add in Hcore by lia.
        pose proof (pow10_gt0 (et - (exp_min + 1)) ltac:(lia)).
        change (10 ^ 1) with 10 in Hcore.
        change (10 ^ prec) with (10 * 10 ^ (prec - 1)) in Hq28.
        nia.
      * replace (Z.min et (exp_min + 1)) with et by lia.
        rewrite Z.sub_diag, Z.mul_1_r.
        assert (10 ^ 1 <= 10 ^ (exp_min + 1 - et)) by (apply pow10_le; lia).
        change (10 ^ prec) with (10 ^ (prec - 1) * 10 ^ 1) in Hct.
        pose proof (pow10_gt0 (prec - 1) ltac:(unfold prec; lia)).
        nia.
  - apply Z.ltb_ge in Ecarry.
    destruct (Etop <? exp_min) eqn:Eov2; [discriminate|].
    intros [= <-]. cbn [dsign dcoef dexp]. split; [done|]. split.
    + unfold fixed. cbn [dcoef dexp]. lia.
    + intros ct et Hct Het Hee Hle. specialize (Hcore ct et Hct Het Hee Hle).
      pose proof (pow10_gt0 (exp_min - Z.min et exp_min) ltac:(lia)).
      nia.
Qed.

Lemma nonneg_signed d : dsign d = false -> signed d = Z.of_N (dcoef d).
Proof. unfold signed. by intros ->. Qed.

Lemma fixed_coef_bound d : fixed d -> 0 <= Z.of_N (dcoef d) < 10 ^ prec.
Proof.
  intros [Hd _]. destruct (ndigits_spec (dcoef d)) as (H1 & H2 & _).
  assert (10 ^ ndigits (dcoef d) <= 10 ^ prec) by (apply pow10_le; lia). lia.
Qed.

(** Adding a non-negative amount to a non-negative total of the context
    never makes it smaller, rounded or not. *)
Lemma Dadd_nonneg_mono t a t' :
  fixed t -> dsign t = false -> dsign a = false -> Dadd t a = Some t' ->
  Dle t t' /\ fixed t' /\ dsign t' = false.
Proof.
  intros Hf Ht Ha Hadd. unfold Dadd in Hadd.
  pose proof (signed_Dadd_exact t a) as Hs.
  rewrite (nonneg_signed t Ht), (nonneg_signed a Ha) in Hs.
  set (m := Z.min (dexp t) (dexp a)) in *.
  pose proof (pow10_gt0 (dexp t - m) ltac:(lia)).
  pose proof (pow10_gt0 (dexp a - m) ltac:(lia)).
  assert (Hsg : dsign (Dadd_exact t a) = false).
  { unfold Dadd_exact. cbn [dsign]. rewrite Ht, Ha.
    rewrite !(nonneg_signed _ Ht), !(nonneg_signed _ Ha). fold m.
    destruct (_ =? 0); [done|]. apply Z.ltb_ge. nia. }
  rewrite (nonneg_signed _ Hsg) in Hs.
  destruct (fix_lower _ _ Hsg Hadd) as (Hsg' & Hfx & Hlow).
  split; [|done].
  specialize (Hlow (Z.of_N (dcoef t)) (dexp t) (fixed_coef_bound t Hf)
                   (proj2 Hf)).
  cbn [Dadd_exact dexp] in Hlow. fold m in Hlow.
  apply (Dle_iff t t' (Z.min (dexp t) (dexp t'))); [lia|lia|].
  rewrite (nonneg_signed _ Ht), (nonneg_signed _ Hsg').
  apply Hlow; [lia|]. rewrite Hs. nia.
Qed.

(** ** The matcher *)

Module ReFacts.
Import Re.

Lemma plus_rest_sound {A} p s (k : str -> option A) x :
  plus_rest p s k = Some x ->
  exists pre s', s = pre ++ s' /\ Forall (fun c => p c = true) pre /\ k s' = Some x.
Proof.
  revert x. induction s as [|d s IH]; intros x H; simpl in H.
  - exists [], []. auto.
  - destruct (p d) eqn:Ed.
    + destruct (plus_rest p s k) as [y|] eqn:Ey.
      * inversion H; subst. destruct (IH _ eq_refl) as (pre & s' & -> & Hp & Hk).
        exists (d :: pre), s'. repeat split; auto.
      * exists [], (d :: s). auto.
    + exists [], (d :: s). auto.
Qed.

(** A successful match reaches its continuation on a suffix of the input;
    what is consumed, and what group [i] holds, obey [only] and
    [grp_only]. *)
Lemma rmatch_sound {A} (P : ascii -> bool) (i : nat) (r : regex) :
  grp_only P i r ->
  forall s g (k : str -> groups -> option A) x,
    rmatch r s g k = Some x ->
    exists pre s' g',
      s = pre ++ s' /\ k s' g' = Some x
      /\ (only P r -> Forall (fun c => P c = true) pre)
      /\ ((forall v, g !! i = Some v -> Forall (fun c => P c = true) v) ->
          forall v, g' !! i = Some v -> Forall (fun c => P c = true) v).
Proof.
  induction r as [c|p|r1 IH1 r2 IH2|r1 IH1 r2 IH2|r1 IH1|p|j r1 IH1| |];
    intros Hg s g k x H; simpl in *.
  - destruct s as [|d s]; [discriminate|].
    unfold char_eqb in H. case_bool_decide; [|discriminate]. subst d.
    exists [c], s, g. repeat split; auto.
  - destruct s as [|d s]; [discriminate|].
    destruct (p d) eqn:Ed; [|discriminate].
    exists [d], s, g. repeat split; auto.
  - destruct Hg as [Hg1 Hg2].
    destruct (IH1 Hg1 _ _ _ _ H) as (pre1 & s1 & g1 & -> & Hk1 & Ho1 & Hi1).
    destruct (IH2 Hg2 _ _ _ _ Hk1) as (pre2 & s2 & g2 & -> & Hk2 & Ho2 & Hi2).
    exists (pre1 ++ pre2), s2, g2. rewrite <- app_assoc. repeat split; auto.
    intros [? ?]. apply Forall_app; auto.
  - destruct Hg as [Hg1 Hg2].
    destruct (rmatch r1 s g k) as [y|] eqn:E1.
    + inversion H; subst y.
      destruct (IH1 Hg1 _ _ _ _ E1) as (pre & s' & g' & -> & Hk & Ho & Hi).
      exists pre, s', g'. repeat split; auto. intros [? ?]; auto.
    + destruct (IH2 Hg2 _ _ _ _ H) as (pre & s' & g' & -> & Hk & Ho & Hi).
      exists pre, s', g'. repeat split; auto. intros [? ?]; auto.
  - destruct (rmatch r1 s g k) as [y|] eqn:E1.
    + inversion H; subst y.
      destruct (IH1 Hg _ _ _ _ E1) as (pre & s' & g' & -> & Hk & Ho & Hi).
      exists pre, s', g'. repeat split; auto.
    + exists [], s, g. repeat split; auto.
  - destruct s as [|d s]; [discriminate|].
    destruct (p d) eqn:Ed; [|discriminate].
    destruct (plus_rest_sound _ _ _ _ H) as (pre & s' & -> & Hp & Hk).
    exists (d :: pre), s', g. repeat split; auto.
    intros Ho. constructor; auto. eapply Forall_impl; eauto.
  - destruct Hg as [Hj Hg].
    destruct (IH1 Hg _ _ _ _ H) as (pre & s' & g' & -> & Hk & Ho & Hi).
    replace (take (length (pre ++ s') - length s') (pre ++ s')) with pre in Hk.
    2:{ rewrite length_app, Nat.add_sub. by rewrite take_app_length. }
    exists pre, s', (<[j := pre]> g'). repeat split; auto.
    intros Hv v. destruct (decide (j = i)) as [->|Hne].
    + rewrite lookup_insert_eq. intros [= <-]. auto.
    + rewrite lookup_insert_ne by done. auto.
  - destruct (at_end s); [|discriminate].
    exists [], s, g. repeat split; auto.
  - exists [], s, g. repeat split; auto.
Qed.

(** What [re.match] reports for a group is made of characters the group's
    expression can consume. *)
Lemma match_group_chars (P : ascii -> bool) (i : nat) (r : regex) s g v :
  grp_only P i r -> match_ r s = Some g -> group g i = Some v ->
  Forall (fun c => P c = true) v.
Proof.
  intros Hg Hm Hv. unfold match_, match_end in Hm.
  destruct (rmatch r s ∅ (fun s' g0 => Some (g0, s'))) as [[g0 s0]|] eqn:E;
    [|discriminate].
  simpl in Hm. inversion Hm; subst g0; clear Hm.
  destruct (rmatch_sound P i r Hg _ _ _ _ E) as (pre & s' & g' & -> & Hk & _ & Hi).
  inversion Hk; subst. eapply Hi; eauto.
  intros w Hw. by rewrite lookup_empty in Hw.
Qed.

End ReFacts.

(** ** Text and Decimal *)

Lemma startswith_nil s : startswith s [] = true.
Proof. by destruct s. Qed.

Lemma Forall_lstrip (P : ascii -> Prop) s : Forall P s -> Forall P (lstrip s).
Proof.
  induction 1 as [|c s Hc Hs IH]; simpl; [constructor|].
  destruct (is_space c); auto.
Qed.

Lemma Forall_strip (P : ascii -> Prop) s : Forall P s -> Forall P (strip s).
Proof.
  intros H. unfold strip.
  apply Forall_rev, Forall_lstrip, Forall_rev, Forall_lstrip, H.
Qed.

Lemma Forall_remove_char (P : ascii -> Prop) c s :
  Forall P s -> Forall P (remove_char c s).
Proof.
  intros H. unfold remove_char. rewrite Forall_forall in *.
  intros x Hx. apply H. apply list_elem_of_In, filter_In in Hx as [Hx _].
  by apply list_elem_of_In.
Qed.

Lemma split_sign_true s t : split_sign s = (true, t) -> s = "-"%char :: t.
Proof.
  destruct s as [|c s]; simpl; [discriminate|].
  destruct c as [[] [] [] [] [] [] [] []]; simpl; intros [= <-]; reflexivity.
Qed.

Lemma numeric_value_sign sg s d : numeric_value sg s = DFinite d -> dsign d = sg.
Proof.
  unfold numeric_value.
  destruct (span is_digit s) as [ip s1].
  destruct (match s1 with
            | "."%char :: t => span is_digit t
            | _ => ([], s1)
            end) as [fp s2].
  destruct (negb (bool_decide (ip = [])) || negb (bool_decide (fp = []))).
  - destruct (parse_exponent s2); [|discriminate]. intros [= <-]. reflexivity.
  - destruct (spells_special s); discriminate.
Qed.

(** A string without a minus sign never makes a negative [Decimal]. *)
Lemma Decimal_of_str_nonneg s d :
  Forall (fun c => c <> "-"%char) s -> Decimal_of_str s = DFinite d ->
  dsign d = false.
Proof.
  intros Hs. unfold Decimal_of_str.
  destruct (split_sign (remove_char "_" (strip s))) as [sg t] eqn:E.
  intros H. apply numeric_value_sign in H. rewrite H.
  destruct sg; [|reflexivity].
  apply split_sign_true in E.
  assert (Hf : Forall (fun c => c <> "-"%char) (remove_char "_" (strip s)))
    by (apply Forall_remove_char, Forall_strip, Hs).
  rewrite E in Hf. inversion Hf; subst. congruence.
Qed.

Module Convert2022Facts.
Import Convert2022 Convert2022Spec.

Example combined_ex :
  Re.match_ combined_re
    (lit "16.5432 SHARES OF GOOG 08/25/2020 27,212.97 26,273.91 X")
  = Some (<[1%nat := lit "GOOG"]> (<[2%nat := lit "08/25/2020"]>
          (<[3%nat := lit "27,212.97"]> (<[4%nat := lit "26,273.91"]> ∅)))).
Proof. vm_compute. reflexivity. Qed.

Example line3_ex :
  Re.match_ line3_re (lit "07/25/2019 4,498.54 3,413.43 1,100.22 X")
  = Some (<[1%nat := lit "07/25/2019"]> (<[2%nat := lit "4,498.54"]>
          (<[3%nat := lit "3,413.43"]> (<[4%nat := lit "1,100.22"]> ∅)))).
Proof. vm_compute. reflexivity. Qed.

Example marker_ex :
  (Re.search marker_re (lit "Form 8949, Box E checked below") ≫= (.!! 1%nat))
  = Some (lit "E").
Proof. vm_compute. reflexivity. Qed.

Ltac bind_inv H :=
  repeat match type of H with
  | bind ?c _ = _ => let E := fresh "E" in destruct c as [?|?] eqn:E; simpl in H; [discriminate H|]
  | (let* _ := ?c in _) = _ => let E := fresh "E" in destruct c as [?|?] eqn:E; simpl in H; [discriminate H|]
  | match ?p with (_, _) => _ end = _ => destruct p
  end.

Lemma entry_insert t k v : entry (<[k := v]> t) k = v.
Proof. unfold entry. by rewrite lookup_insert_eq. Qed.

Lemma account_spec t cat f t' dp db dw :
  account t cat f = inr (t', (dp, db, dw)) ->
  amount (f_proceeds f) = inr dp /\ amount (f_basis f) = inr db
  /\ match f_wash f with
     | None => dw = None
     | Some _ => exists d, amount (f_wash f) = inr d /\ dw = Some d
     end
  /\ (forall k, k <> cat -> t' !! k = t !! k)
  /\ exists p b w,
       t' !! cat = Some (mkTotals p b w)
       /\ Dadd (proceeds (entry t cat)) dp = Some p
       /\ Dadd (basis (entry t cat)) db = Some b
       /\ match dw with
          | Some d => Dadd (wash (entry t cat)) d = Some w
          | None => w = wash (entry t cat)
          end.
Proof.
  unfold account. intros H.
  destruct (amount (f_proceeds f)) as [|dp'] eqn:Ep; simpl in H; try discriminate H.
  unfold add in H.
  destruct (Dadd (proceeds (entry t cat)) dp') as [p|] eqn:Ap; simpl in H; try discriminate H.
  destruct (amount (f_basis f)) as [|db'] eqn:Eb; simpl in H; try discriminate H.
  rewrite !entry_insert in H. simpl in H.
  destruct (Dadd (basis (entry t cat)) db') as [b|] eqn:Ab; simpl in H; try discriminate H.
  destruct (f_wash f) as [w0|] eqn:Ew.
  - destruct (amount (Some w0)) as [|dw'] eqn:Edw; simpl in H; try discriminate H.
    rewrite !entry_insert in H. simpl in H.
    destruct (Dadd (wash (entry t cat)) dw') as [w|] eqn:Aw; simpl in H; try discriminate H.
    inversion H; subst; clear H.
    split; [done|]. split; [done|]. split; [eauto|].
    split.
    + intros k Hk. rewrite !lookup_insert_ne by done. done.
    + exists p, b, w. unfold entry. rewrite !lookup_insert_eq. simpl. done.
  - inversion H; subst; clear H.
    split; [done|]. split; [done|]. split; [done|].
    split.
    + intros k Hk. rewrite !lookup_insert_ne by done. done.
    + exists p, b, (wash (entry t cat)). rewrite !lookup_insert_eq. done.
Qed.

Ltac solve_amount_leaf :=
  first [ reflexivity
        | let c := fresh "c" in
          intros c; unfold amount_char, digit_or_comma; intros ->; reflexivity ].

Lemma only_amount_re : Re.only amount_char amount_re.
Proof. simpl. repeat split; solve_amount_leaf. Qed.

Lemma grp_only_amounts_re (i j : nat) :
  (j = i + 1 \/ j = i + 2 \/ j = i + 3)%nat ->
  Re.grp_only amount_char j (amounts_re i).
Proof.
  intros Hj. simpl. repeat split; try (exfalso; lia); solve_amount_leaf.
Qed.

Lemma grp_only_combined_re (j : nat) :
  (j = 3 \/ j = 4 \/ j = 5)%nat -> Re.grp_only amount_char j combined_re.
Proof.
  intros Hj. simpl. repeat split; try (exfalso; lia); solve_amount_leaf.
Qed.

Lemma amount_char_not_minus c : amount_char c = true -> c <> "-"%char.
Proof. intros H ->. discriminate H. Qed.

(** An amount matched by the patterns is never negative. *)
Lemma amount_nonneg o d : amount_text o -> amount o = inr d -> dsign d = false.
Proof.
  intros Ht. unfold amount. destruct o as [v|]; [|discriminate].
  destruct (Decimal_of_str (remove_char "," v)) as [d'| |] eqn:E; try discriminate.
  intros [= <-]. eapply Decimal_of_str_nonneg; [|exact E].
  apply Forall_remove_char. eapply Forall_impl; [apply Ht; reflexivity|].
  intros c. apply amount_char_not_minus.
Qed.

Lemma registry_upper line :
  existsb (str_eqb line) (dict_values _CUSIPS) = true -> upper line = line.
Proof.
  simpl. unfold str_eqb. rewrite !orb_true_iff.
  intros [H|[H|H]]; try discriminate; apply bool_decide_eq_true in H; subst;
    reflexivity.
Qed.

Lemma check_pair_ok symbol cusip :
  check_pair symbol cusip = inr tt ->
  symbol ≫= dict_get _CUSIPS = Some cusip.
Proof.
  unfold check_pair. destruct (symbol ≫= dict_get _CUSIPS) as [c|]; [|discriminate].
  unfold str_eqb. case_bool_decide; simpl; [|discriminate]. by subst.
Qed.

(** What a record that was read looks like: it took at least three lines,
    its symbol is the registry's symbol for its identifier, and its amounts
    are made of digits, commas and a point. *)
Lemma read_record_spec lines i line i' f :
  read_record lines i line = inr (i', f) ->
  (i + 3 <= i')%nat
  /\ cusip f = upper line
  /\ symbol f ≫= dict_get _CUSIPS = Some (cusip f)
  /\ amount_text (f_proceeds f) /\ amount_text (f_basis f)
  /\ amount_text (f_wash f).
Proof.
  unfold read_record.
  destruct (length lines <? i + 3)%nat; [discriminate|].
  destruct (index lines (i + 1)) as [|l1] eqn:E1; simpl; [discriminate|].
  destruct (Re.match_ combined_re l1) as [m|] eqn:Em.
  - destruct (check_pair (Re.group m 1) (upper line)) as [|[]] eqn:Ec; simpl;
      [discriminate|].
    destruct (index lines (i + 1 + 1)) as [|l2] eqn:E2; simpl; [discriminate|].
    destruct (Re.match_ line4_re l2) as [m4|]; [|discriminate].
    intros [= <- <-]. simpl.
    split; [lia|]. split; [reflexivity|]. split; [by apply check_pair_ok|].
    repeat split; intros v Hv;
      (eapply ReFacts.match_group_chars; [|exact Em|exact Hv]);
      apply grp_only_combined_re; lia.
  - destruct (Re.match_ line2_re l1) as [m|] eqn:Em2; [|discriminate].
    destruct (check_pair (Re.group m 1) (upper line)) as [|[]] eqn:Ec; simpl;
      [discriminate|].
    destruct (index lines (i + 1 + 1)) as [|l2] eqn:E2; simpl; [discriminate|].
    destruct (Re.match_ line3_re l2) as [m3|] eqn:Em3; [|discriminate]. simpl.
    destruct (index lines (i + 1 + 1 + 1)) as [|l3] eqn:E3; simpl; [discriminate|].
    destruct (Re.match_ line4_re l3) as [m4|]; [|discriminate].
    intros [= <- <-]. simpl.
    split; [lia|]. split; [reflexivity|]. split; [by apply check_pair_ok|].
    repeat split; intros v Hv;
      (eapply ReFacts.match_group_chars; [|exact Em3|exact Hv]);
      apply (grp_only_amounts_re 1); lia.
Qed.

(** *** The state of the loop *)

Lemma lots_of_snoc k log lot :
  lots_of k (log ++ [lot])
  = lots_of k log ++ (if str_eqb (lot_category lot) k then [lot] else []).
Proof. unfold lots_of. rewrite List.filter_app. simpl. by destruct (str_eqb _ _). Qed.

Section RunFacts.

Context {rt : PyRuntime}.
Variable lines : list str.

Lemma Inv_init : Inv init.
Proof.
  split; [reflexivity|]. split; [constructor|].
  intros k. cbv zeta. unfold entry. cbn [init totals accepted lots_of List.filter map omap].
  rewrite lookup_empty. done.
Qed.

Lemma totals_match_step t log cat f t' dp db dw item :
  totals_match t log -> account t cat f = inr (t', (dp, db, dw)) ->
  totals_match t' (log ++ [mkLot cat f dp db dw item]).
Proof.
  intros Hm Ha k.
  destruct (account_spec _ _ _ _ _ _ _ Ha)
    as (_ & _ & _ & Hother & p & b & w & Hcat & Hp & Hb & Hw).
  destruct (Hm k) as (Mp & Mb & Mw & Mn).
  cbv zeta. rewrite lots_of_snoc. simpl lot_category.
  unfold str_eqb. case_bool_decide as Hk.
  - subst k. rewrite !map_app, omap_app. simpl.
    rewrite !Dsum_snoc, Mp, Mb. simpl.
    assert (He : entry t' cat = mkTotals p b w) by (unfold entry; by rewrite Hcat).
    rewrite He. simpl.
    split; [done|]. split; [done|].
    split.
    + destruct dw as [d|]; simpl.
      * rewrite Dsum_snoc, Mw. simpl. done.
      * rewrite app_nil_r, Mw. by subst w.
    + rewrite Hcat. split; [done|]. intros H. by apply app_eq_nil in H as [_ ?].
  - rewrite app_nil_r. unfold entry. rewrite Hother by done.
    fold (entry t k). done.
Qed.

(** A turn that does not stop the run moves forward and keeps [Inv]. *)
Lemma turn_spec st line st' :
  turn lines st line = inr st' -> Inv st ->
  Inv st' /\ (input_line st < input_line st')%nat.
Proof.
  unfold turn. intros H (Ho & Hl & Ht).
  destruct (Re.search marker_re line) as [m|].
  { inversion H; subst; clear H. simpl. split; [done|lia]. }
  destruct (existsb (str_eqb line) (dict_values _CUSIPS)) eqn:Ereg; simpl in H.
  2:{ inversion H; subst; clear H. simpl. split; [done|lia]. }
  destruct (txf_category st) as [cat|]; [|discriminate].
  destruct (read_record lines (input_line st) line) as [|[i f]] eqn:Er;
    simpl in H; [discriminate|].
  destruct (account (totals st) cat f) as [|[t [[dp db] dw]]] eqn:Ea;
    simpl in H; [discriminate|].
  destruct (make_item cat f) as [|item] eqn:Ei; simpl in H; [discriminate|].
  inversion H; subst; clear H. simpl.
  destruct (read_record_spec _ _ _ _ _ Er) as (Hi & Hc & Hs & Tp & Tb & Tw).
  destruct (account_spec _ _ _ _ _ _ _ Ea) as (Ap & Ab & Aw & _).
  split; [|lia]. split; [|split].
  - simpl. rewrite Ho, map_app. reflexivity.
  - simpl. apply Forall_app. split; [done|]. constructor; [|constructor].
    unfold Lot_ok. simpl. repeat split; try done.
    rewrite Hc, (registry_upper _ Ereg). done.
  - simpl. eapply totals_match_step; eauto.
Qed.

Lemma loop_Inv fuel st st' e :
  loop lines fuel st = Some (st', e) -> Inv st -> Inv st'.
Proof.
  revert st. induction fuel as [|fuel IH]; intros st H Hi; simpl in H;
    [discriminate|].
  destruct (lines !! input_line st) as [line|]; [|by inversion H; subst].
  destruct (turn lines st line) as [x|st1] eqn:Et.
  - by inversion H; subst.
  - apply (IH st1); [done|]. by apply (turn_spec st line).
Qed.



Lemma run_Inv st e : run lines = Some (st, e) -> Inv st.
Proof. intros H. eapply loop_Inv; [exact H|apply Inv_init]. Qed.

Lemma run_lot_facts st e lot :
  run lines = Some (st, e) -> In lot (accepted st) ->
  Lot_ok lot /\ In (lot_item lot) (output st).
Proof.
  intros Hr Hin. destruct (run_Inv _ _ Hr) as (Ho & Hl & _). split.
  - rewrite Forall_forall in Hl. apply Hl. by apply list_elem_of_In.
  - rewrite Ho. right. by apply in_map.
Qed.

(** An identifier line with no marker line before it: the loop skips what
    comes before and exits at it, having printed nothing. *)
Lemma loop_no_checkbox pre l post :
  lines = pre ++ l :: post ->
  Forall (fun x => Re.search marker_re x = None) pre ->
  existsb (str_eqb l) (dict_values _CUSIPS) = true ->
  forall fuel st,
    txf_category st = None ->
    (length pre - input_line st < fuel)%nat ->
    (input_line st <= length pre)%nat ->
    exists st',
      loop lines fuel st = Some (st', Some (SysExit NoCheckbox))
      /\ output st' = output st /\ accepted st' = accepted st
      /\ totals st' = totals st.
Proof.
  intros Hlines Hpre Hl fuel. induction fuel as [|fuel IH]; intros st Hc Hf Hi; [lia|].
  cbn [loop].
  assert (Hno : Re.search marker_re l = None).
  { simpl in Hl. unfold str_eqb in Hl. rewrite !orb_true_iff in Hl.
    destruct Hl as [H|[H|H]]; try discriminate; apply bool_decide_eq_true in H;
      subst l; vm_compute; reflexivity. }
  destruct (Nat.eq_dec (input_line st) (length pre)) as [He|Hne].
  - assert (El : lines !! input_line st = Some l).
    { rewrite Hlines, He. by rewrite list_lookup_middle. }
    rewrite El. unfold turn. rewrite Hno, Hl, Hc. cbn. eauto.
  - assert (Hlt : (input_line st < length pre)%nat) by lia.
    destruct (lookup_lt_is_Some_2 pre _ Hlt) as [x Hx].
    assert (El : lines !! input_line st = Some x).
    { rewrite Hlines. by rewrite lookup_app_l. }
    rewrite El.
    assert (Hnx : Re.search marker_re x = None).
    { rewrite Forall_forall in Hpre. apply Hpre. by eapply list_elem_of_lookup_2. }
    unfold turn. rewrite Hnx, Hc.
    destruct (existsb (str_eqb x) (dict_values _CUSIPS)); cbn [negb].
    + cbn. eauto.
    + destruct (IH (mkState (input_line st + 1) None (totals st) (output st)
                            (accepted st)))
        as (st' & E & ? & ? & ?); cbn [txf_category input_line]; try done; try lia.
      eauto.
Qed.

Lemma loop_reachable fuel st st' e :
  loop lines fuel st = Some (st', e) -> reachable lines st -> reachable lines st'.
Proof.
  revert st. induction fuel as [|fuel IH]; intros st H Hr; [discriminate|].
  cbn [loop] in H.
  destruct (lines !! input_line st) as [line|] eqn:El; [|by inversion H; subst].
  destruct (turn lines st line) as [x|st1] eqn:Et; [by inversion H; subst|].
  apply (IH st1 H). by eapply reach_turn.
Qed.

Lemma Dle_refl d : Dle d d.
Proof. unfold Dle. apply Qle_refl. Qed.

Lemma totals_le_refl t : totals_le t t.
Proof. intros k. repeat split; apply Dle_refl. Qed.

Lemma fixed_0_00 : fixed Decimal_0_00.
Proof. split; by vm_compute. Qed.

Lemma totals_sound_empty : totals_sound ∅.
Proof.
  intros k. unfold entry. rewrite lookup_empty. cbn.
  pose proof fixed_0_00. done.
Qed.

(** A turn never lowers a total, and changes at most the entry of the
    record it accepts. *)
Lemma turn_totals st line st' :
  turn lines st line = inr st' -> totals_sound (totals st) ->
  totals_sound (totals st') /\ totals_le (totals st) (totals st')
  /\ (accepted st' = accepted st /\ totals st' = totals st
      \/ exists lot,
           accepted st' = accepted st ++ [lot]
           /\ forall k, k <> lot_category lot ->
                        totals st' !! k = totals st !! k).
Proof.
  unfold turn. intros H Hs.
  destruct (Re.search marker_re line) as [m|].
  { inversion H; subst; clear H. cbn. split; [done|].
    split; [apply totals_le_refl|]. by left. }
  destruct (existsb (str_eqb line) (dict_values _CUSIPS)) eqn:Ereg; cbn [negb] in H.
  2:{ inversion H; subst; clear H. cbn. split; [done|].
      split; [apply totals_le_refl|]. by left. }
  destruct (txf_category st) as [cat|]; [|discriminate].
  destruct (read_record lines (input_line st) line) as [|[i f]] eqn:Er;
    cbn [bind] in H; [discriminate|].
  destruct (account (totals st) cat f) as [|[t [[dp db] dw]]] eqn:Ea;
    cbn [bind] in H; [discriminate|].
  destruct (make_item cat f) as [|item] eqn:Ei; cbn [bind] in H; [discriminate|].
  inversion H; subst; clear H. cbn [totals accepted].
  destruct (read_record_spec _ _ _ _ _ Er) as (_ & _ & _ & Tp & Tb & Tw).
  destruct (account_spec _ _ _ _ _ _ _ Ea)
    as (Ap & Ab & Aw & Hother & p & b & w & Hcat & Hp & Hb & Hw).
  destruct (Hs cat) as ((Fp & Sp) & (Fb & Sb) & (Fw & Sw)).
  destruct (Dadd_nonneg_mono _ _ _ Fp Sp (amount_nonneg _ _ Tp Ap) Hp)
    as (Lp & Fp' & Sp').
  destruct (Dadd_nonneg_mono _ _ _ Fb Sb (amount_nonneg _ _ Tb Ab) Hb)
    as (Lb & Fb' & Sb').
  assert (Hwash : Dle (wash (entry (totals st) cat)) w /\ fixed w /\ dsign w = false).
  { destruct dw as [d|].
    - destruct (f_wash f) as [w0|] eqn:Ew; [|discriminate].
      destruct Aw as (d' & Ad & Hd). inversion Hd; subst d'.
      assert (Hn : dsign d = false) by (eapply amount_nonneg; [exact Tw|exact Ad]).
      exact (Dadd_nonneg_mono _ _ _ Fw Sw Hn Hw).
    - subst w. split; [apply Dle_refl|done]. }
  destruct Hwash as (Lw & Fw' & Sw').
  assert (He : entry t cat = mkTotals p b w) by (unfold entry; by rewrite Hcat).
  assert (Ho : forall k, k <> cat -> entry t k = entry (totals st) k)
    by (intros k Hk; unfold entry; by rewrite Hother).
  split; [|split].
  - intros k. destruct (decide (k = cat)) as [->|Hk].
    + rewrite He. cbn. done.
    + rewrite (Ho k Hk). apply Hs.
  - intros k. destruct (decide (k = cat)) as [->|Hk].
    + rewrite He. cbn. done.
    + rewrite (Ho k Hk). repeat split; apply Dle_refl.
  - right. eexists. split; [reflexivity|]. cbn. exact Hother.
Qed.

Lemma reachable_sound st : reachable lines st -> totals_sound (totals st).
Proof.
  induction 1 as [|st line st' Hr IH El Et]; [apply totals_sound_empty|].
  by destruct (turn_totals _ _ _ Et IH).
Qed.

End RunFacts.

(** What [make_item] prints: the reference number of the checkbox, and two
    or three amounts. *)
Lemma make_item_spec cat f item :
  make_item cat f = inr item ->
  exists n,
    dict_get _TXF_CATEGORIES cat = Some n /\ (n = 711 \/ n = 713)
    /\ fields_named "N" item = [VInt n]
    /\ fields_named "$" item
       = [of_group (f_basis f); of_group (f_proceeds f)]
         ++ match f_wash f with
            | Some w => [VStr w]
            | None => []
            end.
Proof.
  unfold make_item. destruct (dict_get _TXF_CATEGORIES cat) as [n|] eqn:En;
    [|discriminate].
  intros [= <-]. exists n. split; [done|]. split.
  - unfold _TXF_CATEGORIES in En. cbn [dict_get] in En.
    destruct (str_eqb (lit "B") cat); [left; congruence|].
    destruct (str_eqb (lit "E") cat); [right; congruence|discriminate].
  - destruct (f_wash f); split; reflexivity.
Qed.

(** A description that starts with a minus sign matches neither layout. *)
Lemma read_record_minus (lines : list str) i line (rest : str) :
  lines !! (i + 1)%nat = Some ("-"%char :: rest) ->
  (i + 3 <= length lines)%nat ->
  read_record lines i line
  = exit (ParseLineError (i + 2) ("-"%char :: rest)).
Proof.
  intros Hl Hlen. unfold read_record.
  destruct (length lines <? i + 3)%nat eqn:E; [apply Nat.ltb_lt in E; lia|].
  unfold index. unfold str in *. rewrite Hl. cbn [bind].
  replace (i + 1 + 1)%nat with (i + 2)%nat by lia. reflexivity.
Qed.

End Convert2022Facts.

(** ** The self-contained converter *)

Module TaxformParserFacts.
Import TaxformParser TaxformParserSpec.

Lemma split_on_nonempty c s : split_on c s <> [].
Proof.
  destruct s as [|d s]; simpl; [done|].
  destruct (char_eqb c d); [done|]. by destruct (split_on c s).
Qed.

Lemma next_token_cons tk t rest :
  stream tk = t :: rest ->
  exists tk', next_token tk = (Some t, tk') /\ stream tk' = rest.
Proof.
  unfold stream, next_token. destruct tk as [ls i toks]. simpl.
  destruct toks as [|t0 ts]; simpl.
  - destruct (ls !! i) as [l|] eqn:El.
    + rewrite (drop_S _ _ _ El). simpl.
      pose proof (split_on_nonempty " " l) as Hn.
      destruct (split_on " " l) as [|w ws]; [done|]. simpl.
      intros [= -> <-]. eexists. split; [reflexivity|]. simpl.
      by rewrite Nat.add_1_r.
    + rewrite drop_ge by (by apply lookup_ge_None). discriminate.
  - intros [= -> <-]. eexists. split; reflexivity.
Qed.

Lemma next_token_nil tk : stream tk = [] -> next_token tk = (None, tk).
Proof.
  unfold stream, next_token. destruct tk as [ls i toks]. simpl.
  destruct toks as [|t0 ts]; simpl; [|discriminate].
  destruct (ls !! i) as [l|] eqn:El; [|done].
  rewrite (drop_S _ _ _ El). simpl.
  pose proof (split_on_nonempty " " l) as Hn.
  destruct (split_on " " l) as [|w ws]; [done|]. discriminate.
Qed.

(** [next_token] never goes back, and leaves the lines alone. *)
Lemma next_token_mono tk r tk' :
  next_token tk = (r, tk') ->
  lines tk' = lines tk /\ (line_idx tk <= line_idx tk')%nat.
Proof.
  unfold next_token. destruct (tokens tk) as [|t ts].
  - destruct (lines tk !! line_idx tk); intros [= <- <-]; simpl; split; lia || done.
  - intros [= <- <-]. simpl. done.
Qed.

Lemma is_tok_true t s : is_tok t s = true <-> t = Some (lit s).
Proof. unfold is_tok. apply bool_decide_eq_true. Qed.

Lemma is_tok_lit s : is_tok (Some (lit s)) s = true.
Proof. by apply is_tok_true. Qed.

Lemma is_tok_Some t s : is_tok (Some t) s = bool_decide (t = lit s).
Proof.
  unfold is_tok. apply bool_decide_ext. split; [by intros [= ->]|by intros ->].
Qed.

Lemma is_tok_None s : is_tok None s = false.
Proof. reflexivity. Qed.

Section ScanFacts.

Context {rt : PyRuntime}.

Lemma bind_parsing_error {A B} tk (k : A -> M B) :
  bind (parsing_error tk) k = parsing_error tk.
Proof. unfold parsing_error. by destruct (py_index _ _). Qed.

Ltac perr := rewrite ?bind_parsing_error; eexists; reflexivity.

Ltac step :=
  match goal with
  | H : stream ?tk = _ :: _ |- context [next_token ?tk] =>
      let tk' := fresh "tk" in
      let E := fresh "E" in
      let H' := fresh "H" in
      destruct (next_token_cons _ _ _ H) as (tk' & E & H');
      rewrite E; clear E; cbv beta iota
  | H : stream ?tk = [] |- context [next_token ?tk] =>
      rewrite (next_token_nil _ H); cbv beta iota
  end.

Ltac tok_case :=
  match goal with
  | |- context [is_tok (Some (lit ?s)) ?s] => rewrite (is_tok_lit s)
  | |- context [is_tok None ?s] => rewrite (is_tok_None s)
  | |- context [is_tok (Some ?t) ?s] =>
      rewrite (is_tok_Some t s); case_bool_decide; subst
  end; cbn [negb].

(** The head of a record: quantity, [SHARES], [OF], symbol, then three
    tokens taken as they come. *)
Lemma scan_record_head tk q sym acq p b rest x :
  stream tk = q :: lit "SHARES" :: lit "OF" :: sym :: acq :: p :: b :: rest ->
  float_of_str q = Some x -> float_le_0 x = false ->
  sym = lit "GOOG" \/ sym = lit "GOOGL" ->
  exists tk0, stream tk0 = rest /\
    scan_record tk =
      (let '(wash, tk) := next_token tk0 in
       let '(wash, non_covered, tk) :=
         if is_tok wash "X" then (Some [], Some (lit "X"), tk)
         else let '(non_covered, tk) := next_token tk in (wash, non_covered, tk) in
       if negb (is_tok non_covered "X") then parsing_error tk else
       let '(sale_date, tk) := next_token tk in
       let '(maybe_wash_sale_amount, tk) := next_token tk in
       let* (wash, tk) :=
         if negb (is_tok maybe_wash_sale_amount "GROSS") then
           let wash := maybe_wash_sale_amount in
           let '(t, tk) := next_token tk in
           if negb (is_tok t "GROSS") then parsing_error tk else inr (wash, tk)
         else inr (wash, tk) in
       if cur_string_tokens_available tk then parsing_error tk else
       inr (mkLocals x (Some sym) (Some acq) (Some p) (Some b) wash sale_date, tk)).
Proof.
  intros H Hq Hx Hsym. unfold scan_record.
  step. step. rewrite is_tok_lit. cbn [negb]. step. rewrite is_tok_lit. cbn [negb].
  rewrite Hq. cbn [bind]. step.
  assert (Hc : (negb (is_tok (Some sym) "GOOG") && negb (is_tok (Some sym) "GOOGL"))
               || float_le_0 x = false).
  { rewrite Hx. destruct Hsym; subst; reflexivity. }
  rewrite Hc. step. step. step.
  eexists. split; [eassumption|reflexivity].
Qed.

(** The code resolves the two junctions as [spec_junctions] says. *)
Lemma scan_record_junctions tk q sym acq p b rest x :
  stream tk = q :: lit "SHARES" :: lit "OF" :: sym :: acq :: p :: b :: rest ->
  float_of_str q = Some x -> float_le_0 x = false ->
  sym = lit "GOOG" \/ sym = lit "GOOGL" ->
  match spec_junctions rest with
  | None => is_parsing_error (scan_record tk)
  | Some (wash, sale, rest') =>
      exists tk', stream tk' = rest' /\
        scan_record tk =
          if cur_string_tokens_available tk' then parsing_error tk'
          else inr (mkLocals x (Some sym) (Some acq) (Some p) (Some b)
                             (Some wash) (Some sale), tk')
  end.
Proof.
  intros H Hq Hx Hsym.
  destruct (scan_record_head _ _ _ _ _ _ _ _ H Hq Hx Hsym) as (tk0 & H0 & ->).
  clear H. unfold spec_junctions.
  destruct rest as [|t r].
  { step. tok_case. step. tok_case. perr. }
  step. rewrite is_tok_Some. case_bool_decide as Ht.
  - (* the token after the basis is the flag *)
    subst t. rewrite is_tok_lit. cbn [negb].
    destruct r as [|sale [|g r']].
    + step. step. tok_case. step. tok_case. perr.
    + step. step. tok_case. step. tok_case. perr.
    + step. step. rewrite is_tok_Some. case_bool_decide as Hg; cbn [negb].
      * subst g. cbn [bind]. eexists. split; [eassumption|reflexivity].
      * destruct r' as [|g' r''].
        -- step. tok_case. perr.
        -- step. rewrite is_tok_Some. case_bool_decide as Hg'; cbn [negb bind].
           ++ eexists. split; [eassumption|reflexivity].
           ++ perr.
  - (* it is the wash amount; the flag must follow *)
    destruct r as [|x0 r0].
    { step. tok_case. perr. }
    step. rewrite is_tok_Some. case_bool_decide as Hx0; cbn [negb].
    2:{ perr. }
    subst x0.
    destruct r0 as [|sale [|g r']].
    + step. step. tok_case. step. tok_case. perr.
    + step. step. tok_case. step. tok_case. perr.
    + step. step. rewrite is_tok_Some. case_bool_decide as Hg; cbn [negb].
      * subst g. cbn [bind]. eexists. split; [eassumption|reflexivity].
      * destruct r' as [|g' r''].
        -- step. tok_case. perr.
        -- step. rewrite is_tok_Some. case_bool_decide as Hg'; cbn [negb bind].
           ++ eexists. split; [eassumption|reflexivity].
           ++ perr.
Qed.

Lemma parsing_error_inr {A} tk (a : A) : parsing_error tk <> inr a.
Proof. unfold parsing_error, raise. by destruct (py_index _ _). Qed.

Ltac scan_step H :=
  first
    [ discriminate H
    | exfalso; exact (parsing_error_inr _ _ H)
    | rewrite bind_parsing_error in H
    | match type of H with
      | context [next_token ?tk] =>
          let r := fresh "r" in
          let tk' := fresh "tk" in
          let E := fresh "E" in
          destruct (next_token tk) as [r tk'] eqn:E;
          apply next_token_mono in E as [? ?]
      end
    | match type of H with
      | context [if ?c then _ else _] => destruct c eqn:?
      end
    | match type of H with
      | context [match ?o with Some _ => _ | None => _ end] => destruct o eqn:?
      end
    | progress (cbv beta iota in H; cbn [bind raise] in H) ].

(** A scan that succeeds went forward over the same lines, and took a
    quantity that is not [<= 0] and one of the two symbols. *)
Lemma scan_record_ok tk l tk' :
  scan_record tk = inr (l, tk') ->
  lines tk' = lines tk /\ (line_idx tk <= line_idx tk')%nat
  /\ tokens tk' = []
  /\ float_le_0 (l_num_shares l) = false
  /\ (l_symbol l = Some (lit "GOOG") \/ l_symbol l = Some (lit "GOOGL")).
Proof.
  unfold scan_record. intros H.
  repeat scan_step H.
  all: inversion H; subst; clear H; cbn [l_num_shares l_symbol].
  all: repeat match goal with
       | E : _ || _ = false |- _ => apply orb_false_iff in E as [? ?]
       | E : _ && _ = false |- _ => apply andb_false_iff in E
       | E : negb _ = false |- _ => apply negb_false_iff in E
       | E : is_tok _ _ = true |- _ => apply is_tok_true in E
       | E : cur_string_tokens_available _ = false |- _ =>
           unfold cur_string_tokens_available in E;
           apply negb_false_iff, bool_decide_eq_true in E
       end.
  all: split; [congruence|]; split; [lia|]; split; [done|]; split; [done|].
  all: match goal with
       | E : _ \/ _ |- _ =>
           destruct E as [E|E]; apply negb_false_iff, is_tok_true in E; auto
       end.
Qed.

Lemma find_cusip_from_spec rest idx r i :
  find_cusip_from rest idx = (r, i) ->
  match r with
  | Some c =>
      (idx < i)%nat /\ rest <> []
      /\ startswith c (lit "3825") || startswith c (lit "0207") = true
  | None => True
  end.
Proof.
  revert idx. induction rest as [|c rest IH]; intros idx; cbn [find_cusip_from].
  - intros [= <- <-]. done.
  - destruct (startswith c (lit "3825") || startswith c (lit "0207")) eqn:E.
    + intros [= <- <-]. split; [lia|done].
    + intros H. specialize (IH _ H). destruct r; [|done].
      destruct IH as (? & ? & ?). split; [lia|done].
Qed.

Lemma find_cusip_spec tk r tk' :
  find_cusip tk = (r, tk') ->
  lines tk' = lines tk /\ tokens tk' = tokens tk
  /\ match r with
     | Some c =>
         (line_idx tk < line_idx tk')%nat
         /\ (line_idx tk < length (lines tk))%nat
         /\ startswith c (lit "3825") || startswith c (lit "0207") = true
     | None => True
     end.
Proof.
  unfold find_cusip.
  destruct (find_cusip_from _ _) as [r0 i] eqn:E. intros [= <- <-]. simpl.
  split; [done|]. split; [done|].
  apply find_cusip_from_spec in E. destruct r0; [|done].
  destruct E as (? & Hne & ?). split; [done|]. split; [|done].
  destruct (Nat.lt_ge_cases (line_idx tk) (length (lines tk))); [done|].
  by rewrite drop_ge in Hne.
Qed.

Lemma make_record_spec c l r :
  make_record c l = inr r ->
  quantity r = l_num_shares l /\ cusip r = c
  /\ symbol r = default [] (l_symbol l)
  /\ parse_date (l_sale_date l) = inr (sale_date r)
  /\ parse_date (l_acq_date l) = inr (acquisition_date r)
  /\ amount (l_proceeds l) = inr (total_reported_proceeds r)
  /\ amount (l_basis l) = inr (total_reported_basis r)
  /\ match l_wash l with
     | None | Some [] => total_reported_wash r = None
     | Some _ =>
         exists d, amount (l_wash l) = inr d /\ total_reported_wash r = Some d
     end.
Proof.
  unfold make_record. intros H.
  destruct (parse_date (l_sale_date l)) as [|sd]; cbn [bind] in H; try discriminate H.
  destruct (amount (l_proceeds l)) as [|dp]; cbn [bind] in H; try discriminate H.
  destruct (amount (l_basis l)) as [|db]; cbn [bind] in H; try discriminate H.
  destruct (amount (l_wash l)) as [fw|dw] eqn:Ew;
    destruct (l_wash l) as [[|w0 w]|]; cbn [bind] in H; try discriminate H.
  all: destruct (parse_date (l_acq_date l)) as [|ad]; cbn [bind] in H;
    try discriminate H.
  all: inversion H; subst; clear H; simpl; repeat split; eauto.
Qed.

Lemma parse_record_spec c tk r tk' :
  parse_record c tk = inr (r, tk') ->
  exists l, scan_record tk = inr (l, tk') /\ make_record c l = inr r.
Proof.
  unfold parse_record. intros H.
  destruct (scan_record tk) as [|[l tk1]]; cbn [bind] in H; try discriminate H.
  destruct (make_record c l) as [|r1] eqn:Em; cbn [bind] in H; try discriminate H.
  inversion H; subst. eauto.
Qed.

Lemma InvB_init raw : InvB (parse_init raw).
Proof. repeat split; constructor. Qed.

(** One turn of the loop, when it goes on. *)
Lemma parse_turn_spec st c tk st' :
  parse_turn st c tk = inr st' ->
  InvB st ->
  InvB st' /\ lines (tokenizer st') = lines tk
  /\ (line_idx tk <= line_idx (tokenizer st'))%nat.
Proof.
  intros H (Hq & Hp & Hb & Hw & Hn). unfold parse_turn in H.
  destruct (parse_record c tk) as [|[r tk1]] eqn:Er; cbn [bind] in H; try discriminate H.
  unfold add in H.
  destruct (Dadd (total_proceeds st) _) as [p|] eqn:Ep; cbn [bind] in H; try discriminate H.
  destruct (Dadd (total_basis st) _) as [b|] eqn:Eb; cbn [bind] in H; try discriminate H.
  destruct (Dadd (total_wash st) _) as [w|] eqn:Ew; cbn [bind] in H; try discriminate H.
  inversion H; subst; clear H.
  cbn [records total_proceeds total_basis total_wash total_num_records tokenizer].
  destruct (parse_record_spec _ _ _ _ Er) as (l & Hs & Hm).
  destruct (scan_record_ok _ _ _ Hs) as (Hl & Hi & _ & Hle & Hsym).
  destruct (make_record_spec _ _ _ Hm) as (Mq & _ & Ms & _).
  split; [|done].
  unfold InvB.
  cbn [records total_proceeds total_basis total_wash total_num_records tokenizer].
  rewrite !map_app. cbn [map]. rewrite !Dsum_snoc, Hp, Hb, Hw.
  cbn [mbind option_bind].
  rewrite Ep, Eb, Ew, length_app. cbn [length].
  repeat split; try done; try lia.
  apply Forall_app. split; [done|]. constructor; [|constructor].
  rewrite Mq, Ms. split; [done|]. destruct Hsym as [->| ->]; auto.
Qed.

Lemma parse_loop_Inv fuel st st' :
  parse_loop fuel st = Some (inr st') -> InvB st -> InvB st'.
Proof.
  revert st. induction fuel as [|fuel IH]; intros st H Hi; [discriminate|].
  cbn [parse_loop] in H.
  destruct (find_cusip (tokenizer st)) as [[[|c0 c]|] tk] eqn:Ef.
  - inversion H; subst. exact Hi.
  - destruct (parse_turn st (c0 :: c) tk) as [|st1] eqn:Eb; [discriminate|].
    apply (IH st1 H). by apply (parse_turn_spec st (c0 :: c) tk).
  - inversion H; subst. exact Hi.
Qed.

(** The bound of [parse1099Form] is enough: the function returns or
    raises. *)
Lemma parse_loop_total fuel st :
  (length (lines (tokenizer st)) - line_idx (tokenizer st) < fuel)%nat ->
  InvB st -> exists r, parse_loop fuel st = Some r.
Proof.
  revert st. induction fuel as [|fuel IH]; intros st Hf Hi; [lia|].
  cbn [parse_loop].
  destruct (find_cusip (tokenizer st)) as [[[|c0 c]|] tk] eqn:Ef; [eauto| |eauto].
  destruct (parse_turn st (c0 :: c) tk) as [|st1] eqn:Eb; [eauto|].
  destruct (find_cusip_spec _ _ _ Ef) as (Hl & _ & Hlt & Hlen & _).
  destruct (parse_turn_spec _ _ _ _ Eb Hi) as (Hi1 & Hl1 & Hle).
  apply IH; [|done]. rewrite Hl1, Hl. lia.
Qed.

Lemma parse1099Form_total raw : exists r, parse1099Form raw = Some r.
Proof.
  apply parse_loop_total; [|apply InvB_init].
  cbn. rewrite length_map. lia.
Qed.

Lemma parse1099Form_Inv raw st :
  parse1099Form raw = Some (inr st) -> InvB st.
Proof. intros H. eapply parse_loop_Inv; [exact H|apply InvB_init]. Qed.

(** *** Sorting by sale date *)

Lemma date_ltb_lt a b :
  date_ltb a b = true <->
  (year a < year b
   \/ (year a = year b
       /\ (month a < month b \/ (month a = month b /\ day a < day b))))%N.
Proof.
  unfold date_ltb.
  rewrite !orb_true_iff, !andb_true_iff, !orb_true_iff, !andb_true_iff,
    !N.ltb_lt, !N.eqb_eq. reflexivity.
Qed.

Lemma date_ltb_ge a b :
  date_ltb a b = false <->
  ~ (year a < year b
     \/ (year a = year b
         /\ (month a < month b \/ (month a = month b /\ day a < day b))))%N.
Proof. rewrite <- date_ltb_lt. by destruct (date_ltb a b). Qed.

Lemma date_ltb_irrefl a : date_ltb a a = false.
Proof. apply date_ltb_ge. lia. Qed.

Lemma date_le_of_lt a b : date_ltb a b = true -> date_le a b.
Proof. unfold date_le. rewrite date_ltb_lt, date_ltb_ge. lia. Qed.

Lemma date_le_trans a b c : date_le a b -> date_le b c -> date_le a c.
Proof. unfold date_le. rewrite !date_ltb_ge. lia. Qed.

Lemma sort_insert_perm x l : sort_insert x l ≡ₚ x :: l.
Proof.
  induction l as [|y l IH]; simpl; [done|].
  destruct (date_ltb (sale_date y) (sale_date x)); [|done].
  rewrite IH. apply Permutation_swap.
Qed.

Lemma sort_by_sale_date_perm l : sort_by_sale_date l ≡ₚ l.
Proof.
  induction l as [|x l IH]; simpl; [done|].
  rewrite sort_insert_perm. by constructor.
Qed.

Lemma sort_insert_sorted x l :
  StronglySorted by_sale_date l -> StronglySorted by_sale_date (sort_insert x l).
Proof.
  induction 1 as [|y l Hs IH Hy]; simpl.
  - repeat constructor.
  - destruct (date_ltb (sale_date y) (sale_date x)) eqn:E.
    + constructor; [done|]. rewrite sort_insert_perm.
      constructor; [|done]. by apply date_le_of_lt.
    + constructor; [by constructor|].
      constructor; [exact E|].
      eapply Forall_impl; [exact Hy|]. intros z Hz.
      eapply date_le_trans; [exact E|exact Hz].
Qed.

Lemma sort_by_sale_date_sorted l : StronglySorted by_sale_date (sort_by_sale_date l).
Proof.
  induction l as [|x l IH]; simpl; [constructor|]. by apply sort_insert_sorted.
Qed.

Lemma sort_insert_stable d x l :
  sold_on d (sort_insert x l) = sold_on d (x :: l).
Proof.
  induction l as [|y l IH]; [done|]. cbn [sort_insert].
  destruct (date_ltb (sale_date y) (sale_date x)) eqn:E; [|done].
  unfold sold_on in *. cbn [List.filter] in *. rewrite IH.
  repeat case_bool_decide; try done.
  subst. rewrite <- H0 in E. by rewrite date_ltb_irrefl in E.
Qed.

Lemma sort_by_sale_date_stable d l :
  sold_on d (sort_by_sale_date l) = sold_on d l.
Proof.
  induction l as [|x l IH]; [done|]. cbn [sort_by_sale_date foldr].
  rewrite sort_insert_stable. unfold sold_on in *. cbn [List.filter].
  fold (sort_by_sale_date l). rewrite IH. done.
Qed.

Lemma txf_records_blocks records :
  txf_records records
  = unlines header_lines ++ concat (map (fun r => unlines (block_lines r)) records).
Proof.
  unfold txf_records. generalize (unlines header_lines).
  induction records as [|r l IH]; intros h; simpl.
  - by rewrite app_nil_r.
  - rewrite IH. by rewrite <- app_assoc.
Qed.

(** A quantity that is [<= 0] is a parsing error, whatever follows. *)
Lemma scan_record_nonpositive tk q x rest :
  stream tk = q :: lit "SHARES" :: lit "OF" :: rest ->
  float_of_str q = Some x -> float_le_0 x = true ->
  is_parsing_error (scan_record tk).
Proof.
  intros H Hq Hx. unfold scan_record.
  step. step. rewrite is_tok_lit. cbn [negb]. step. rewrite is_tok_lit. cbn [negb].
  rewrite Hq. cbn [bind].
  destruct (next_token tk2) as [sym tk3]. rewrite Hx, orb_true_r. perr.
Qed.

(** The identifier plays no part in accepting a record. *)
Lemma parse_record_any_cusip c tk r tk' c2 :
  parse_record c tk = inr (r, tk') ->
  parse_record c2 tk = inr (set_cusip c2 r, tk').
Proof.
  unfold parse_record. destruct (scan_record tk) as [|[l tk1]]; cbn [bind];
    [discriminate|].
  unfold make_record.
  destruct (parse_date (l_sale_date l)); cbn [bind]; [discriminate|].
  destruct (amount (l_proceeds l)); cbn [bind]; [discriminate|].
  destruct (amount (l_basis l)); cbn [bind]; [discriminate|].
  destruct (match l_wash l with
            | Some [] | None => inr None
            | Some (_ :: _) => let* d := amount (l_wash l) in inr (Some d)
            end); cbn [bind]; [discriminate|].
  destruct (parse_date (l_acq_date l)); cbn [bind]; [discriminate|].
  intros [= <- <-]. reflexivity.
Qed.

(** Any line that starts with [3825] or [0207] is taken for an
    identifier. *)
Lemma find_cusip_prefix tk line :
  lines tk !! line_idx tk = Some line ->
  startswith line (lit "3825") || startswith line (lit "0207") = true ->
  find_cusip tk
  = (Some line, mkTokenizer (lines tk) (S (line_idx tk)) (tokens tk)).
Proof.
  intros Hl Hp. unfold find_cusip. rewrite (drop_S _ _ _ Hl).
  cbn [find_cusip_from]. by rewrite Hp.
Qed.

(** A turn that takes a record adds its amounts to the totals; when they
    are not negative, no total gets smaller. *)
Lemma parse_turn_totals st c tk st' :
  parse_turn st c tk = inr st' ->
  exists r,
    records st' = records st ++ [r]
    /\ Dadd (total_proceeds st) (total_reported_proceeds r)
       = Some (total_proceeds st')
    /\ Dadd (total_basis st) (total_reported_basis r) = Some (total_basis st')
    /\ Dadd (total_wash st) (wash_or_zero (total_reported_wash r))
       = Some (total_wash st')
    /\ (totals_soundB st -> nonneg_amounts r ->
        totals_soundB st'
        /\ Dle (total_proceeds st) (total_proceeds st')
        /\ Dle (total_basis st) (total_basis st')
        /\ Dle (total_wash st) (total_wash st')).
Proof.
  intros H. unfold parse_turn in H.
  destruct (parse_record c tk) as [|[r tk1]] eqn:Er; cbn [bind] in H; [discriminate|].
  unfold add in H.
  destruct (Dadd (total_proceeds st) _) as [p|] eqn:Ep; cbn [bind] in H; [|discriminate].
  destruct (Dadd (total_basis st) _) as [b|] eqn:Eb; cbn [bind] in H; [|discriminate].
  destruct (Dadd (total_wash st) _) as [w|] eqn:Ew; cbn [bind] in H; [|discriminate].
  inversion H; subst; clear H.
  cbn [records total_proceeds total_basis total_wash].
  exists r. repeat (split; [done|]).
  intros ((Fp & Sp) & (Fb & Sb) & (Fw & Sw)) (Np & Nb & Nw).
  destruct (Dadd_nonneg_mono _ _ _ Fp Sp Np Ep) as (? & ? & ?).
  destruct (Dadd_nonneg_mono _ _ _ Fb Sb Nb Eb) as (? & ? & ?).
  destruct (Dadd_nonneg_mono _ _ _ Fw Sw Nw Ew) as (? & ? & ?).
  unfold totals_soundB. cbn [total_proceeds total_basis total_wash]. done.
Qed.

(** How [__main__] ends. *)
Lemma main_spec raw outfilename :
  exists o,
    main raw outfilename = Some o
    /\ match parse1099Form raw with
       | Some (inr st) =>
           if bool_decide (records st = []) then
             o = mkOutcome None (Some NoRecordsFound)
           else if endswith outfilename (lit ".txf") then
             o = mkOutcome (Some (txf_records (sort_by_sale_date (records st))))
                           None
           else o = mkOutcome None (Some UnexpectedOutputFormat)
       | Some (inl e) => o = mkOutcome None (Some e)
       | None => False
       end.
Proof.
  unfold main. destruct (parse1099Form_total raw) as [[e|st] Hp]; rewrite Hp.
  - eauto.
  - assert (Hlen : length (sort_by_sale_date (records st)) = length (records st))
      by (by rewrite sort_by_sale_date_perm).
    rewrite Hlen. destruct (records st) as [|r l]; cbn [length Nat.eqb].
    + rewrite bool_decide_true by done. eauto.
    + rewrite bool_decide_false by done.
      destruct (endswith outfilename (lit ".txf")); eauto.
Qed.

End ScanFacts.

End TaxformParserFacts.

(** * The claims *)

Import Convert2022Spec TaxformParserSpec Convert2022Facts TaxformParserFacts.

(** ** C5 *)

Section Junctions.

Context {rt : PyRuntime}.

Lemma read_tokens_S_snd n tk :
  snd (read_tokens (S n) tk)
  = snd (read_tokens n (snd (TaxformParser.next_token tk))).
Proof.
  cbn [read_tokens]. destruct (TaxformParser.next_token tk) as [r tk1].
  cbn [snd]. by destruct (read_tokens n tk1).
Qed.

Ltac rdk :=
  match goal with
  | E : TaxformParser.next_token ?tk = _
    |- context [TaxformParser.next_token ?tk] =>
      rewrite !E; cbv beta iota; cbn [snd]
  | H : stream ?tk = _ :: _ |- context [TaxformParser.next_token ?tk] =>
      let tk' := fresh "tk" in
      let E := fresh "E" in
      let H' := fresh "H" in
      destruct (next_token_cons _ _ _ H) as (tk' & E & H');
      rewrite !E; cbv beta iota; cbn [snd]
  | H : stream ?tk = [] |- context [TaxformParser.next_token ?tk] =>
      rewrite !(next_token_nil _ H); cbv beta iota; cbn [snd]
  end.

Ltac tokd :=
  match goal with
  | |- context [TaxformParser.is_tok (Some (lit ?s)) ?s] =>
      rewrite (is_tok_lit s)
  | |- context [TaxformParser.is_tok None ?s] => rewrite (is_tok_None s)
  | |- context [TaxformParser.is_tok (Some ?t) ?s] =>
      rewrite (is_tok_Some t s), bool_decide_eq_false_2 by assumption
  end.

Ltac perrk := rewrite ?bind_parsing_error; eexists; reflexivity.

Ltac go Hq Hc :=
  repeat first [ rdk | tokd | rewrite Hq | rewrite Hc
               | progress cbn [bind negb read_tokens snd] ].

(** The tokenizer after the tokens of the record have been read. *)
Ltac after n :=
  match goal with
  | |- context [read_tokens ?m ?tk] =>
      replace m with n by (cbn [length]; lia);
      rewrite !read_tokens_S_snd
  end.

Lemma scan_record_junctions_read tk q sym acq p b rest x :
  stream tk = q :: lit "SHARES" :: lit "OF" :: sym :: acq :: p :: b :: rest ->
  float_of_str q = Some x -> float_le_0 x = false ->
  sym = lit "GOOG" \/ sym = lit "GOOGL" ->
  match spec_junctions rest with
  | None => is_parsing_error (TaxformParser.scan_record tk)
  | Some (wash, sale, rest') =>
      let tk' := snd (read_tokens (7 + (length rest - length rest')) tk) in
      stream tk' = rest'
      /\ TaxformParser.scan_record tk =
           if TaxformParser.cur_string_tokens_available tk'
           then TaxformParser.parsing_error tk'
           else inr (TaxformParser.mkLocals x (Some sym) (Some acq) (Some p)
                       (Some b) (Some wash) (Some sale), tk')
  end.
Proof.
  intros H Hq Hx Hsym.
  assert (Hc : (negb (TaxformParser.is_tok (Some sym) "GOOG")
                && negb (TaxformParser.is_tok (Some sym) "GOOGL"))
               || float_le_0 x = false).
  { rewrite Hx. destruct Hsym; subst; reflexivity. }
  unfold spec_junctions, TaxformParser.scan_record.
  destruct rest as [|t r]; [go Hq Hc; perrk|].
  destruct (bool_decide (t = lit "X")) eqn:Ht;
    [apply bool_decide_eq_true in Ht; subst t|apply bool_decide_eq_false in Ht].
  - (* the flag follows the basis *)
    destruct r as [|sale [|g r']]; [go Hq Hc; perrk..|].
    destruct (bool_decide (g = lit "GROSS")) eqn:Hg;
      [apply bool_decide_eq_true in Hg; subst g
      |apply bool_decide_eq_false in Hg].
    { cbv zeta. after 10%nat. go Hq Hc. split; [assumption|reflexivity]. }
    destruct r' as [|g' r'']; [go Hq Hc; perrk|].
    destruct (bool_decide (g' = lit "GROSS")) eqn:Hg';
      [apply bool_decide_eq_true in Hg'; subst g'
      |apply bool_decide_eq_false in Hg'].
    { cbv zeta. after 11%nat. go Hq Hc. split; [assumption|reflexivity]. }
    go Hq Hc; perrk.
  - (* a wash amount, then the flag *)
    destruct r as [|x0 r0]; [go Hq Hc; perrk|].
    destruct (bool_decide (x0 = lit "X")) eqn:Hx0;
      [apply bool_decide_eq_true in Hx0; subst x0
      |apply bool_decide_eq_false in Hx0; go Hq Hc; perrk].
    destruct r0 as [|sale [|g r']]; [go Hq Hc; perrk..|].
    destruct (bool_decide (g = lit "GROSS")) eqn:Hg;
      [apply bool_decide_eq_true in Hg; subst g
      |apply bool_decide_eq_false in Hg].
    { cbv zeta. after 11%nat. go Hq Hc. split; [assumption|reflexivity]. }
    destruct r' as [|g' r'']; [go Hq Hc; perrk|].
    destruct (bool_decide (g' = lit "GROSS")) eqn:Hg';
      [apply bool_decide_eq_true in Hg'; subst g'
      |apply bool_decide_eq_false in Hg'].
    { cbv zeta. after 12%nat. go Hq Hc. split; [assumption|reflexivity]. }
    go Hq Hc; perrk.
Qed.

End Junctions.

(** C5. In the self-contained converter the optional wash amounts are
    resolved at both junctions as the specification says.  On the tokens
    that follow the basis, [scan_record] raises the parsing error when
    [spec_junctions] accepts nothing.  When [spec_junctions] gives a wash
    amount and a sale date, [scan_record] has read just the tokens up to
    the reporting designator, and returns the record with this wash amount
    and sale date, unless tokens are left on the line of the designator,
    which is the parsing error. *)
Theorem C5_wash_junctions {rt : PyRuntime} tk q sym acq p b rest x :
  stream tk = q :: lit "SHARES" :: lit "OF" :: sym :: acq :: p :: b :: rest ->
  float_of_str q = Some x -> float_le_0 x = false ->
  sym = lit "GOOG" \/ sym = lit "GOOGL" ->
  match spec_junctions rest with
  | None => is_parsing_error (TaxformParser.scan_record tk)
  | Some (wash, sale, rest') =>
      let tk' := snd (read_tokens (7 + (length rest - length rest')) tk) in
      stream tk' = rest'
      /\ TaxformParser.scan_record tk =
           if TaxformParser.cur_string_tokens_available tk'
           then TaxformParser.parsing_error tk'
           else inr (TaxformParser.mkLocals x (Some sym) (Some acq) (Some p)
                       (Some b) (Some wash) (Some sale), tk')
  end.
Proof. apply scan_record_junctions_read. Qed.

Lemma C5_wash_junctions_witness :
  let ls := map lit ["3 SHARES OF GOOG";
                     "07/25/2019 4,498.54 3,413.43 1,100.22 X";
                     "08/06/2020 200.00 GROSS";
                     "02079K107"; "2 SHARES OF GOOG";
                     "01/27/2020 2,933.94 2,933.42 X"; "02/06/2020 GROSS"] in
  let tk := TaxformParser.mkTokenizer ls 0 [] in
  let rest := map lit ["1,100.22"; "X"; "08/06/2020"; "200.00"; "GROSS";
                       "02079K107"; "2"; "SHARES"; "OF"; "GOOG";
                       "01/27/2020"; "2,933.94"; "2,933.42"; "X";
                       "02/06/2020"; "GROSS"] in
  let record := TaxformParser.mkLocals (mkDecimal false 3 0) (Some (lit "GOOG"))
                  (Some (lit "07/25/2019")) (Some (lit "4,498.54"))
                  (Some (lit "3,413.43")) (Some (lit "200.00"))
                  (Some (lit "08/06/2020")) in
  spec_junctions rest
  = Some (lit "200.00", lit "08/06/2020", drop 5 rest)
  /\ snd (read_tokens 12 tk) = TaxformParser.mkTokenizer ls 3 []
  /\ TaxformParser.scan_record (rt := ExampleRuntime.example_runtime) tk
     = inr (record, TaxformParser.mkTokenizer ls 3 [])
  /\ (let tk' := snd (read_tokens 12 tk) in
      stream tk' = drop 5 rest
      /\ TaxformParser.scan_record (rt := ExampleRuntime.example_runtime) tk =
           if TaxformParser.cur_string_tokens_available tk'
           then TaxformParser.parsing_error tk'
           else inr (record, tk')).
Proof.
  intros ls tk rest record.
  split; [vm_compute; reflexivity|]. split; [vm_compute; reflexivity|].
  split; [vm_compute; reflexivity|].
  exact (C5_wash_junctions (rt := ExampleRuntime.example_runtime)
           tk (lit "3") (lit "GOOG") (lit "07/25/2019") (lit "4,498.54")
           (lit "3,413.43") rest (mkDecimal false 3 0)
           eq_refl eq_refl eq_refl (or_introl eq_refl)).
Defined.

(** ** C7 *)

(** C7. The self-contained converter always sorts: the file it writes holds
    the header and then the blocks of the parsed records in non-decreasing
    order of sale date; the emitted list is a permutation of the parsed one
    in which the records of any one sale date keep their input order. *)
Theorem C7_sorted_by_sale_date_stable {rt : PyRuntime} raw outfilename o text :
  TaxformParser.main raw outfilename = Some o ->
  TaxformParser.out_file o = Some text ->
  exists st,
    TaxformParser.parse1099Form raw = Some (inr st)
    /\ let emitted := TaxformParser.sort_by_sale_date (TaxformParser.records st) in
       text = TaxformParser.unlines TaxformParser.header_lines
              ++ concat (map (fun r => TaxformParser.unlines
                                         (TaxformParser.block_lines r)) emitted)
       /\ StronglySorted by_sale_date emitted
       /\ emitted ≡ₚ TaxformParser.records st
       /\ forall d, sold_on d emitted = sold_on d (TaxformParser.records st).
Proof.
  intros Hm Ht. destruct (main_spec raw outfilename) as (o' & Hm' & Hs).
  rewrite Hm in Hm'. inversion Hm'; subst o'; clear Hm'.
  destruct (TaxformParser.parse1099Form raw) as [[e|st]|] eqn:Ep; [| |done].
  { subst o. discriminate Ht. }
  exists st. split; [done|].
  case_bool_decide; [subst o; discriminate Ht|].
  destruct (endswith outfilename (lit ".txf")); [|subst o; discriminate Ht].
  subst o. cbn in Ht. inversion Ht; subst text; clear Ht.
  cbv zeta. split; [apply txf_records_blocks|].
  split; [apply sort_by_sale_date_sorted|].
  split; [apply sort_by_sale_date_perm|].
  intros d. apply sort_by_sale_date_stable.
Qed.

Lemma C7_sorted_by_sale_date_stable_witness :
  exists st,
    TaxformParser.parse1099Form (rt := ExampleRuntime.example_runtime)
      example_statement = Some (inr st)
    /\ let emitted := TaxformParser.sort_by_sale_date (TaxformParser.records st) in
       example_output
       = TaxformParser.unlines
           (TaxformParser.header_lines (rt := ExampleRuntime.example_runtime))
         ++ concat (map (fun r => TaxformParser.unlines
                                    (TaxformParser.block_lines r)) emitted)
       /\ StronglySorted by_sale_date emitted
       /\ emitted ≡ₚ TaxformParser.records st
       /\ forall d, sold_on d emitted = sold_on d (TaxformParser.records st).
Proof.
  apply (C7_sorted_by_sale_date_stable (rt := ExampleRuntime.example_runtime)
           example_statement (lit "GOOG.txf")
           (TaxformParser.mkOutcome (Some example_output) None) example_output).
  - vm_compute. reflexivity.
  - reflexivity.
Defined.

(** ** C10 *)

(** C10. On every input whose amounts are numbers (none spells an infinity
    or a NaN, where the model leaves the run), the self-contained program
    ends; it creates the output file exactly when parsing returned at least
    one record and the output name ends in [.txf]; when parsing returns no
    record the run ends with the "No records found" exception and no
    file. *)
Theorem C10_no_records_no_file {rt : PyRuntime} raw outfilename :
  TaxformParser.parse1099Form raw
  <> Some (inl TaxformParser.SpecialDecimal) ->
  exists o,
    TaxformParser.main raw outfilename = Some o
    /\ (is_Some (TaxformParser.out_file o) <->
        exists st,
          TaxformParser.parse1099Form raw = Some (inr st)
          /\ TaxformParser.records st <> []
          /\ endswith outfilename (lit ".txf") = true)
    /\ (forall st,
          TaxformParser.parse1099Form raw = Some (inr st) ->
          TaxformParser.records st = [] ->
          o = TaxformParser.mkOutcome None (Some TaxformParser.NoRecordsFound)).
Proof.
  intros _.
  destruct (main_spec raw outfilename) as (o & Hm & Hs).
  exists o. split; [done|].
  destruct (TaxformParser.parse1099Form raw) as [[e|st]|] eqn:Ep; [| |done].
  - subst o. split.
    + split; [by intros [? [=]]|]. by intros (st & [=] & _).
    + by intros st [=].
  - case_bool_decide as Hr.
    + subst o. split.
      * split; [by intros [? [=]]|]. intros (st' & [= <-] & Hne & _). done.
      * done.
    + split.
      * destruct (endswith outfilename (lit ".txf")) eqn:Ee; subst o; cbn.
        -- split; [|by eauto]. intros _. exists st. done.
        -- split; [by intros [? [=]]|]. by intros (st' & _ & _ & [=]).
      * intros st' [= <-] Hnil. done.
Qed.

Lemma C10_no_records_no_file_witness :
  TaxformParser.main (rt := ExampleRuntime.example_runtime)
    (map lit ["Schwab One Account"; "Proceeds from broker transactions"; ""])
    (lit "GOOG.txf")
  = Some (TaxformParser.mkOutcome None (Some TaxformParser.NoRecordsFound))
  /\ exists o,
       TaxformParser.main (rt := ExampleRuntime.example_runtime)
         (map lit ["Schwab One Account"; "Proceeds from broker transactions";
                   ""])
         (lit "GOOG.txf") = Some o
       /\ (is_Some (TaxformParser.out_file o) <->
           exists st,
             TaxformParser.parse1099Form (rt := ExampleRuntime.example_runtime)
               (map lit ["Schwab One Account";
                         "Proceeds from broker transactions"; ""])
             = Some (inr st)
             /\ TaxformParser.records st <> []
             /\ endswith (lit "GOOG.txf") (lit ".txf") = true)
       /\ (forall st,
             TaxformParser.parse1099Form (rt := ExampleRuntime.example_runtime)
               (map lit ["Schwab One Account";
                         "Proceeds from broker transactions"; ""])
             = Some (inr st) ->
             TaxformParser.records st = [] ->
             o = TaxformParser.mkOutcome None
                   (Some TaxformParser.NoRecordsFound)).
Proof.
  split; [vm_compute; reflexivity|].
  apply (C10_no_records_no_file (rt := ExampleRuntime.example_runtime)).
  vm_compute. discriminate.
Defined.

(** ** C8 *)

(** C8 as stated fails: the checkbox-driven converter opens the output file
    and prints the header before it reads a line, so the run that aborts
    at an identifier line without a checkbox leaves a file behind. *)
Lemma C8_counterexample :
  Convert2022.main (rt := ExampleRuntime.example_runtime)
    (map lit ["02079K107"; "2 SHARES OF GOOG"])
  = Some (Convert2022.mkOutcome
            (Some (lit "V042
ASelf
D04/15/2023
^
"))
            (Convert2022.init (rt := ExampleRuntime.example_runtime))
            (Some (Convert2022.SysExit Convert2022.NoCheckbox))).
Proof. vm_compute. reflexivity. Qed.

(** C8 (as amended). In the checkbox-driven converter, when an identifier
    line comes before any checkbox marker line, the run aborts with the
    "could not determine applicable Form 8949 checkbox" exit; no record has
    been taken and the totals are empty; the output file exists and holds
    the header alone. *)
Theorem C8_identifier_before_marker_aborts {rt : PyRuntime} lines pre l post :
  lines = pre ++ l :: post ->
  Forall (fun x => Re.search Convert2022.marker_re x = None) pre ->
  existsb (str_eqb l) (dict_values Convert2022._CUSIPS) = true ->
  exists o,
    Convert2022.main lines = Some o
    /\ Convert2022.stop o = Some (Convert2022.SysExit Convert2022.NoCheckbox)
    /\ Convert2022.out_file o
       = Some (Convert2022.TxfRecord_str Convert2022.header ++ nl)
    /\ Convert2022.accepted (Convert2022.final o) = []
    /\ Convert2022.totals (Convert2022.final o) = ∅.
Proof.
  intros Hlines Hpre Hl.
  destruct (loop_no_checkbox lines pre l post Hlines Hpre Hl
              (S (length lines)) Convert2022.init)
    as (st & Hrun & Ho & Ha & Ht); [done| |cbn; lia|].
  { cbn. rewrite Hlines, length_app. cbn. lia. }
  exists (Convert2022.mkOutcome (Some (Convert2022.file_text st)) st
            (Some (Convert2022.SysExit Convert2022.NoCheckbox))).
  unfold Convert2022.main, Convert2022.run. rewrite Hrun. cbn.
  split; [done|]. split; [done|]. split; [|done].
  unfold Convert2022.file_text. rewrite Ho. cbn. by rewrite app_nil_r.
Qed.

Lemma C8_identifier_before_marker_aborts_witness :
  exists o,
    Convert2022.main (rt := ExampleRuntime.example_runtime)
      (map lit ["Schwab"; "02079K305"; "Box E checked"]) = Some o
    /\ Convert2022.stop o = Some (Convert2022.SysExit Convert2022.NoCheckbox)
    /\ Convert2022.out_file o
       = Some (Convert2022.TxfRecord_str
                 (Convert2022.header (rt := ExampleRuntime.example_runtime)) ++ nl)
    /\ Convert2022.accepted (Convert2022.final o) = []
    /\ Convert2022.totals (Convert2022.final o) = ∅.
Proof.
  apply (C8_identifier_before_marker_aborts
           (rt := ExampleRuntime.example_runtime)
           (map lit ["Schwab"; "02079K305"; "Box E checked"])
           [lit "Schwab"] (lit "02079K305") [lit "Box E checked"]).
  - reflexivity.
  - repeat constructor.
  - reflexivity.
Defined.

(** ** C2 *)

(** C2 as stated fails in the self-contained converter: the block of a
    record without a wash amount still has a third amount line, with
    nothing after the dollar sign. *)
Lemma C2_counterexample :
  exists st r,
    TaxformParser.parse1099Form (rt := ExampleRuntime.example_runtime)
      (map lit ["02079K107"; "2 SHARES OF GOOG";
                "01/27/2020 2,933.94 2,933.42 X"; "02/06/2020 GROSS"])
    = Some (inr st)
    /\ TaxformParser.records st = [r]
    /\ TaxformParser.total_reported_wash r = None
    /\ TaxformParser.main (rt := ExampleRuntime.example_runtime)
         (map lit ["02079K107"; "2 SHARES OF GOOG";
                   "01/27/2020 2,933.94 2,933.42 X"; "02/06/2020 GROSS"])
         (lit "GOOG.txf")
       = Some (TaxformParser.mkOutcome (Some (lit "V042
A quick and dirty TXF script
D04/15/2023
^
TD
N715
C1
L1
P2.0 GOOG
D01/27/2020
D02/06/2020
$2933.42
$2933.94
$
^
")) None).
Proof.
  eexists. eexists. split; [vm_compute; reflexivity|].
  split; [reflexivity|]. split; [reflexivity|]. vm_compute. reflexivity.
Qed.

(** C2 (as amended). In the checkbox-driven converter the record printed
    for a lot without a wash amount has exactly two amount fields, basis
    and proceeds.  In the self-contained converter every block has eleven
    lines, three of them amount lines; for a record without a wash amount
    the third is a dollar sign alone: an empty amount, not a zero. *)
Theorem C2_absent_wash_field {rt : PyRuntime} :
  (forall lines st e lot,
     Convert2022.run lines = Some (st, e) ->
     In lot (Convert2022.accepted st) ->
     Convert2022.f_wash (Convert2022.lot_fields lot) = None ->
     In (Convert2022.lot_item lot) (Convert2022.output st)
     /\ fields_named "$" (Convert2022.lot_item lot)
        = [ Convert2022.of_group (Convert2022.f_basis (Convert2022.lot_fields lot));
            Convert2022.of_group (Convert2022.f_proceeds (Convert2022.lot_fields lot)) ])
  /\ (forall r,
        TaxformParser.total_reported_wash r = None ->
        length (TaxformParser.block_lines r) = 11%nat
        /\ List.filter (fun l => startswith l (lit "$")) (TaxformParser.block_lines r)
           = [ lit "$" ++ fmt_2f (TaxformParser.total_reported_basis r);
               lit "$" ++ fmt_2f (TaxformParser.total_reported_proceeds r);
               lit "$" ]).
Proof.
  split.
  - intros lines st e lot Hr Hin Hw.
    destruct (run_lot_facts lines st e lot Hr Hin) as ((Hi & _) & Hout).
    split; [done|].
    destruct (make_item_spec _ _ _ Hi) as (n & _ & _ & _ & Hd).
    rewrite Hd, Hw. reflexivity.
  - intros r Hw. split; [reflexivity|].
    unfold TaxformParser.block_lines, TaxformParser.compute_total_wash,
      TaxformParser.compute_total_basis.
    rewrite Hw.
    cbn [List.filter lit list_ascii_of_string app startswith].
    rewrite !startswith_nil. reflexivity.
Qed.

Lemma C2_absent_wash_field_witness :
  exists st lot,
    Convert2022.run (rt := ExampleRuntime.example_runtime)
      (map lit ["Box B checked"; "02079K107"; "2 SHARES OF GOOG";
                "01/27/2020 2,933.94 2,933.42 X"; "02/06/2020 GROSS"])
    = Some (st, None)
    /\ Convert2022.accepted st = [lot]
    /\ In (Convert2022.lot_item lot) (Convert2022.output st)
    /\ fields_named "$" (Convert2022.lot_item lot)
       = [ Convert2022.VStr (lit "2,933.42"); Convert2022.VStr (lit "2,933.94") ].
Proof.
  eexists. eexists.
  split; [vm_compute; reflexivity|]. split; [reflexivity|].
  eapply (proj1 (C2_absent_wash_field (rt := ExampleRuntime.example_runtime))
            (map lit ["Box B checked"; "02079K107"; "2 SHARES OF GOOG";
                      "01/27/2020 2,933.94 2,933.42 X"; "02/06/2020 GROSS"])).
  - vm_compute. reflexivity.
  - left. reflexivity.
  - reflexivity.
Defined.

(** ** C6 *)

(** C6 as stated fails in the self-contained converter, which has no
    classification marker and writes the reference number 715 in every
    block. *)
Lemma C6_counterexample :
  TaxformParser.main (rt := ExampleRuntime.example_runtime)
    (map lit ["02079K305"; "1.0 SHARES OF GOOGL"; "11/25/2015 730.98 769.63 X";
              "05/24/2016"; "200.00"; "GROSS"])
    (lit "GOOGL.txf")
  = Some (TaxformParser.mkOutcome (Some (lit "V042
A quick and dirty TXF script
D04/15/2023
^
TD
N715
C1
L1
P1.0 GOOGL
D11/25/2015
D05/24/2016
$769.63
$730.98
$200.00
^
")) None).
Proof. vm_compute. reflexivity. Qed.

(** C6 (as amended). In the checkbox-driven converter the record printed
    for a lot has one [N] field, the entry of [_TXF_CATEGORIES] for the
    lot's checkbox, which is 711 or 713.  In the self-contained converter
    the second line of every block is [N715]. *)
Theorem C6_reference_number {rt : PyRuntime} :
  (forall lines st e lot,
     Convert2022.run lines = Some (st, e) ->
     In lot (Convert2022.accepted st) ->
     In (Convert2022.lot_item lot) (Convert2022.output st)
     /\ exists n,
          dict_get Convert2022._TXF_CATEGORIES (Convert2022.lot_category lot) = Some n
          /\ (n = 711 \/ n = 713)
          /\ fields_named "N" (Convert2022.lot_item lot) = [Convert2022.VInt n])
  /\ (forall r,
        List.filter (fun l => startswith l (lit "N")) (TaxformParser.block_lines r)
        = [lit "N715"]
        /\ TaxformParser.block_lines r !! 1%nat = Some (lit "N715")).
Proof.
  split.
  - intros lines st e lot Hr Hin.
    destruct (run_lot_facts lines st e lot Hr Hin) as ((Hi & _) & Hout).
    split; [done|].
    destruct (make_item_spec _ _ _ Hi) as (n & Hn & H7 & HN & _). eauto.
  - intros r. split; reflexivity.
Qed.

Lemma C6_reference_number_witness :
  exists st lot,
    Convert2022.run (rt := ExampleRuntime.example_runtime)
      (map lit ["Box E checked"; "02079K107"; "2 SHARES OF GOOG";
                "01/27/2020 2,933.94 2,933.42 X"; "02/06/2020 GROSS"])
    = Some (st, None)
    /\ Convert2022.accepted st = [lot]
    /\ In (Convert2022.lot_item lot) (Convert2022.output st)
    /\ exists n,
         dict_get Convert2022._TXF_CATEGORIES (Convert2022.lot_category lot) = Some n
         /\ (n = 711 \/ n = 713)
         /\ fields_named "N" (Convert2022.lot_item lot) = [Convert2022.VInt n].
Proof.
  eexists. eexists.
  split; [vm_compute; reflexivity|]. split; [reflexivity|].
  eapply (proj1 (C6_reference_number (rt := ExampleRuntime.example_runtime))
            (map lit ["Box E checked"; "02079K107"; "2 SHARES OF GOOG";
                      "01/27/2020 2,933.94 2,933.42 X"; "02/06/2020 GROSS"])).
  - vm_compute. reflexivity.
  - left. reflexivity.
Defined.

(** ** C4 *)

(** C4 as stated fails in the self-contained converter: a line that only
    starts like an identifier is accepted, and so is a registry identifier
    followed by the other class's symbol. *)
Lemma C4_counterexample :
  (exists st r,
     TaxformParser.parse1099Form (rt := ExampleRuntime.example_runtime)
       (map lit ["0207 not an identifier"; "2 SHARES OF GOOG";
                 "01/27/2020 2,933.94 2,933.42 X"; "02/06/2020 GROSS"])
     = Some (inr st)
     /\ TaxformParser.records st = [r]
     /\ TaxformParser.cusip r = lit "0207 not an identifier"
     /\ existsb (str_eqb (TaxformParser.cusip r))
                (dict_values Convert2022._CUSIPS) = false)
  /\ (exists st r,
        TaxformParser.parse1099Form (rt := ExampleRuntime.example_runtime)
          (map lit ["02079K305"; "2 SHARES OF GOOG";
                    "01/27/2020 2,933.94 2,933.42 X"; "02/06/2020 GROSS"])
        = Some (inr st)
        /\ TaxformParser.records st = [r]
        /\ TaxformParser.symbol r = lit "GOOG"
        /\ dict_get Convert2022._CUSIPS (TaxformParser.symbol r)
           = Some (lit "02079K107")
        /\ TaxformParser.cusip r = lit "02079K305").
Proof.
  split.
  - eexists. eexists. split; [vm_compute; reflexivity|]. repeat split.
  - eexists. eexists. split; [vm_compute; reflexivity|]. repeat split.
Qed.

(** C4 (as amended). In the checkbox-driven converter a record is taken
    only at a line that is one of the two registry identifiers and only if
    the registry maps the symbol of the description to that identifier; a
    line that is neither a marker nor a registry identifier is skipped
    without an error.  In the self-contained converter any line that
    starts with [3825] or [0207] starts a record, and the identifier plays
    no part in accepting it. *)
Theorem C4_identifier_checks {rt : PyRuntime} :
  (forall lines st e lot,
     Convert2022.run lines = Some (st, e) ->
     In lot (Convert2022.accepted st) ->
     let f := Convert2022.lot_fields lot in
     existsb (str_eqb (Convert2022.cusip f)) (dict_values Convert2022._CUSIPS) = true
     /\ Convert2022.symbol f ≫= dict_get Convert2022._CUSIPS
        = Some (Convert2022.cusip f))
  /\ (forall lines st line,
        Re.search Convert2022.marker_re line = None ->
        existsb (str_eqb line) (dict_values Convert2022._CUSIPS) = false ->
        Convert2022.turn lines st line
        = inr (Convert2022.mkState (Convert2022.input_line st + 1)
                 (Convert2022.txf_category st) (Convert2022.totals st)
                 (Convert2022.output st) (Convert2022.accepted st)))
  /\ (forall tk line,
        TaxformParser.lines tk !! TaxformParser.line_idx tk = Some line ->
        startswith line (lit "3825") || startswith line (lit "0207") = true ->
        TaxformParser.find_cusip tk
        = (Some line,
           TaxformParser.mkTokenizer (TaxformParser.lines tk)
             (S (TaxformParser.line_idx tk)) (TaxformParser.tokens tk)))
  /\ (forall c tk r tk' c2,
        TaxformParser.parse_record c tk = inr (r, tk') ->
        TaxformParser.parse_record c2 tk = inr (set_cusip c2 r, tk')).
Proof.
  split; [|split; [|split]].
  - intros lines st e lot Hr Hin f.
    destruct (run_lot_facts lines st e lot Hr Hin)
      as ((_ & _ & _ & _ & Hreg & Hsym & _) & _).
    done.
  - intros lines st line Hm Hreg. unfold Convert2022.turn.
    rewrite Hm, Hreg. reflexivity.
  - apply find_cusip_prefix.
  - intros c tk r tk' c2. apply parse_record_any_cusip.
Qed.

Lemma C4_identifier_checks_witness :
  exists st lot,
    Convert2022.run (rt := ExampleRuntime.example_runtime)
      (map lit ["Box E checked"; "0207 not an identifier"; "02079K305";
                "1 SHARES OF GOOGL"; "11/25/2015 730.98 769.63 X";
                "05/24/2016 GROSS"])
    = Some (st, None)
    /\ Convert2022.accepted st = [lot]
    /\ let f := Convert2022.lot_fields lot in
       existsb (str_eqb (Convert2022.cusip f)) (dict_values Convert2022._CUSIPS) = true
       /\ Convert2022.symbol f ≫= dict_get Convert2022._CUSIPS
          = Some (Convert2022.cusip f).
Proof.
  eexists. eexists.
  split; [vm_compute; reflexivity|]. split; [reflexivity|].
  eapply (proj1 (C4_identifier_checks (rt := ExampleRuntime.example_runtime))
            (map lit ["Box E checked"; "0207 not an identifier"; "02079K305";
                      "1 SHARES OF GOOGL"; "11/25/2015 730.98 769.63 X";
                      "05/24/2016 GROSS"])).
  - vm_compute. reflexivity.
  - left. reflexivity.
Defined.

(** ** C3 *)

(** C3 as stated fails in the checkbox-driven converter, whose patterns
    read the quantity as digits and never compare it with zero: a lot of
    [0] shares is taken and printed. *)
Lemma C3_counterexample :
  Convert2022.main (rt := ExampleRuntime.example_runtime)
    (map lit ["Box B checked"; "02079K107"; "0 SHARES OF GOOG";
              "01/27/2020 2,933.94 2,933.42 X"; "02/06/2020 GROSS"])
  ≫= (fun o => Some (Convert2022.out_file o, Convert2022.stop o))
  = Some (Some (lit "V042
ASelf
D04/15/2023
^
TD
N711
P0 SHARES OF GOOG
D01/27/2020
D02/06/2020
$2,933.42
$2,933.94
^
"), None).
Proof. vm_compute. reflexivity. Qed.

(** C3 (as amended). The self-contained converter returns no record whose
    quantity is [<= 0], and a quantity token whose value is [<= 0] raises
    the parsing error.  The checkbox-driven converter aborts with a parse
    error on a description that starts with a minus sign. *)
Theorem C3_nonpositive_quantity {rt : PyRuntime} :
  (forall raw st r,
     TaxformParser.parse1099Form raw = Some (inr st) ->
     In r (TaxformParser.records st) ->
     float_le_0 (TaxformParser.quantity r) = false)
  /\ (forall tk q x rest,
        stream tk = q :: lit "SHARES" :: lit "OF" :: rest ->
        float_of_str q = Some x -> float_le_0 x = true ->
        is_parsing_error (TaxformParser.scan_record tk))
  /\ (forall (lines : list str) st cat cusip_line (rest : str),
        lines !! Convert2022.input_line st = Some cusip_line ->
        Re.search Convert2022.marker_re cusip_line = None ->
        existsb (str_eqb cusip_line) (dict_values Convert2022._CUSIPS) = true ->
        Convert2022.txf_category st = Some cat ->
        lines !! (Convert2022.input_line st + 1)%nat = Some ("-"%char :: rest) ->
        (Convert2022.input_line st + 3 <= length lines)%nat ->
        Convert2022.turn lines st cusip_line
        = inl (Convert2022.SysExit
                 (Convert2022.ParseLineError (Convert2022.input_line st + 2)
                    ("-"%char :: rest)))).
Proof.
  split; [|split].
  - intros raw st r Hp Hin.
    destruct (parse1099Form_Inv raw st Hp) as (Hq & _).
    rewrite Forall_forall in Hq. apply list_elem_of_In in Hin.
    by destruct (Hq r Hin).
  - intros tk q x rest. apply scan_record_nonpositive.
  - intros lines st cat cusip_line rest _ Hm Hreg Hcat Hl Hlen.
    unfold Convert2022.turn. rewrite Hm, Hreg, Hcat. cbn [negb].
    rewrite (read_record_minus lines _ cusip_line rest Hl Hlen). reflexivity.
Qed.

Lemma C3_nonpositive_quantity_witness :
  is_parsing_error
    (TaxformParser.scan_record (rt := ExampleRuntime.example_runtime)
       (TaxformParser.mkTokenizer
          (map lit ["-2 SHARES OF GOOG"; "01/27/2020 2,933.94 2,933.42 X"]) 0 [])).
Proof.
  apply (proj1 (proj2 (C3_nonpositive_quantity
                         (rt := ExampleRuntime.example_runtime)))
           _ (lit "-2") (mkDecimal true 2 0)
           (map lit ["GOOG"; "01/27/2020"; "2,933.94"; "2,933.42"; "X"])).
  - reflexivity.
  - reflexivity.
  - reflexivity.
Defined.

(** ** C9 *)

(** C9 as stated fails in the self-contained converter: its totals are
    three numbers for all records, and it accepts a negative amount, which
    takes the total below where it started. *)
Lemma C9_counterexample :
  exists st,
    TaxformParser.parse1099Form (rt := ExampleRuntime.example_runtime)
      (map lit ["02079K107"; "2 SHARES OF GOOG";
                "01/27/2020 -5.00 2,933.42 X"; "02/06/2020 GROSS"])
    = Some (inr st)
    /\ TaxformParser.total_proceeds st = mkDecimal true 500 (-2)
    /\ (Dvalue (TaxformParser.total_proceeds st) < Dvalue Decimal_0_00)%Q.
Proof.
  eexists. split; [vm_compute; reflexivity|]. split; [reflexivity|].
  vm_compute. reflexivity.
Qed.

(** C9 (as amended). In the checkbox-driven converter the totals are a
    mapping from checkbox to three sums; it starts empty, every entry
    reading as 0.00; a turn of the loop that takes no record leaves it as
    it is, a turn that takes a record changes the entry of that record's
    checkbox only, and no component of any entry is smaller after a turn
    than before it.  In the self-contained converter the totals are three
    numbers starting at 0.00; a turn adds the amounts of its record to
    them, and none gets smaller as long as the amounts are not negative. *)
Theorem C9_totals_never_lowered {rt : PyRuntime} :
  (forall lines,
     Convert2022.totals (Convert2022.init) = ∅
     /\ (forall k, Convert2022.entry ∅ k = Convert2022.Totals0)
     /\ forall st e, Convert2022.run lines = Some (st, e) -> reachable lines st)
  /\ (forall lines st line st',
        reachable lines st ->
        Convert2022.turn lines st line = inr st' ->
        totals_le (Convert2022.totals st) (Convert2022.totals st')
        /\ (Convert2022.accepted st' = Convert2022.accepted st
            /\ Convert2022.totals st' = Convert2022.totals st
            \/ exists lot,
                 Convert2022.accepted st' = Convert2022.accepted st ++ [lot]
                 /\ forall k, k <> Convert2022.lot_category lot ->
                      Convert2022.totals st' !! k = Convert2022.totals st !! k))
  /\ (forall raw,
        totals_soundB (TaxformParser.parse_init raw)
        /\ TaxformParser.total_proceeds (TaxformParser.parse_init raw) = Decimal_0_00
        /\ TaxformParser.total_basis (TaxformParser.parse_init raw) = Decimal_0_00
        /\ TaxformParser.total_wash (TaxformParser.parse_init raw) = Decimal_0_00)
  /\ (forall st c tk st',
        TaxformParser.parse_turn st c tk = inr st' ->
        exists r,
          TaxformParser.records st' = TaxformParser.records st ++ [r]
          /\ Dadd (TaxformParser.total_proceeds st)
                  (TaxformParser.total_reported_proceeds r)
             = Some (TaxformParser.total_proceeds st')
          /\ Dadd (TaxformParser.total_basis st)
                  (TaxformParser.total_reported_basis r)
             = Some (TaxformParser.total_basis st')
          /\ Dadd (TaxformParser.total_wash st)
                  (TaxformParser.wash_or_zero (TaxformParser.total_reported_wash r))
             = Some (TaxformParser.total_wash st')
          /\ (totals_soundB st -> nonneg_amounts r ->
              totals_soundB st'
              /\ Dle (TaxformParser.total_proceeds st) (TaxformParser.total_proceeds st')
              /\ Dle (TaxformParser.total_basis st) (TaxformParser.total_basis st')
              /\ Dle (TaxformParser.total_wash st) (TaxformParser.total_wash st'))).
Proof.
  split; [|split; [|split]].
  - intros lines. split; [reflexivity|]. split.
    + intros k. unfold Convert2022.entry. by rewrite lookup_empty.
    + intros st e Hr. eapply loop_reachable; [exact Hr|constructor].
  - intros lines st line st' Hr Ht.
    destruct (turn_totals lines st line st' Ht (reachable_sound lines st Hr))
      as (_ & Hle & Hch).
    done.
  - intros raw. pose proof fixed_0_00. repeat split; done.
  - intros st c tk st'. apply parse_turn_totals.
Qed.

Lemma C9_totals_never_lowered_witness :
  let lines := map lit ["Box B checked"; "02079K107"; "2 SHARES OF GOOG";
                        "01/27/2020 2,933.94 2,933.42 X"; "02/06/2020 GROSS"] in
  let st1 := Convert2022.mkState 1 (Some (lit "B")) ∅
               [Convert2022.header (rt := ExampleRuntime.example_runtime)] [] in
  exists st2,
    Convert2022.turn lines st1 (lit "02079K107") = inr st2
    /\ Convert2022.input_line st2 = 5%nat
    /\ totals_le (Convert2022.totals st1) (Convert2022.totals st2)
    /\ (Convert2022.accepted st2 = Convert2022.accepted st1
        /\ Convert2022.totals st2 = Convert2022.totals st1
        \/ exists lot,
             Convert2022.accepted st2 = Convert2022.accepted st1 ++ [lot]
             /\ forall k, k <> Convert2022.lot_category lot ->
                  Convert2022.totals st2 !! k = Convert2022.totals st1 !! k).
Proof.
  intros lines st1. eexists.
  split; [vm_compute; reflexivity|]. split; [reflexivity|].
  apply (proj1 (proj2 (C9_totals_never_lowered
                         (rt := ExampleRuntime.example_runtime)))
           lines st1 (lit "02079K107")).
  - apply (reach_turn lines
             (Convert2022.init (rt := ExampleRuntime.example_runtime))
             (lit "Box B checked") st1).
    + apply reach_init.
    + reflexivity.
    + vm_compute. reflexivity.
  - vm_compute. reflexivity.
Defined.

(** ** C1 *)

(** C1 as stated fails: [Decimal] addition rounds to the 28 significant
    digits of the default context, so a total that needs more is not the
    exact sum. *)
Lemma C1_counterexample :
  exists st t,
    Convert2022.run (rt := ExampleRuntime.example_runtime)
      (map lit ["Box B checked"; "02079K107"; "2 SHARES OF GOOG";
                "01/27/2020 12345678901234567890123456789.50 2,933.42 X";
                "02/06/2020 GROSS"])
    = Some (st, None)
    /\ Convert2022.totals st !! lit "B" = Some t
    /\ Convert2022.proceeds t = mkDecimal false 1234567890123456789012345679 1
    /\ map Convert2022.lot_proceeds (lots_of (lit "B") (Convert2022.accepted st))
       = [mkDecimal false 1234567890123456789012345678950 (-2)]
    /\ ~ (Dvalue (Convert2022.proceeds t)
          == Qsum (map Dvalue
                     (map Convert2022.lot_proceeds
                        (lots_of (lit "B") (Convert2022.accepted st)))))%Q.
Proof.
  eexists. eexists. split; [vm_compute; reflexivity|].
  split; [vm_compute; reflexivity|]. split; [reflexivity|].
  split; [reflexivity|]. vm_compute. discriminate.
Qed.

(** C1 (as amended). The totals of a checkbox are the sums of the proceeds,
    the basis and the wash amounts of its lots (a lot without a wash amount
    adding nothing), from 0.00, added one lot at a time in the default
    decimal context; a checkbox has an entry exactly when it has a lot.
    They stand for the exact sums whenever no running sum is rounded by
    the context, that is, needs more than 28 digits.  The same holds of the
    three totals of the self-contained converter, which are kept for all
    records together, a record without a wash amount adding [Decimal(0)]. *)
Theorem C1_totals_are_sums {rt : PyRuntime} :
  (forall lines st e k,
     Convert2022.run lines = Some (st, e) ->
     let lots := lots_of k (Convert2022.accepted st) in
     let t := Convert2022.entry (Convert2022.totals st) k in
     (Convert2022.totals st !! k = None <-> lots = [])
     /\ Dsum Decimal_0_00 (map Convert2022.lot_proceeds lots)
        = Some (Convert2022.proceeds t)
     /\ Dsum Decimal_0_00 (map Convert2022.lot_basis lots)
        = Some (Convert2022.basis t)
     /\ Dsum Decimal_0_00 (omap Convert2022.lot_wash lots)
        = Some (Convert2022.wash t)
     /\ (sums_unrounded Decimal_0_00 (map Convert2022.lot_proceeds lots) ->
         Dvalue (Convert2022.proceeds t)
         == Qsum (map Dvalue (map Convert2022.lot_proceeds lots)))%Q
     /\ (sums_unrounded Decimal_0_00 (map Convert2022.lot_basis lots) ->
         Dvalue (Convert2022.basis t)
         == Qsum (map Dvalue (map Convert2022.lot_basis lots)))%Q
     /\ (sums_unrounded Decimal_0_00 (omap Convert2022.lot_wash lots) ->
         Dvalue (Convert2022.wash t)
         == Qsum (map Dvalue (omap Convert2022.lot_wash lots)))%Q)
  /\ (forall raw st,
        TaxformParser.parse1099Form raw = Some (inr st) ->
        let rs := TaxformParser.records st in
        let washes :=
          map (fun r => TaxformParser.wash_or_zero
                          (TaxformParser.total_reported_wash r)) rs in
        Dsum Decimal_0_00 (map TaxformParser.total_reported_proceeds rs)
        = Some (TaxformParser.total_proceeds st)
        /\ Dsum Decimal_0_00 (map TaxformParser.total_reported_basis rs)
           = Some (TaxformParser.total_basis st)
        /\ Dsum Decimal_0_00 washes = Some (TaxformParser.total_wash st)
        /\ (sums_unrounded Decimal_0_00
              (map TaxformParser.total_reported_proceeds rs) ->
            Dvalue (TaxformParser.total_proceeds st)
            == Qsum (map Dvalue (map TaxformParser.total_reported_proceeds rs)))%Q
        /\ (sums_unrounded Decimal_0_00
              (map TaxformParser.total_reported_basis rs) ->
            Dvalue (TaxformParser.total_basis st)
            == Qsum (map Dvalue (map TaxformParser.total_reported_basis rs)))%Q
        /\ (sums_unrounded Decimal_0_00 washes ->
            Dvalue (TaxformParser.total_wash st)
            == Qsum (map Dvalue washes))%Q).
Proof.
  split.
  - intros lines st e k Hr lots t.
    destruct (run_Inv lines st e Hr) as (_ & _ & Hm).
    destruct (Hm k) as (Mp & Mb & Mw & Mn). fold lots in Mp, Mb, Mw, Mn.
    fold t in Mp, Mb, Mw.
    split; [done|]. split; [done|]. split; [done|]. split; [done|].
    split; [|split]; intros Hu; by apply Dsum_value.
  - intros raw st Hp rs washes.
    destruct (parse1099Form_Inv raw st Hp) as (_ & Mp & Mb & Mw & _).
    split; [done|]. split; [done|]. split; [done|].
    split; [|split]; intros Hu; by apply Dsum_value.
Qed.

Lemma C1_totals_are_sums_witness :
  exists st,
    Convert2022.run (rt := ExampleRuntime.example_runtime)
      (map lit ["Box B checked"; "02079K107"; "3 SHARES OF GOOG";
                "07/25/2019 4,498.54 3,413.43 1,100.22 X"; "08/06/2020 GROSS";
                "02079K107"; "2 SHARES OF GOOG 01/27/2020 2,933.94 2,933.42 X";
                "02/06/2020 GROSS"])
    = Some (st, None)
    /\ Convert2022.totals st !! lit "B"
       = Some (Convert2022.mkTotals (mkDecimal false 743248 (-2))
                 (mkDecimal false 634685 (-2)) (mkDecimal false 110022 (-2)))
    /\ (Dvalue (mkDecimal false 743248 (-2))
        == Qsum (map Dvalue
                   (map Convert2022.lot_proceeds
                      (lots_of (lit "B") (Convert2022.accepted st)))))%Q.
Proof.
  eexists. split; [vm_compute; reflexivity|]. split; [vm_compute; reflexivity|].
  lazymatch goal with
  | |- (_ == Qsum (map Dvalue (map _ (lots_of _ (Convert2022.accepted ?s)))))%Q =>
      pose proof (proj1 (C1_totals_are_sums (rt := ExampleRuntime.example_runtime))
                    (map lit ["Box B checked"; "02079K107"; "3 SHARES OF GOOG";
                              "07/25/2019 4,498.54 3,413.43 1,100.22 X";
                              "08/06/2020 GROSS"; "02079K107";
                              "2 SHARES OF GOOG 01/27/2020 2,933.94 2,933.42 X";
                              "02/06/2020 GROSS"])
                    s None (lit "B")) as H
  end.
  refine (proj1 (proj2 (proj2 (proj2 (proj2 (H _))))) _).
  - vm_compute. reflexivity.
  - vm_compute. repeat split.
Defined.

(** * Further properties *)

(** ** What a match consumed and captured *)

Lemma rmatch_lang {A} (Q : str -> Prop) (i : nat) (r : Re.regex) :
  grp_lang Q i r ->
  forall s g (k : str -> Re.groups -> option A) x,
    Re.rmatch r s g k = Some x ->
    exists pre s' g',
      s = pre ++ s' /\ k s' g' = Some x /\ lang r pre
      /\ ((forall v, g !! i = Some v -> Q v) ->
          forall v, g' !! i = Some v -> Q v)
      /\ (sets_group i r \/ is_Some (g !! i) -> is_Some (g' !! i))
      /\ (ends_at_eol r -> Re.at_end s' = true).
Proof.
  induction r as [c|p|r1 IH1 r2 IH2|r1 IH1 r2 IH2|r1 IH1|p|j r1 IH1| |];
    intros Hg s g k x H; simpl in *.
  - destruct s as [|d s]; [discriminate|].
    unfold char_eqb in H. case_bool_decide; [|discriminate]. subst d.
    exists [c], s, g. repeat split; auto; try done. by intros [[]|].
  - destruct s as [|d s]; [discriminate|].
    destruct (p d) eqn:Ed; [|discriminate].
    exists [d], s, g. repeat split; eauto; try done. by intros [[]|].
  - destruct Hg as [Hg1 Hg2].
    destruct (IH1 Hg1 _ _ _ _ H)
      as (pre1 & s1 & g1 & -> & Hk1 & Hl1 & Hi1 & Hd1 & _).
    destruct (IH2 Hg2 _ _ _ _ Hk1)
      as (pre2 & s2 & g2 & -> & Hk2 & Hl2 & Hi2 & Hd2 & He2).
    exists (pre1 ++ pre2), s2, g2. rewrite <- app_assoc.
    repeat split; eauto. intros [[?|?]|?]; auto.
  - destruct Hg as [Hg1 Hg2].
    destruct (Re.rmatch r1 s g k) as [y|] eqn:E1.
    + inversion H; subst y.
      destruct (IH1 Hg1 _ _ _ _ E1)
        as (pre & s' & g' & -> & Hk & Hl & Hi & Hd & He).
      exists pre, s', g'. repeat split; auto; tauto.
    + destruct (IH2 Hg2 _ _ _ _ H)
        as (pre & s' & g' & -> & Hk & Hl & Hi & Hd & He).
      exists pre, s', g'. repeat split; auto; tauto.
  - destruct (Re.rmatch r1 s g k) as [y|] eqn:E1.
    + inversion H; subst y.
      destruct (IH1 Hg _ _ _ _ E1)
        as (pre & s' & g' & -> & Hk & Hl & Hi & Hd & _).
      exists pre, s', g'. repeat split; auto; try done. intros [[]|?]; auto.
    + exists [], s, g. repeat split; auto; try done. by intros [[]|].
  - destruct s as [|d s]; [discriminate|].
    destruct (p d) eqn:Ed; [|discriminate].
    destruct (ReFacts.plus_rest_sound _ _ _ _ H) as (pre & s' & -> & Hp & Hk).
    exists (d :: pre), s', g. repeat split; auto; try done. by intros [[]|].
  - destruct Hg as [Hj Hg].
    destruct (IH1 Hg _ _ _ _ H)
      as (pre & s' & g' & -> & Hk & Hl & Hi & Hd & He).
    replace (take (length (pre ++ s') - length s') (pre ++ s')) with pre in Hk.
    2:{ rewrite length_app, Nat.add_sub. by rewrite take_app_length. }
    exists pre, s', (<[j := pre]> g'). repeat split; auto.
    + intros Hv v. destruct (decide (j = i)) as [->|Hne].
      * rewrite lookup_insert_eq. intros [= <-]. auto.
      * rewrite lookup_insert_ne by done. auto.
    + intros Hs. destruct (decide (j = i)) as [->|Hne].
      * rewrite lookup_insert_eq. eauto.
      * rewrite lookup_insert_ne by done. apply Hd.
        destruct Hs as [[?|?]|?]; auto. done.
  - destruct (Re.at_end s) eqn:Ee; [|discriminate].
    exists [], s, g. repeat split; auto. by intros [[]|].
  - exists [], s, g. repeat split; auto; try done. by intros [[]|].
Qed.

(** What [re.match] reports: the match is a prefix of the string, and the
    groups obey [grp_lang] and [sets_group]. *)
Lemma match_lang (Q : str -> Prop) (i : nat) (r : Re.regex) s g :
  grp_lang Q i r -> Re.match_ r s = Some g ->
  (exists pre s', s = pre ++ s' /\ lang r pre
                  /\ (ends_at_eol r -> Re.at_end s' = true))
  /\ (forall v, Re.group g i = Some v -> Q v)
  /\ (sets_group i r -> is_Some (Re.group g i)).
Proof.
  intros Hg Hm. unfold Re.match_, Re.match_end in Hm.
  destruct (Re.rmatch r s ∅ (fun s' g0 => Some (g0, s'))) as [[g0 s0]|] eqn:E;
    [|discriminate].
  simpl in Hm. inversion Hm; subst g0; clear Hm.
  destruct (rmatch_lang Q i r Hg _ _ _ _ E)
    as (pre & s' & g' & -> & Hk & Hl & Hi & Hd & He).
  inversion Hk; subst. split; [eauto|]. split.
  - apply Hi. intros w Hw. by rewrite lookup_empty in Hw.
  - intros Hs. apply Hd. by left.
Qed.

(** ** Characters and amounts *)

Ltac by_ascii c :=
  destruct c as [[] [] [] [] [] [] [] []]; vm_compute; intuition congruence.

Lemma digit_not_space c : is_digit c = true -> is_space c = false.
Proof. by_ascii c. Qed.

Lemma digit_not_mark c :
  is_digit c = true ->
  c <> "_"%char /\ c <> "-"%char /\ c <> "+"%char /\ c <> ","%char
  /\ c <> "."%char.
Proof. by_ascii c. Qed.

Lemma digit_or_comma_inv c :
  Convert2022.digit_or_comma c = true -> is_digit c = true \/ c = ","%char.
Proof. by_ascii c. Qed.

Lemma split_sign_unsigned c t :
  c <> "-"%char -> c <> "+"%char -> split_sign (c :: t) = (false, c :: t).
Proof. destruct c as [[] [] [] [] [] [] [] []]; intros; try reflexivity; congruence. Qed.

Lemma remove_char_id ch s :
  Forall (fun c => c <> ch) s -> remove_char ch s = s.
Proof.
  induction 1 as [|c s Hc _ IH]; [done|]. unfold remove_char in *.
  cbn [List.filter]. destruct (char_eqb ch c) eqn:E; cbn; [|by rewrite IH].
  unfold char_eqb in E. case_bool_decide; congruence.
Qed.

Lemma remove_comma_digits a :
  Forall (fun c => Convert2022.digit_or_comma c = true) a ->
  Forall (fun c => is_digit c = true) (remove_char "," a).
Proof.
  induction 1 as [|c s Hc _ IH]; [constructor|]. unfold remove_char in *.
  cbn [List.filter]. destruct (char_eqb "," c) eqn:E; cbn; [done|].
  constructor; [|done]. unfold char_eqb in E. case_bool_decide; [done|].
  destruct (digit_or_comma_inv c Hc); congruence.
Qed.

Lemma remove_char_app ch a b :
  remove_char ch (a ++ b) = remove_char ch a ++ remove_char ch b.
Proof. unfold remove_char. apply List.filter_app. Qed.

Lemma lstrip_id s : Forall (fun c => is_space c = false) s -> lstrip s = s.
Proof. destruct 1 as [|c s Hc _]; [done|]. cbn. by rewrite Hc. Qed.

Lemma strip_id s : Forall (fun c => is_space c = false) s -> strip s = s.
Proof.
  intros H. unfold strip. rewrite (lstrip_id s H).
  rewrite lstrip_id; [apply rev_involutive|].
  by apply List.Forall_rev.
Qed.

Lemma span_all p s : Forall (fun c => p c = true) s -> span p s = (s, []).
Proof. induction 1 as [|c s Hc _ IH]; [done|]. cbn. by rewrite Hc, IH. Qed.

Lemma span_stop p a c t :
  Forall (fun c => p c = true) a -> p c = false ->
  span p (a ++ c :: t) = (a, c :: t).
Proof.
  intros Ha Hc. induction Ha as [|d a Hd _ IH]; cbn; [by rewrite Hc|].
  by rewrite Hd, IH.
Qed.

(** [Decimal] of digits, a point and digits: the coefficient is the digits
    read as one number, the exponent counts the digits after the point. *)
Lemma Decimal_of_str_point a b :
  Forall (fun c => is_digit c = true) a ->
  Forall (fun c => is_digit c = true) b -> b <> [] ->
  Decimal_of_str (a ++ "."%char :: b)
  = DFinite (mkDecimal false (digits_to_N (a ++ b)) (- Z.of_nat (length b))).
Proof.
  intros Ha Hb Hne.
  assert (Hall : Forall (fun c => is_digit c = true \/ c = "."%char)
                        (a ++ "."%char :: b)).
  { apply Forall_app. split; [|constructor; [by right|]];
      (eapply Forall_impl; [eassumption|]); by left. }
  unfold Decimal_of_str.
  rewrite strip_id.
  2:{ eapply Forall_impl; [exact Hall|]. intros c [Hd| ->]; [|done].
      by apply digit_not_space. }
  rewrite remove_char_id.
  2:{ eapply Forall_impl; [exact Hall|]. intros c [Hd| ->]; [|done].
      by apply digit_not_mark. }
  assert (Hs : split_sign (a ++ "."%char :: b) = (false, a ++ "."%char :: b)).
  { destruct a as [|c a]; [done|]. inversion Ha; subst.
    apply split_sign_unsigned; by apply digit_not_mark. }
  rewrite Hs. unfold numeric_value.
  rewrite (span_stop is_digit a "." b Ha eq_refl).
  rewrite (span_all is_digit b Hb).
  rewrite (bool_decide_eq_false_2 (b = [])) by done.
  rewrite orb_true_r. cbn [parse_exponent]. repeat f_equal.
Qed.

(** The number the text of an amount stands for. *)
Lemma amount_shape_value w :
  amount_shape w ->
  exists a b,
    w = a ++ "."%char :: b
    /\ Forall (fun c => Convert2022.digit_or_comma c = true) a
    /\ b <> [] /\ Forall (fun c => is_digit c = true) b
    /\ Convert2022.amount (Some w)
       = inr (mkDecimal false (digits_to_N (remove_char "," a ++ b))
                        (- Z.of_nat (length b))).
Proof.
  intros (a & b & -> & Hane & Ha & Hbne & Hb). exists a, b.
  split; [done|]. split; [done|]. split; [done|]. split; [done|].
  unfold Convert2022.amount. rewrite remove_char_app.
  change (remove_char "," ("."%char :: b)) with ("."%char :: remove_char "," b).
  rewrite (remove_char_id "," b).
  2:{ eapply Forall_impl; [exact Hb|]. intros c Hc. by apply digit_not_mark. }
  rewrite Decimal_of_str_point; auto using remove_comma_digits.
Qed.

(** ** What the groups of the converter's patterns hold *)

Ltac lang_inv :=
  repeat match goal with
         | H : exists _, _ |- _ => destruct H
         | H : _ /\ _ |- _ => destruct H
         end; subst.

Lemma lang_date w : lang Convert2022.date_re w -> date_shape w.
Proof.
  cbn. intros H. lang_inv. cbn. unfold date_shape.
  do 8 eexists. split; [reflexivity|]. repeat constructor; assumption.
Qed.

Lemma lang_amount w : lang Convert2022.amount_re w -> amount_shape w.
Proof.
  cbn. intros H. lang_inv. unfold amount_shape.
  match goal with |- exists a b, ?x ++ _ ++ ?y = _ /\ _ => exists x, y end.
  repeat split; auto.
Qed.

Lemma lang_symbol w :
  lang (Re.Cat (Re.Str (lit "GOOG")) (Re.Opt (Re.Chr "L"))) w -> symbol_shape w.
Proof.
  cbn. intros H. lang_inv.
  match goal with H : _ \/ _ |- _ => destruct H; subst end; [left|right]; done.
Qed.

Lemma lang_checkbox w :
  lang (Re.Cls (Convert2022.in_chars
                  (concat (dict_keys Convert2022._TXF_CATEGORIES)))) w ->
  checkbox_shape w.
Proof.
  cbn. intros (c & -> & Hc). unfold checkbox_shape.
  unfold Convert2022.in_chars in Hc. cbn in Hc. unfold char_eqb in Hc.
  repeat case_bool_decide; subst; auto; discriminate.
Qed.

Ltac grp_lang_tac :=
  cbn [grp_lang Re.Seq Re.Str Re.Times Nat.add lit list_ascii_of_string
       Convert2022.combined_re Convert2022.line2_re Convert2022.line3_re
       Convert2022.line4_re Convert2022.marker_re Convert2022.amounts_re
       Convert2022.shares_re Convert2022.date_re Convert2022.amount_re];
  repeat split; try done; intros ? ? ?; try discriminate;
  first [ by apply lang_date | by apply lang_amount | by apply lang_symbol
        | by apply lang_checkbox ].

Ltac sets_tac :=
  cbn [sets_group Re.Seq Re.Str Re.Times Nat.add lit list_ascii_of_string
       Convert2022.combined_re Convert2022.line2_re Convert2022.line3_re
       Convert2022.line4_re Convert2022.marker_re Convert2022.amounts_re
       Convert2022.shares_re Convert2022.date_re Convert2022.amount_re];
  tauto.

(** The groups of a match of the joined line. *)
Lemma combined_groups line m :
  Re.match_ Convert2022.combined_re line = Some m ->
  (exists w, Re.group m 1 = Some w /\ symbol_shape w)
  /\ (exists w, Re.group m 2 = Some w /\ date_shape w)
  /\ (exists w, Re.group m 3 = Some w /\ amount_shape w)
  /\ (exists w, Re.group m 4 = Some w /\ amount_shape w)
  /\ (forall w, Re.group m 5 = Some w -> amount_shape w).
Proof.
  intros H.
  assert (G1 : grp_lang symbol_shape 1 Convert2022.combined_re) by grp_lang_tac.
  assert (G2 : grp_lang date_shape 2 Convert2022.combined_re) by grp_lang_tac.
  assert (G3 : grp_lang amount_shape 3 Convert2022.combined_re) by grp_lang_tac.
  assert (G4 : grp_lang amount_shape 4 Convert2022.combined_re) by grp_lang_tac.
  assert (G5 : grp_lang amount_shape 5 Convert2022.combined_re) by grp_lang_tac.
  destruct (match_lang _ _ _ _ _ G1 H) as (_ & Q1 & [w1 S1]); [sets_tac|].
  destruct (match_lang _ _ _ _ _ G2 H) as (_ & Q2 & [w2 S2]); [sets_tac|].
  destruct (match_lang _ _ _ _ _ G3 H) as (_ & Q3 & [w3 S3]); [sets_tac|].
  destruct (match_lang _ _ _ _ _ G4 H) as (_ & Q4 & [w4 S4]); [sets_tac|].
  destruct (match_lang _ _ _ _ _ G5 H) as (_ & Q5 & _).
  split; [by eauto|]. split; [by eauto|]. split; [by eauto|].
  split; [by eauto|]. done.
Qed.

Lemma line2_groups line m :
  Re.match_ Convert2022.line2_re line = Some m ->
  exists w, Re.group m 1 = Some w /\ symbol_shape w.
Proof.
  intros H.
  assert (G1 : grp_lang symbol_shape 1 Convert2022.line2_re) by grp_lang_tac.
  destruct (match_lang _ _ _ _ _ G1 H) as (_ & Q1 & [w1 S1]); [sets_tac|].
  eauto.
Qed.

Lemma line3_groups line m :
  Re.match_ Convert2022.line3_re line = Some m ->
  (exists w, Re.group m 1 = Some w /\ date_shape w)
  /\ (exists w, Re.group m 2 = Some w /\ amount_shape w)
  /\ (exists w, Re.group m 3 = Some w /\ amount_shape w)
  /\ (forall w, Re.group m 4 = Some w -> amount_shape w).
Proof.
  intros H.
  assert (G1 : grp_lang date_shape 1 Convert2022.line3_re) by grp_lang_tac.
  assert (G2 : grp_lang amount_shape 2 Convert2022.line3_re) by grp_lang_tac.
  assert (G3 : grp_lang amount_shape 3 Convert2022.line3_re) by grp_lang_tac.
  assert (G4 : grp_lang amount_shape 4 Convert2022.line3_re) by grp_lang_tac.
  destruct (match_lang _ _ _ _ _ G1 H) as (_ & Q1 & [w1 S1]); [sets_tac|].
  destruct (match_lang _ _ _ _ _ G2 H) as (_ & Q2 & [w2 S2]); [sets_tac|].
  destruct (match_lang _ _ _ _ _ G3 H) as (_ & Q3 & [w3 S3]); [sets_tac|].
  destruct (match_lang _ _ _ _ _ G4 H) as (_ & Q4 & _).
  split; [by eauto|]. split; [by eauto|]. split; [by eauto|]. done.
Qed.

Lemma line4_groups line m :
  Re.match_ Convert2022.line4_re line = Some m ->
  exists w, Re.group m 1 = Some w /\ date_shape w.
Proof.
  intros H.
  assert (G1 : grp_lang date_shape 1 Convert2022.line4_re) by grp_lang_tac.
  destruct (match_lang _ _ _ _ _ G1 H) as (_ & Q1 & [w1 S1]); [sets_tac|].
  eauto.
Qed.

(** ** How a turn of the checkbox-driven converter can fail *)

Lemma check_pair_result w c :
  symbol_shape w ->
  match Convert2022.check_pair (Some w) c with
  | inl e => exists x, e = Convert2022.SysExit x
  | inr _ => True
  end.
Proof.
  intros [-> | ->]; unfold Convert2022.check_pair.
  - change (Some (lit "GOOG") ≫= dict_get Convert2022._CUSIPS)
      with (Some (lit "02079K107")).
    cbv beta iota.
    match goal with |- context [negb ?b] => destruct (negb b) end;
      [by eexists|done].
  - change (Some (lit "GOOGL") ≫= dict_get Convert2022._CUSIPS)
      with (Some (lit "02079K305")).
    cbv beta iota.
    match goal with |- context [negb ?b] => destruct (negb b) end;
      [by eexists|done].
Qed.

Lemma index_result lines j :
  match Convert2022.index lines j with
  | inl e => e = Convert2022.Raise IndexError
  | inr l => lines !! j = Some l
  end.
Proof. unfold Convert2022.index. by destruct (lines !! j). Qed.

Lemma read_record_result lines i line :
  match Convert2022.read_record lines i line with
  | inr (_, f) => Fields_shape f
  | inl e => (exists x, e = Convert2022.SysExit x)
             \/ e = Convert2022.Raise IndexError
  end.
Proof.
  unfold Convert2022.read_record.
  destruct (length lines <? i + 3)%nat; [left; by eexists|].
  pose proof (index_result lines (i + 1)) as H1.
  destruct (Convert2022.index lines (i + 1)) as [|l1]; cbn [bind]; [by right|].
  destruct (Re.match_ Convert2022.combined_re l1) as [m|] eqn:Em.
  - destruct (combined_groups _ _ Em)
      as ((w1 & S1 & Q1) & G2 & G3 & G4 & G5).
    rewrite S1. pose proof (check_pair_result w1 (upper line) Q1) as Hc.
    destruct (Convert2022.check_pair (Some w1) (upper line)) as [|[]];
      cbn [bind]; [by left|].
    pose proof (index_result lines (i + 1 + 1)) as H2.
    destruct (Convert2022.index lines (i + 1 + 1)) as [|l2]; cbn [bind];
      [by right|].
    destruct (Re.match_ Convert2022.line4_re l2) as [m4|] eqn:E4;
      [|left; by eexists].
    pose proof (line4_groups _ _ E4) as G6.
    unfold Fields_shape. cbn. rewrite <- S1. repeat split; eauto.
  - destruct (Re.match_ Convert2022.line2_re l1) as [m|] eqn:Em2;
      [|left; by eexists].
    destruct (line2_groups _ _ Em2) as (w1 & S1 & Q1).
    rewrite S1. pose proof (check_pair_result w1 (upper line) Q1) as Hc.
    destruct (Convert2022.check_pair (Some w1) (upper line)) as [|[]];
      cbn [bind]; [by left|].
    pose proof (index_result lines (i + 1 + 1)) as H2.
    destruct (Convert2022.index lines (i + 1 + 1)) as [|l2]; cbn [bind];
      [by right|].
    destruct (Re.match_ Convert2022.line3_re l2) as [m3|] eqn:Em3;
      [|left; by eexists].
    destruct (line3_groups _ _ Em3) as (G1 & G2 & G3 & G4). cbn [bind].
    pose proof (index_result lines (i + 1 + 1 + 1)) as H3.
    destruct (Convert2022.index lines (i + 1 + 1 + 1)) as [|l3]; cbn [bind];
      [by right|].
    destruct (Re.match_ Convert2022.line4_re l3) as [m4|] eqn:E4;
      [|left; by eexists].
    pose proof (line4_groups _ _ E4) as G6.
    unfold Fields_shape. cbn. repeat split; eauto.
Qed.

Lemma amount_of_shape w :
  amount_shape w -> exists d, Convert2022.amount (Some w) = inr d.
Proof.
  intros H. destruct (amount_shape_value w H) as (a & b & _ & _ & _ & _ & E).
  eauto.
Qed.

Lemma add_result a b :
  match Convert2022.add a b with
  | inl e => e = Convert2022.Raise DecimalOverflow
  | inr _ => True
  end.
Proof. unfold Convert2022.add. by destruct (Dadd a b). Qed.

Lemma account_result t cat f :
  Fields_shape f ->
  match Convert2022.account t cat f with
  | inl e => e = Convert2022.Raise DecimalOverflow
  | inr _ => True
  end.
Proof.
  intros (_ & _ & (p & Sp & Qp) & (b & Sb & Qb) & Qw & _).
  unfold Convert2022.account. rewrite Sp, Sb.
  destruct (amount_of_shape p Qp) as (dp & ->).
  destruct (amount_of_shape b Qb) as (db & ->). cbn [bind].
  match goal with |- context [Convert2022.add ?x ?y] =>
    pose proof (add_result x y) as H1; destruct (Convert2022.add x y) end;
    cbn [bind]; [done|].
  match goal with |- context [Convert2022.add ?x db] =>
    pose proof (add_result x db) as H2; destruct (Convert2022.add x db) end;
    cbn [bind]; [done|].
  destruct (Convert2022.f_wash f) as [w|] eqn:Ew; [|done].
  destruct (amount_of_shape w (Qw w eq_refl)) as (dw & ->). cbn [bind].
  match goal with |- context [Convert2022.add ?x dw] =>
    pose proof (add_result x dw) as H3; destruct (Convert2022.add x dw) end;
    cbn [bind]; done.
Qed.

Lemma make_item_checkbox cat f :
  checkbox_shape cat -> exists item, Convert2022.make_item cat f = inr item.
Proof.
  intros [-> | ->]; unfold Convert2022.make_item.
  - change (dict_get Convert2022._TXF_CATEGORIES (lit "B")) with (Some 711).
    eauto.
  - change (dict_get Convert2022._TXF_CATEGORIES (lit "E")) with (Some 713).
    eauto.
Qed.

Lemma marker_group line m :
  Re.search Convert2022.marker_re line = Some m ->
  exists w, Re.group m 1 = Some w /\ checkbox_shape w.
Proof.
  induction line as [|c line IH]; cbn [Re.search].
  - destruct (Re.match_ Convert2022.marker_re []) eqn:E; [|done].
    discriminate E.
  - destruct (Re.match_ Convert2022.marker_re (c :: line)) as [g|] eqn:E;
      [|exact IH].
    intros [= <-].
    assert (G1 : grp_lang checkbox_shape 1 Convert2022.marker_re) by grp_lang_tac.
    destruct (match_lang _ _ _ _ _ G1 E) as (_ & Q1 & [w1 S1]); [sets_tac|].
    eauto.
Qed.

(** ** What the output file holds *)



Section NoIdentifier.
Context {rt : PyRuntime}.
Variable lines : list str.
Hypothesis no_identifier :
  Forall (fun l => existsb (str_eqb l) (dict_values Convert2022._CUSIPS) = false)
         lines.

Lemma loop_no_identifier fuel st :
  (length lines - Convert2022.input_line st < fuel)%nat ->
  exists st',
    Convert2022.loop lines fuel st = Some (st', None)
    /\ Convert2022.output st' = Convert2022.output st
    /\ Convert2022.accepted st' = Convert2022.accepted st
    /\ Convert2022.totals st' = Convert2022.totals st.
Proof.
  revert st. induction fuel as [|fuel IH]; intros st Hf; [lia|].
  cbn [Convert2022.loop].
  destruct (lines !! Convert2022.input_line st) as [line|] eqn:El; [|by eauto].
  pose proof (Forall_lookup_1 _ _ _ _ no_identifier El) as Hn. cbv beta in Hn.
  apply lookup_lt_Some in El.
  unfold Convert2022.turn. rewrite Hn. cbn [negb].
  destruct (Re.search Convert2022.marker_re line) as [m|];
    (edestruct IH as (st' & -> & Ho & Ha & Ht); [|by eauto]); cbn; lia.
Qed.

End NoIdentifier.

(** X2. When no line of the input is one of the registry's identifiers,
    the checkbox-driven converter ends without an error: it leaves an
    output file with the header record alone, takes no lot and has no
    totals. *)
Theorem X2_no_identifier_line {rt : PyRuntime} lines :
  Forall (fun l => existsb (str_eqb l) (dict_values Convert2022._CUSIPS) = false)
         lines ->
  exists o,
    Convert2022.main lines = Some o
    /\ Convert2022.stop o = None
    /\ Convert2022.out_file o
       = Some (Convert2022.TxfRecord_str Convert2022.header ++ nl)
    /\ Convert2022.accepted (Convert2022.final o) = []
    /\ Convert2022.totals (Convert2022.final o) = ∅.
Proof.
  intros Hn.
  destruct (loop_no_identifier lines Hn (S (length lines)) Convert2022.init)
    as (st & Hr & Ho & Ha & Ht); [cbn; lia|].
  exists (Convert2022.mkOutcome (Some (Convert2022.file_text st)) st None).
  unfold Convert2022.main, Convert2022.run. rewrite Hr. cbn.
  split; [done|]. split; [done|]. split; [|done].
  unfold Convert2022.file_text. rewrite Ho. cbn. by rewrite app_nil_r.
Qed.

Lemma X2_no_identifier_line_witness :
  exists o,
    Convert2022.main (rt := ExampleRuntime.example_runtime)
      (map lit ["Schwab One Account"; "Box E checked"; "38259P508"; ""]) = Some o
    /\ Convert2022.stop o = None
    /\ Convert2022.out_file o
       = Some (Convert2022.TxfRecord_str
                 (Convert2022.header (rt := ExampleRuntime.example_runtime)) ++ nl)
    /\ Convert2022.accepted (Convert2022.final o) = []
    /\ Convert2022.totals (Convert2022.final o) = ∅.
Proof.
  apply (X2_no_identifier_line (rt := ExampleRuntime.example_runtime)).
  repeat constructor.
Defined.

Section Stops.

Context {rt : PyRuntime}.
Variable lines : list str.

Lemma turn_category st line st' :
  Convert2022.turn lines st line = inr st' -> category_ok st -> category_ok st'.
Proof.
  unfold Convert2022.turn, category_ok. intros H Hc.
  destruct (Re.search Convert2022.marker_re line) as [m|] eqn:Em.
  - inversion H; subst; cbn. intros c Hg.
    destruct (marker_group _ _ Em) as (w & Hw & Q). congruence.
  - destruct (negb _); [inversion H; subst; exact Hc|].
    destruct (Convert2022.txf_category st) as [cat|] eqn:Ec; [|discriminate H].
    destruct (Convert2022.read_record _ _ _) as [|[i f]]; cbn [bind] in H;
      [discriminate H|].
    destruct (Convert2022.account _ _ _) as [|[t [[dp db] dw]]];
      cbn [bind] in H; [discriminate H|].
    destruct (Convert2022.make_item _ _) as [|item]; cbn [bind] in H;
      [discriminate H|].
    inversion H; subst; cbn. intros c [= <-]. by apply Hc.
Qed.

Lemma turn_stop st line e :
  Convert2022.turn lines st line = inl e -> category_ok st -> written_stop e.
Proof.
  unfold Convert2022.turn, category_ok, written_stop. intros H Hc.
  destruct (Re.search Convert2022.marker_re line) as [m|]; [discriminate H|].
  destruct (negb _); [discriminate H|].
  destruct (Convert2022.txf_category st) as [cat|] eqn:Ec.
  2:{ inversion H; subst. left. by eexists. }
  pose proof (read_record_result lines (Convert2022.input_line st) line) as Hr.
  destruct (Convert2022.read_record _ _ _) as [e1|[i f]]; cbn [bind] in H.
  { inversion H; subst. tauto. }
  pose proof (account_result (Convert2022.totals st) cat f Hr) as Ha.
  destruct (Convert2022.account _ _ _) as [e2|[t [[dp db] dw]]];
    cbn [bind] in H.
  { inversion H; subst. tauto. }
  destruct (make_item_checkbox cat f (Hc cat eq_refl)) as (item & Hi).
  rewrite Hi in H. discriminate H.
Qed.

Lemma loop_stop fuel st st' e :
  Convert2022.loop lines fuel st = Some (st', Some e) ->
  category_ok st -> written_stop e.
Proof.
  revert st. induction fuel as [|fuel IH]; intros st H Hc; [discriminate|].
  cbn [Convert2022.loop] in H.
  destruct (lines !! Convert2022.input_line st) as [line|]; [|discriminate H].
  destruct (Convert2022.turn lines st line) as [x|st1] eqn:Et.
  - inversion H; subst. by apply (turn_stop st' line).
  - apply (IH st1 H). by apply (turn_category st line).
Qed.

End Stops.

(** X3. A run of the checkbox-driven converter that stops early stops
    by one of its [sys.exit] calls, by the [IndexError] of a line past the
    end of the input, or by the trapped [Overflow] of an addition.  The
    lookups in [_CUSIPS] and [_TXF_CATEGORIES] never raise [KeyError] and
    [Decimal] never rejects an amount, since the patterns let through only
    the symbols, checkbox letters and amounts these accept. *)
Theorem X3_run_stops_as_written {rt : PyRuntime} lines st e :
  Convert2022.run lines = Some (st, Some e) -> written_stop e.
Proof.
  intros H. apply (loop_stop lines _ _ _ _ H). intros c. discriminate.
Qed.

Lemma X3_run_stops_as_written_witness :
  exists st,
    Convert2022.run (rt := ExampleRuntime.example_runtime)
      (map lit ["Box E checked"; "02079K305"; "1 SHARE OF GOOG";
                "11/25/2015 730.98 769.63 X"; "05/24/2016 GROSS"])
    = Some (st, Some (Convert2022.SysExit
                        (Convert2022.UnexpectedPair (Some (lit "GOOG"))
                                                    (lit "02079K305"))))
    /\ written_stop (Convert2022.SysExit
                       (Convert2022.UnexpectedPair (Some (lit "GOOG"))
                                                   (lit "02079K305"))).
Proof.
  eexists. split; [vm_compute; reflexivity|].
  eapply (X3_run_stops_as_written (rt := ExampleRuntime.example_runtime)
            (map lit ["Box E checked"; "02079K305"; "1 SHARE OF GOOG";
                      "11/25/2015 730.98 769.63 X"; "05/24/2016 GROSS"])).
  vm_compute. reflexivity.
Defined.

(** ** Reading past the end *)

(** X4. Reading a record raises [IndexError] in one situation only: two
    lines follow the identifier line, which passes the length check of line
    102, and they are a description line for the identifier's symbol and
    an amounts line, so that the sale line is read one past the end. *)
Theorem X4_index_error_iff_cut_after_amounts lines i line :
  Convert2022.read_record lines i line = Convert2022.raise IndexError
  <-> cut_after_amounts lines i line.
Proof.
  unfold Convert2022.read_record, Convert2022.exit, Convert2022.raise,
    Convert2022.index.
  destruct (length lines <? i + 3)%nat eqn:El.
  { apply Nat.ltb_lt in El. split; [discriminate|]. intros [? _]. lia. }
  apply Nat.ltb_ge in El.
  destruct (lookup_lt_is_Some_2 lines (i + 1)%nat ltac:(lia)) as [l1 E1].
  destruct (lookup_lt_is_Some_2 lines (i + 1 + 1)%nat ltac:(lia)) as [l2 E2].
  assert (Hcut : cut_after_amounts lines i line <->
                 length lines = (i + 3)%nat
                 /\ Re.match_ Convert2022.combined_re l1 = None
                 /\ exists m m3,
                      Re.match_ Convert2022.line2_re l1 = Some m
                      /\ Convert2022.check_pair (Re.group m 1) (upper line)
                         = inr tt
                      /\ Re.match_ Convert2022.line3_re l2 = Some m3).
  { unfold cut_after_amounts. replace (i + 2)%nat with (i + 1 + 1)%nat by lia.
    rewrite E1, E2. split.
    - intros (? & ? & ? & m & m3 & [= <-] & ? & ? & ? & [= <-] & ?). eauto 10.
    - intros (? & ? & m & m3 & ? & ? & ?). split; [done|].
      by exists l1, l2, m, m3. }
  rewrite Hcut. clear Hcut.
  rewrite E1. cbn [bind].
  destruct (Re.match_ Convert2022.combined_re l1) as [m|] eqn:Em.
  - split; [|by intros (_ & ? & _)].
    destruct (Convert2022.check_pair _ _) as [e|[]] eqn:Ec; cbn [bind].
    + intros [= ->]. destruct (combined_groups _ _ Em) as ((w & S1 & Q1) & _).
      rewrite S1 in Ec. pose proof (check_pair_result w (upper line) Q1) as Hc.
      rewrite Ec in Hc. by destruct Hc.
    + rewrite E2. cbn [bind].
      by destruct (Re.match_ Convert2022.line4_re l2).
  - destruct (Re.match_ Convert2022.line2_re l1) as [m|] eqn:Em2.
    2:{ split; [discriminate|]. by intros (_ & _ & ? & ? & ? & _). }
    destruct (Convert2022.check_pair (Re.group m 1) (upper line)) as [e|[]] eqn:Ec;
      cbn [bind].
    { split.
      - intros [= ->]. destruct (line2_groups _ _ Em2) as (w & S1 & Q1).
        rewrite S1 in Ec. pose proof (check_pair_result w (upper line) Q1) as Hc.
        rewrite Ec in Hc. by destruct Hc.
      - intros (_ & _ & m' & ? & [= <-] & Hc & _). congruence. }
    rewrite E2. cbn [bind].
    destruct (Re.match_ Convert2022.line3_re l2) as [m3|] eqn:Em3; cbn [bind].
    2:{ split; [discriminate|]. by intros (_ & _ & ? & ? & _ & _ & ?). }
    destruct (lines !! (i + 1 + 1 + 1)%nat) as [l3|] eqn:E3; cbn [bind].
    + apply lookup_lt_Some in E3. split.
      * by destruct (Re.match_ Convert2022.line4_re l3).
      * intros [? _]. lia.
    + apply lookup_ge_None in E3. split; [|done]. intros _.
      split; [lia|]. split; [done|]. by exists m, m3.
Qed.

(** ** What the loop keeps *)

Section Loop.

Context {rt : PyRuntime}.
Variable lines : list str.

(** The two kinds of turn that go on: one that takes no record, and one
    that takes the record at the current line. *)
Lemma turn_inr st line st' :
  Convert2022.turn lines st line = inr st' ->
  (Convert2022.accepted st' = Convert2022.accepted st
   /\ Convert2022.input_line st' = (Convert2022.input_line st + 1)%nat)
  \/ exists cat i f t dp db dw item,
       Convert2022.txf_category st = Some cat
       /\ Convert2022.read_record lines (Convert2022.input_line st) line
          = inr (i, f)
       /\ Convert2022.account (Convert2022.totals st) cat f
          = inr (t, (dp, db, dw))
       /\ Convert2022.make_item cat f = inr item
       /\ st' = Convert2022.mkState i (Some cat) t
                  (Convert2022.output st ++ [item])
                  (Convert2022.accepted st
                   ++ [Convert2022.mkLot cat f dp db dw item]).
Proof.
  unfold Convert2022.turn. intros H.
  destruct (Re.search Convert2022.marker_re line) as [m|].
  { inversion H; subst. by left. }
  destruct (negb _); [inversion H; subst; by left|].
  destruct (Convert2022.txf_category st) as [cat|]; [|discriminate H].
  destruct (Convert2022.read_record _ _ _) as [|[i f]] eqn:Er; cbn [bind] in H;
    [discriminate H|].
  destruct (Convert2022.account _ _ _) as [|[t [[dp db] dw]]] eqn:Ea;
    cbn [bind] in H; [discriminate H|].
  destruct (Convert2022.make_item _ _) as [|item] eqn:Ei; cbn [bind] in H;
    [discriminate H|].
  inversion H; subst. right. by exists cat, i, f, t, dp, db, dw, item.
Qed.

Lemma loop_preserves (P : Convert2022.State -> Prop) :
  (forall st line st',
     lines !! Convert2022.input_line st = Some line ->
     Convert2022.turn lines st line = inr st' -> P st -> P st') ->
  forall fuel st st' e,
    Convert2022.loop lines fuel st = Some (st', e) -> P st -> P st'.
Proof.
  intros Hstep fuel. induction fuel as [|fuel IH]; intros st st' e H Hp;
    [discriminate|].
  cbn [Convert2022.loop] in H.
  destruct (lines !! Convert2022.input_line st) as [line|] eqn:El;
    [|by inversion H; subst].
  destruct (Convert2022.turn lines st line) as [x|st1] eqn:Et.
  - by inversion H; subst.
  - apply (IH st1 st' e H). by apply (Hstep st line).
Qed.

Lemma run_fields_shape st e :
  Convert2022.run lines = Some (st, e) ->
  Forall (fun lot => Fields_shape (Convert2022.lot_fields lot))
         (Convert2022.accepted st).
Proof.
  intros H.
  refine (loop_preserves
            (fun st => Forall (fun lot => Fields_shape (Convert2022.lot_fields lot))
                              (Convert2022.accepted st)) _ _ _ _ _ H _);
    [|constructor].
  intros s line s' _ Ht Hp.
  destruct (turn_inr _ _ _ Ht)
    as [[-> _]|(cat & i & f & t & dp & db & dw & item & _ & Hr & _ & _ & ->)];
    [done|].
  cbn. apply Forall_app. split; [done|]. constructor; [|constructor]. cbn.
  pose proof (read_record_result lines (Convert2022.input_line s) line) as Hs.
  by rewrite Hr in Hs.
Qed.

End Loop.

Lemma reads_as_of_shape w d :
  amount_shape w -> Convert2022.amount (Some w) = inr d -> reads_as (Some w) d.
Proof.
  intros Hw Ha.
  destruct (amount_shape_value w Hw) as (a & b & -> & Hfa & Hb & Hfb & E).
  rewrite E in Ha. inversion Ha; subst d. by exists a, b.
Qed.

(** ** The amounts of the lots *)

(** X5. The amounts added to the totals for a lot are the amounts of its
    text read exactly: the text is digits and commas, a point, and digits;
    the [Decimal] is not negative, its coefficient is the digits before and
    after the point read as one number, commas dropped, and its exponent
    is minus the number of digits after the point.  A lot has a wash
    amount exactly when its text has one. *)
Theorem X5_amounts_read_exactly {rt : PyRuntime} lines st e lot :
  Convert2022.run lines = Some (st, e) ->
  In lot (Convert2022.accepted st) ->
  reads_as (Convert2022.f_proceeds (Convert2022.lot_fields lot))
           (Convert2022.lot_proceeds lot)
  /\ reads_as (Convert2022.f_basis (Convert2022.lot_fields lot))
              (Convert2022.lot_basis lot)
  /\ match Convert2022.lot_wash lot with
     | Some d => reads_as (Convert2022.f_wash (Convert2022.lot_fields lot)) d
     | None => Convert2022.f_wash (Convert2022.lot_fields lot) = None
     end.
Proof.
  intros Hr Hin.
  destruct (run_lot_facts lines st e lot Hr Hin) as ((_ & Hp & Hb & Hw & _) & _).
  pose proof (run_fields_shape lines st e Hr) as Hs.
  rewrite Forall_forall in Hs. apply list_elem_of_In in Hin.
  destruct (Hs lot Hin) as (_ & _ & (p & Sp & Qp) & (b & Sb & Qb) & Qw & _).
  rewrite Sp in Hp |- *. rewrite Sb in Hb |- *.
  split; [by apply reads_as_of_shape|]. split; [by apply reads_as_of_shape|].
  destruct (Convert2022.f_wash (Convert2022.lot_fields lot)) as [w|] eqn:Ew.
  - destruct Hw as (d & Hd & ->). apply reads_as_of_shape; auto.
  - by rewrite Hw.
Qed.

Lemma X5_amounts_read_exactly_witness :
  exists st lot,
    Convert2022.run (rt := ExampleRuntime.example_runtime)
      (map lit ["Box B checked"; "02079K107"; "3 SHARES OF GOOG";
                "07/25/2019 4,498.54 3,413.43 1,100.22 X"; "08/06/2020 GROSS"])
    = Some (st, None)
    /\ Convert2022.accepted st = [lot]
    /\ Convert2022.lot_proceeds lot = mkDecimal false 449854 (-2)
    /\ Convert2022.lot_wash lot = Some (mkDecimal false 110022 (-2))
    /\ reads_as (Convert2022.f_proceeds (Convert2022.lot_fields lot))
                (Convert2022.lot_proceeds lot).
Proof.
  eexists. eexists. split; [vm_compute; reflexivity|].
  split; [reflexivity|]. split; [reflexivity|]. split; [reflexivity|].
  refine (proj1 (X5_amounts_read_exactly (rt := ExampleRuntime.example_runtime)
                   (map lit ["Box B checked"; "02079K107"; "3 SHARES OF GOOG";
                             "07/25/2019 4,498.54 3,413.43 1,100.22 X";
                             "08/06/2020 GROSS"])
                   _ None _ _ _)).
  - vm_compute. reflexivity.
  - left. reflexivity.
Defined.

Lemma Dsum_exponent e0 l :
  forall init t,
    dexp init = e0 -> Forall (fun d => dexp d = e0) l ->
    sums_unrounded init l -> Dsum init l = Some t -> dexp t = e0.
Proof.
  induction l as [|d l IH]; intros init t Hi Hl Hu Hs.
  - inversion Hs; by subst.
  - inversion Hl; subst. destruct Hu as [Hu1 Hu2].
    unfold Dsum in Hs. cbn [foldl mbind option_bind] in Hs.
    change (Dadd init d) with (fix_ (Dadd_exact init d)) in Hs.
    rewrite Hu1 in Hs. apply (IH (Dadd_exact init d) t); auto.
    unfold Dadd_exact. cbn [dexp]. lia.
Qed.

(** X6. When the amounts of a checkbox's lots all have two digits after
    the point, and no running sum needs more than the 28 digits of the
    context, the total has two digits after the point as well (its
    exponent is -2): the remark of lines 204-206 on the totals printed at
    the end. *)
Theorem X6_totals_keep_two_places {rt : PyRuntime} lines st e k :
  Convert2022.run lines = Some (st, e) ->
  let lots := lots_of k (Convert2022.accepted st) in
  let t := Convert2022.entry (Convert2022.totals st) k in
  (Forall (fun d => dexp d = -2) (map Convert2022.lot_proceeds lots) ->
   sums_unrounded Decimal_0_00 (map Convert2022.lot_proceeds lots) ->
   dexp (Convert2022.proceeds t) = -2)
  /\ (Forall (fun d => dexp d = -2) (map Convert2022.lot_basis lots) ->
      sums_unrounded Decimal_0_00 (map Convert2022.lot_basis lots) ->
      dexp (Convert2022.basis t) = -2)
  /\ (Forall (fun d => dexp d = -2) (omap Convert2022.lot_wash lots) ->
      sums_unrounded Decimal_0_00 (omap Convert2022.lot_wash lots) ->
      dexp (Convert2022.wash t) = -2).
Proof.
  intros Hr lots t.
  destruct (run_Inv lines st e Hr) as (_ & _ & Hm).
  destruct (Hm k) as (Mp & Mb & Mw & _). fold lots in Mp, Mb, Mw.
  fold t in Mp, Mb, Mw.
  split; [|split]; intros Hf Hu;
    eapply (Dsum_exponent (-2) _ Decimal_0_00); eauto.
Qed.

Lemma X6_totals_keep_two_places_witness :
  exists st,
    Convert2022.run (rt := ExampleRuntime.example_runtime)
      (map lit ["Box B checked"; "02079K107"; "3 SHARES OF GOOG";
                "07/25/2019 4,498.54 3,413.43 1,100.22 X"; "08/06/2020 GROSS";
                "02079K107"; "2 SHARES OF GOOG 01/27/2020 2,933.94 2,933.42 X";
                "02/06/2020 GROSS"])
    = Some (st, None)
    /\ Convert2022.proceeds (Convert2022.entry (Convert2022.totals st) (lit "B"))
       = mkDecimal false 743248 (-2)
    /\ dexp (Convert2022.proceeds
               (Convert2022.entry (Convert2022.totals st) (lit "B"))) = -2.
Proof.
  eexists. split; [vm_compute; reflexivity|]. split; [vm_compute; reflexivity|].
  refine (proj1 (X6_totals_keep_two_places
                   (rt := ExampleRuntime.example_runtime)
                   (map lit ["Box B checked"; "02079K107"; "3 SHARES OF GOOG";
                             "07/25/2019 4,498.54 3,413.43 1,100.22 X";
                             "08/06/2020 GROSS"; "02079K107";
                             "2 SHARES OF GOOG 01/27/2020 2,933.94 2,933.42 X";
                             "02/06/2020 GROSS"])
                   _ None (lit "B") _) _ _).
  - vm_compute. reflexivity.
  - vm_compute. repeat constructor.
  - vm_compute. repeat split.
Defined.

(** ** The checkbox a lot is filed under *)

Lemma lang_only (P : ascii -> bool) r w :
  Re.only P r -> lang r w -> Forall (fun c => P c = true) w.
Proof.
  revert w. induction r as [c|p|r1 IH1 r2 IH2|r1 IH1 r2 IH2|r1 IH1|p|j r1 IH1| |];
    intros w Ho Hl; cbn in *.
  - subst. by repeat constructor.
  - destruct Hl as (c & -> & Hc). repeat constructor. auto.
  - destruct Ho, Hl as (a & b & -> & ? & ?). apply Forall_app. auto.
  - destruct Ho, Hl; auto.
  - destruct Hl as [->|?]; [constructor|auto].
  - destruct Hl as [_ Hl]. eapply Forall_impl; [exact Hl|]. auto.
  - auto.
  - subst. constructor.
  - subst. constructor.
Qed.

Lemma at_end_not_x s : Re.at_end s = true -> Forall (fun c => not_x c = true) s.
Proof.
  destruct s as [|c [|d s]]; cbn; try discriminate; [constructor|].
  intros H. repeat constructor. revert H. by_ascii c.
Qed.

Ltac only_tac :=
  cbn [Re.only Re.Seq Re.Str Re.Times Nat.add lit list_ascii_of_string
       Convert2022.combined_re Convert2022.line2_re Convert2022.line3_re
       Convert2022.line4_re Convert2022.amounts_re
       Convert2022.shares_re Convert2022.date_re Convert2022.amount_re];
  repeat split; try reflexivity;
  let c := fresh "c" in intros c; by_ascii c.

(** A line one of the record patterns matches holds no [x]. *)
Lemma matched_line_not_x r line m :
  Re.only not_x r -> ends_at_eol r -> Re.match_ r line = Some m ->
  Forall (fun c => not_x c = true) line.
Proof.
  intros Ho He Hm.
  assert (G : grp_lang (fun _ => True) 0 r).
  { clear. induction r; cbn; auto. }
  destruct (match_lang _ _ _ _ _ G Hm) as ((pre & s' & -> & Hl & Hs) & _).
  apply Forall_app. split; [by apply (lang_only not_x r)|].
  by apply at_end_not_x, Hs.
Qed.

Lemma marker_needs_x line :
  Forall (fun c => not_x c = true) line ->
  Re.search Convert2022.marker_re line = None.
Proof.
  induction 1 as [|c line Hc Hl IH]; cbn [Re.search].
  - by destruct (Re.match_ Convert2022.marker_re []) eqn:E.
  - destruct (Re.match_ Convert2022.marker_re (c :: line)) as [g|] eqn:E;
      [|exact IH].
    exfalso.
    assert (G : grp_lang (fun _ => True) 0 Convert2022.marker_re) by (cbn; tauto).
    destruct (match_lang _ _ _ _ _ G E) as ((pre & s' & Hs & Hp & _) & _).
    cbn in Hp. lang_inv. cbn in Hs.
    assert (Hall : Forall (fun c => not_x c = true) (c :: line))
      by (by constructor).
    rewrite Hs in Hall.
    do 3 (apply Forall_cons in Hall as [? Hall]). discriminate.
Qed.

Lemma registry_line_no_marker line :
  existsb (str_eqb line) (dict_values Convert2022._CUSIPS) = true ->
  Re.search Convert2022.marker_re line = None.
Proof.
  cbn. unfold str_eqb. repeat case_bool_decide; subst; try discriminate;
    intros _; vm_compute; reflexivity.
Qed.

(** The lines a record takes after its identifier line hold no marker. *)
Lemma read_record_no_marker lines i line i' f :
  Convert2022.read_record lines i line = inr (i', f) ->
  (i < i')%nat
  /\ forall j l, (i < j < i')%nat -> lines !! j = Some l ->
                 Re.search Convert2022.marker_re l = None.
Proof.
  assert (Oc : Re.only not_x Convert2022.combined_re) by only_tac.
  assert (O2 : Re.only not_x Convert2022.line2_re) by only_tac.
  assert (O3 : Re.only not_x Convert2022.line3_re) by only_tac.
  assert (O4 : Re.only not_x Convert2022.line4_re) by only_tac.
  assert (Ec : ends_at_eol Convert2022.combined_re) by (cbn; tauto).
  assert (E2 : ends_at_eol Convert2022.line2_re) by (cbn; tauto).
  assert (E3 : ends_at_eol Convert2022.line3_re) by (cbn; tauto).
  assert (E4 : ends_at_eol Convert2022.line4_re) by (cbn; tauto).
  unfold Convert2022.read_record.
  destruct (length lines <? i + 3)%nat; [discriminate|].
  pose proof (index_result lines (i + 1)) as H1.
  destruct (Convert2022.index lines (i + 1)) as [|l1]; cbn [bind]; [discriminate|].
  destruct (Re.match_ Convert2022.combined_re l1) as [m|] eqn:Em.
  - destruct (Convert2022.check_pair _ _) as [|[]]; cbn [bind]; [discriminate|].
    pose proof (index_result lines (i + 1 + 1)) as H2.
    destruct (Convert2022.index lines (i + 1 + 1)) as [|l2]; cbn [bind];
      [discriminate|].
    destruct (Re.match_ Convert2022.line4_re l2) as [m4|] eqn:Em4;
      [|discriminate].
    intros [= <- <-]. split; [lia|]. intros j l Hj Hl.
    apply marker_needs_x.
    assert (j = i + 1 \/ j = i + 1 + 1)%nat as [->| ->] by lia.
    + assert (l = l1) by congruence. subst.
      by apply (matched_line_not_x _ _ _ Oc Ec Em).
    + assert (l = l2) by congruence. subst.
      by apply (matched_line_not_x _ _ _ O4 E4 Em4).
  - destruct (Re.match_ Convert2022.line2_re l1) as [m|] eqn:Em2;
      [|discriminate].
    destruct (Convert2022.check_pair _ _) as [|[]]; cbn [bind]; [discriminate|].
    pose proof (index_result lines (i + 1 + 1)) as H2.
    destruct (Convert2022.index lines (i + 1 + 1)) as [|l2]; cbn [bind];
      [discriminate|].
    destruct (Re.match_ Convert2022.line3_re l2) as [m3|] eqn:Em3;
      [|discriminate]. cbn [bind].
    pose proof (index_result lines (i + 1 + 1 + 1)) as H3.
    destruct (Convert2022.index lines (i + 1 + 1 + 1)) as [|l3]; cbn [bind];
      [discriminate|].
    destruct (Re.match_ Convert2022.line4_re l3) as [m4|] eqn:Em4;
      [|discriminate].
    intros [= <- <-]. split; [lia|]. intros j l Hj Hl.
    apply marker_needs_x.
    assert (j = i + 1 \/ j = i + 1 + 1 \/ j = i + 1 + 1 + 1)%nat
      as [->|[->| ->]] by lia.
    + assert (l = l1) by congruence. subst.
      by apply (matched_line_not_x _ _ _ O2 E2 Em2).
    + assert (l = l2) by congruence. subst.
      by apply (matched_line_not_x _ _ _ O3 E3 Em3).
    + assert (l = l3) by congruence. subst.
      by apply (matched_line_not_x _ _ _ O4 E4 Em4).
Qed.

Lemma last_marker_snoc ls l :
  last_marker (ls ++ [l])
  = match Re.search Convert2022.marker_re l with
    | Some m => Re.group m 1
    | None => last_marker ls
    end.
Proof. unfold last_marker. by rewrite foldl_app. Qed.

Lemma last_marker_skip lines i n :
  (forall j l, (i <= j < i + n)%nat -> lines !! j = Some l ->
               Re.search Convert2022.marker_re l = None) ->
  last_marker (take (i + n) lines) = last_marker (take i lines).
Proof.
  induction n as [|n IH]; intros H; [by rewrite Nat.add_0_r|].
  replace (i + S n)%nat with (S (i + n)) by lia.
  destruct (lines !! (i + n)%nat) as [l|] eqn:El.
  - rewrite (take_S_r _ _ _ El), last_marker_snoc.
    rewrite (H (i + n)%nat l) by (done || lia). apply IH.
    intros j l' Hj. apply H. lia.
  - apply lookup_ge_None in El. rewrite !take_ge by lia.
    rewrite <- (take_ge lines (i + n)) at 1 by lia. apply IH.
    intros j l' Hj. apply H. lia.
Qed.

Section Category.

Context {rt : PyRuntime}.
Variable lines : list str.

Lemma turn_last_marker st line st' :
  lines !! Convert2022.input_line st = Some line ->
  Convert2022.turn lines st line = inr st' ->
  Convert2022.txf_category st
  = last_marker (take (Convert2022.input_line st) lines) ->
  Convert2022.txf_category st'
  = last_marker (take (Convert2022.input_line st') lines).
Proof.
  intros El Ht Hc. unfold Convert2022.turn in Ht.
  destruct (Re.search Convert2022.marker_re line) as [m|] eqn:Em.
  { inversion Ht; subst; cbn. rewrite Nat.add_1_r, (take_S_r _ _ _ El).
    by rewrite last_marker_snoc, Em. }
  destruct (negb _) eqn:En.
  { inversion Ht; subst; cbn. rewrite Nat.add_1_r, (take_S_r _ _ _ El).
    by rewrite last_marker_snoc, Em. }
  destruct (Convert2022.txf_category st) as [cat|] eqn:Ec; [|discriminate Ht].
  destruct (Convert2022.read_record _ _ _) as [|[i f]] eqn:Er; cbn [bind] in Ht;
    [discriminate Ht|].
  destruct (Convert2022.account _ _ _) as [|[t [[dp db] dw]]];
    cbn [bind] in Ht; [discriminate Ht|].
  destruct (Convert2022.make_item _ _) as [|item]; cbn [bind] in Ht;
    [discriminate Ht|].
  inversion Ht; subst; cbn. rewrite Hc.
  destruct (read_record_no_marker _ _ _ _ _ Er) as [Hlt Hno].
  replace i with (Convert2022.input_line st
                  + (i - Convert2022.input_line st))%nat at 1 by lia.
  symmetry. apply last_marker_skip. intros j l Hj Hl.
  destruct (decide (j = Convert2022.input_line st)) as [->|Hne].
  - congruence.
  - apply (Hno j l); [lia|done].
Qed.

End Category.

(** X12. At every turn of the loop [txf_category] is the letter of the
    last marker line among the lines before the current one, the lines of
    the records taken included; so a lot is filed under the checkbox of
    the last marker line before its identifier line. *)
Theorem X12_lot_filed_under_last_marker {rt : PyRuntime} lines st :
  reachable lines st ->
  Convert2022.txf_category st
  = last_marker (take (Convert2022.input_line st) lines)
  /\ forall line st' lot,
       lines !! Convert2022.input_line st = Some line ->
       Convert2022.turn lines st line = inr st' ->
       Convert2022.accepted st' = Convert2022.accepted st ++ [lot] ->
       Some (Convert2022.lot_category lot)
       = last_marker (take (Convert2022.input_line st) lines).
Proof.
  intros Hr.
  assert (Hc : Convert2022.txf_category st
               = last_marker (take (Convert2022.input_line st) lines)).
  { induction Hr as [|s line s' _ IH El Et]; [done|].
    by apply (turn_last_marker lines s line s'). }
  split; [done|]. intros line st' lot El Et Ha.
  destruct (turn_inr _ _ _ _ Et)
    as [[Hsame _]|(cat & i & f & t & dp & db & dw & item & Hcat & _ & _ & _ & ->)].
  - rewrite Hsame in Ha. apply (f_equal length) in Ha.
    rewrite length_app in Ha. cbn in Ha. lia.
  - cbn in Ha. apply app_inj_tail in Ha as [_ <-]. cbn. by rewrite <- Hc.
Qed.

Lemma X12_lot_filed_under_last_marker_witness :
  let lines := map lit ["Box B checked"; "Box E checked"; "02079K107";
                        "2 SHARES OF GOOG 01/27/2020 2,933.94 2,933.42 X";
                        "02/06/2020 GROSS"] in
  let st := Convert2022.mkState 2 (Some (lit "E")) ∅
              [Convert2022.header (rt := ExampleRuntime.example_runtime)] [] in
  exists st' lot,
    Convert2022.turn lines st (lit "02079K107") = inr st'
    /\ Convert2022.accepted st' = [lot]
    /\ Convert2022.lot_category lot = lit "E"
    /\ Some (Convert2022.lot_category lot) = last_marker (take 2 lines).
Proof.
  intros lines st. eexists. eexists.
  split; [vm_compute; reflexivity|]. split; [reflexivity|].
  split; [reflexivity|].
  refine (proj2 (X12_lot_filed_under_last_marker
                   (rt := ExampleRuntime.example_runtime) lines st _)
            (lit "02079K107") _ _ _ _ _).
  - apply (reach_turn lines
             (Convert2022.mkState 1 (Some (lit "B")) ∅
                [Convert2022.header (rt := ExampleRuntime.example_runtime)] [])
             (lit "Box E checked") st).
    + apply (reach_turn lines
               (Convert2022.init (rt := ExampleRuntime.example_runtime))
               (lit "Box B checked")).
      * apply reach_init.
      * reflexivity.
      * vm_compute. reflexivity.
    + reflexivity.
    + vm_compute. reflexivity.
  - reflexivity.
  - vm_compute. reflexivity.
  - reflexivity.
Defined.

(** ** How the self-contained converter can fail *)

Section ParseFailures.

Context {rt : PyRuntime}.







End ParseFailures.

(** ** Looking for the next identifier line *)

Lemma find_cusip_from_full rest idx r i :
  TaxformParser.find_cusip_from rest idx = (r, i) ->
  match r with
  | Some c =>
      exists k,
        i = S (idx + k) /\ rest !! k = Some c /\ is_identifier c = true
        /\ forall j l, (j < k)%nat -> rest !! j = Some l -> is_identifier l = false
  | None =>
      i = (idx + length rest)%nat
      /\ Forall (fun l => is_identifier l = false) rest
  end.
Proof.
  revert idx. induction rest as [|c rest IH]; intros idx; cbn [TaxformParser.find_cusip_from].
  - intros [= <- <-]. split; [cbn; lia|constructor].
  - fold (is_identifier c). destruct (is_identifier c) eqn:Ec.
    + intros [= <- <-]. exists 0%nat. split; [lia|]. split; [done|].
      split; [done|]. intros; lia.
    + intros H. specialize (IH _ H). destruct r as [c'|].
      * destruct IH as (k & -> & Hk & Hc & Hbefore). exists (S k).
        split; [lia|]. split; [done|]. split; [done|].
        intros [|j] l Hj; cbn; [by intros [= <-]|]. apply Hbefore. lia.
      * destruct IH as [-> Hall]. split; [cbn; lia|by constructor].
Qed.

Lemma find_cusip_full tk :
  let '(r, tk') := TaxformParser.find_cusip tk in
  let i0 := TaxformParser.line_idx tk in
  let ls := TaxformParser.lines tk in
  TaxformParser.lines tk' = ls
  /\ TaxformParser.tokens tk' = TaxformParser.tokens tk
  /\ match r with
     | Some c =>
         exists i,
           (i0 <= i)%nat /\ ls !! i = Some c /\ is_identifier c = true
           /\ TaxformParser.line_idx tk' = S i
           /\ forall j l, (i0 <= j < i)%nat -> ls !! j = Some l ->
                          is_identifier l = false
     | None =>
         TaxformParser.line_idx tk' = Nat.max i0 (length ls)
         /\ forall j l, (i0 <= j)%nat -> ls !! j = Some l ->
                        is_identifier l = false
     end.
Proof.
  unfold TaxformParser.find_cusip.
  destruct (TaxformParser.find_cusip_from _ _) as [r i] eqn:E.
  cbv zeta. cbn [TaxformParser.lines TaxformParser.tokens TaxformParser.line_idx].
  split; [done|]. split; [done|].
  pose proof (find_cusip_from_full _ _ _ _ E) as H. destruct r as [c|].
  - destruct H as (k & -> & Hk & Hc & Hbefore). rewrite lookup_drop in Hk.
    exists (TaxformParser.line_idx tk + k)%nat.
    split; [lia|]. split; [done|]. split; [done|]. split; [done|].
    intros j l Hj Hl. apply (Hbefore (j - TaxformParser.line_idx tk)%nat); [lia|].
    rewrite lookup_drop. by replace (_ + _)%nat with j by lia.
  - destruct H as [-> Hall]. rewrite length_drop. split; [lia|].
    intros j l Hj Hl. rewrite Forall_forall in Hall. apply Hall.
    apply (list_elem_of_lookup_2 _ (j - TaxformParser.line_idx tk)%nat).
    rewrite lookup_drop. by replace (_ + _)%nat with j by lia.
Qed.

(** X7. [find_cusip] returns the first line, from the current one on, that
    starts with [3825] or [0207], and leaves the tokenizer on the line after
    it; every line it passed starts with neither.  When there is no such
    line it returns [None] with the tokenizer at the end of the lines (or
    where it was, if that is further).  The lines and the pending tokens
    are left as they were. *)
Theorem X7_find_cusip_first_identifier tk :
  let '(r, tk') := TaxformParser.find_cusip tk in
  let i0 := TaxformParser.line_idx tk in
  let ls := TaxformParser.lines tk in
  TaxformParser.lines tk' = ls
  /\ TaxformParser.tokens tk' = TaxformParser.tokens tk
  /\ match r with
     | Some c =>
         exists i,
           (i0 <= i)%nat /\ ls !! i = Some c /\ is_identifier c = true
           /\ TaxformParser.line_idx tk' = S i
           /\ forall j l, (i0 <= j < i)%nat -> ls !! j = Some l ->
                          is_identifier l = false
     | None =>
         TaxformParser.line_idx tk' = Nat.max i0 (length ls)
         /\ forall j l, (i0 <= j)%nat -> ls !! j = Some l ->
                        is_identifier l = false
     end.
Proof. apply find_cusip_full. Qed.

(** ** The failures of a run *)

Section RunFailures.

Context {rt : PyRuntime}.




End RunFailures.



(** ** The tokens in the order they are read *)

(** X9. Calls of [next_token] in a row return the pending tokens and then
    the pieces of the remaining lines between single blanks, line by line
    and left to right (an empty line gives one empty token), and [None]
    for ever once these are used up; what is left to read after [n] calls
    is the same sequence without its first [n] tokens. *)
Theorem X9_next_token_reads_the_stream n tk :
  fst (read_tokens n tk)
  = map Some (take n (stream tk)) ++ replicate (n - length (stream tk)) None
  /\ stream (snd (read_tokens n tk)) = drop n (stream tk).
Proof.
  revert tk. induction n as [|n IH]; intros tk; [done|].
  cbn [read_tokens]. destruct (stream tk) as [|t rest] eqn:Hs.
  - rewrite (next_token_nil _ Hs). specialize (IH tk). rewrite Hs in IH.
    destruct (read_tokens n tk) as [rs tk2]. cbn in *.
    destruct IH as [-> ->]. rewrite take_nil, drop_nil, Nat.sub_0_r. done.
  - destruct (next_token_cons _ _ _ Hs) as (tk1 & -> & Hs1).
    specialize (IH tk1). rewrite Hs1 in IH.
    destruct (read_tokens n tk1) as [rs tk2]. cbn in *.
    destruct IH as [-> ->]. done.
Qed.

(** ** The records of the self-contained converter *)

Lemma lang_month w :
  lang (Re.Alt (Re.Cat (Re.Chr "1") (Re.Cls (in_range "0" "2")))
          (Re.Alt (Re.Cat (Re.Chr "0") (Re.Cls (in_range "1" "9")))
                  (Re.Cls (in_range "1" "9")))) w ->
  (1 <= int_of_digits w <= 12)%N.
Proof.
  cbn. intros [H|[H|H]]; lang_inv; cbn [app];
    match goal with H : in_range _ _ ?c = true |- _ => revert H; by_ascii c end.
Qed.

Lemma strptime_valid s d : strptime s = Some d -> valid_date d.
Proof.
  unfold strptime.
  destruct (Re.match_end strptime_re s) as [[g [|? ?]]|] eqn:Em; try discriminate.
  assert (Hm : Re.match_ strptime_re s = Some g)
    by (unfold Re.match_; by rewrite Em).
  assert (G1 : grp_lang (fun w => (1 <= int_of_digits w <= 12)%N) 1 strptime_re).
  { cbn [grp_lang strptime_re Re.Seq Re.Times].
    split; [split; [intros _ w Hw; by apply lang_month|done]|].
    repeat split; try done; lia. }
  destruct (match_lang _ _ _ _ _ G1 Hm) as (_ & Q1 & _).
  destruct (Re.group g 1) as [m|] eqn:E1; [|discriminate].
  destruct (Re.group g 2) as [dd|]; [|discriminate].
  destruct (Re.group g 3) as [y|]; [|discriminate].
  specialize (Q1 m eq_refl).
  destruct (_ && _)%N eqn:Ec; [|discriminate]. intros [= <-].
  apply andb_prop in Ec as [Ec Hd]. apply andb_prop in Ec as [Hy Hd1].
  apply N.leb_le in Hy, Hd1, Hd. unfold valid_date. cbn. lia.
Qed.

Section RecordFacts.

Context {rt : PyRuntime}.

Lemma parse_loop_records (Q : TaxformParser.Record_ float -> Prop) :
  (forall c tk r tk',
     is_identifier c = true ->
     TaxformParser.parse_record c tk = inr (r, tk') -> Q r) ->
  forall fuel st st',
    TaxformParser.parse_loop fuel st = Some (inr st') ->
    Forall Q (TaxformParser.records st) -> Forall Q (TaxformParser.records st').
Proof.
  intros Hq fuel. induction fuel as [|fuel IH]; intros st st' H Hf;
    [discriminate|].
  cbn [TaxformParser.parse_loop] in H.
  pose proof (find_cusip_full (TaxformParser.tokenizer st)) as Hc.
  destruct (TaxformParser.find_cusip (TaxformParser.tokenizer st))
    as [[[|c0 c]|] tk]; [by inversion H; subst| |by inversion H; subst].
  cbv zeta in Hc. destruct Hc as (_ & _ & i & _ & _ & Hid & _).
  destruct (TaxformParser.parse_turn st (c0 :: c) tk) as [|st1] eqn:Et;
    [discriminate|].
  apply (IH st1 st' H). unfold TaxformParser.parse_turn in Et.
  destruct (TaxformParser.parse_record (c0 :: c) tk) as [|[r tk1]] eqn:Er;
    cbn [bind] in Et; [discriminate|].
  destruct (TaxformParser.add _ _); cbn [bind] in Et; [discriminate|].
  destruct (TaxformParser.add _ _); cbn [bind] in Et; [discriminate|].
  destruct (TaxformParser.add _ _); cbn [bind] in Et; [discriminate|].
  inversion Et; subst; cbn. apply Forall_app. split; [done|].
  constructor; [|constructor]. by apply (Hq (c0 :: c) tk r tk1).
Qed.

End RecordFacts.

(** X10. Every record [parse1099Form] returns has an identifier that
    starts with [3825] or [0207], the symbol [GOOG] or [GOOGL], and
    acquisition and sale dates that are days of the calendar: a year from
    1 on, a month from 1 to 12, and a day the month has in that year. *)
Theorem X10_records_are_well_formed {rt : PyRuntime} raw st :
  TaxformParser.parse1099Form raw = Some (inr st) ->
  Forall (fun r =>
            is_identifier (TaxformParser.cusip r) = true
            /\ (TaxformParser.symbol r = lit "GOOG"
                \/ TaxformParser.symbol r = lit "GOOGL")
            /\ valid_date (TaxformParser.acquisition_date r)
            /\ valid_date (TaxformParser.sale_date r))
         (TaxformParser.records st).
Proof.
  intros H. refine (parse_loop_records _ _ _ _ _ H _); [|constructor].
  intros c tk r tk' Hc Hr.
  destruct (parse_record_spec _ _ _ _ Hr) as (l & Hs & Hm).
  destruct (scan_record_ok _ _ _ Hs) as (_ & _ & _ & _ & Hsym).
  destruct (make_record_spec _ _ _ Hm) as (_ & -> & -> & Hsd & Had & _).
  split; [done|]. split; [by destruct Hsym as [-> | ->]; auto|].
  unfold TaxformParser.parse_date in Hsd, Had.
  destruct (TaxformParser.l_sale_date l) as [s|]; [|discriminate].
  destruct (TaxformParser.l_acq_date l) as [a|]; [|discriminate].
  destruct (strptime s) eqn:Es; [|discriminate].
  destruct (strptime a) eqn:Ea; [|discriminate].
  inversion Hsd; inversion Had; subst. eauto using strptime_valid.
Qed.

Lemma X10_records_are_well_formed_witness :
  exists st r,
    TaxformParser.parse1099Form (rt := ExampleRuntime.example_runtime)
      (map lit ["02079K107"; "2 SHARES OF GOOG";
                "02/29/2020 2,933.94 2,933.42 X"; "02/06/2021 GROSS"])
    = Some (inr st)
    /\ TaxformParser.records st = [r]
    /\ TaxformParser.acquisition_date r = mkDate 2020 2 29
    /\ Forall (fun r =>
                 is_identifier (TaxformParser.cusip r) = true
                 /\ (TaxformParser.symbol r = lit "GOOG"
                     \/ TaxformParser.symbol r = lit "GOOGL")
                 /\ valid_date (TaxformParser.acquisition_date r)
                 /\ valid_date (TaxformParser.sale_date r))
              (TaxformParser.records st).
Proof.
  eexists. eexists. split; [vm_compute; reflexivity|].
  split; [reflexivity|]. split; [reflexivity|].
  eapply (X10_records_are_well_formed (rt := ExampleRuntime.example_runtime)
            (map lit ["02079K107"; "2 SHARES OF GOOG";
                      "02/29/2020 2,933.94 2,933.42 X"; "02/06/2021 GROSS"])).
  vm_compute. reflexivity.
Defined.

(** ** Sorting what is in order *)

Section Sorted.

Context {rt : PyRuntime}.

Lemma sort_sorted_id l :
  StronglySorted by_sale_date l -> TaxformParser.sort_by_sale_date l = l.
Proof.
  induction 1 as [|x l Hs IH Hx]; [done|].
  cbn [TaxformParser.sort_by_sale_date foldr].
  fold (TaxformParser.sort_by_sale_date l). rewrite IH.
  destruct l as [|y l]; [done|]. cbn [TaxformParser.sort_insert].
  inversion Hx; subst. unfold by_sale_date, date_le in *.
  by match goal with H : date_ltb _ _ = false |- _ => rewrite H end.
Qed.

End Sorted.

(** X11. Sorting by sale date changes nothing exactly when the records
    already are in non-decreasing order of sale date: a statement that
    lists its sales in date order is written in the order it was read. *)
Theorem X11_sort_keeps_sorted_input {rt : PyRuntime} l :
  TaxformParser.sort_by_sale_date l = l <-> StronglySorted by_sale_date l.
Proof.
  split; [|apply sort_sorted_id].
  intros <-. apply sort_by_sale_date_sorted.
Qed.

(** ** The line a parse error names *)


